(** * excel2pdf_convertor: a shallow embedding and its verified properties

    The development follows the two entry points of the repository:
    [excel2pdf.py] (column auto-fit, print settings, the two-renderer
    driver) and [excel_to_pdf/converter.py] (file-name sanitising and the
    per-sheet export).  Python values are embedded as Rocq data, built-in
    formatting as executable functions, and the calls into the office
    engines as oracle-driven steps over an explicit world state. *)

From Stdlib Require Import ZArith Zpower String Ascii List Bool Lia.
From Stdlib Require Import Floats.SpecFloat.
From stdpp Require Import base option gmap strings list pretty.

Local Open Scope string_scope.
Local Open Scope Z_scope.

(* ===================================================================== *)
(** * Python runtime: outcomes, strings, numbers                          *)
(* ===================================================================== *)

Module Py.

(** Exceptions derived from [Exception] that the modelled code can meet.
    Interrupts ([BaseException] outside [Exception]) are not modelled. *)
Inductive exn :=
  | OverflowError
  | ValueError
  | RuntimeError (msg : string)
  | FileNotFoundError
  | OSError
  | InvalidFileException
  | EngineError.

(** The result of evaluating a Python expression or call. *)
Inductive outcome (A : Type) :=
  | Returns (a : A)
  | Raises (e : exn).
Arguments Returns {A} a.
Arguments Raises {A} e.

Definition obind {A B} (o : outcome A) (k : A -> outcome B) : outcome B :=
  match o with
  | Returns a => k a
  | Raises e => Raises e
  end.

(** [len(s)] as a Python int.  A [string] is a sequence of characters,
    each of type [ascii]. *)
Definition len (s : string) : Z := Z.of_nat (String.length s).

(** ** Strings *)

(** [s.lower()] on the ASCII letters; other characters are kept. *)
Definition lower_char (c : ascii) : ascii :=
  let n := nat_of_ascii c in
  if (Nat.leb 65 n && Nat.leb n 90)%bool then ascii_of_nat (n + 32) else c.

Fixpoint lower (s : string) : string :=
  match s with
  | EmptyString => EmptyString
  | String c s' => String (lower_char c) (lower s')
  end.

(** [tok in s]: [tok] occurs in [s] as a contiguous substring. *)
Fixpoint str_in (tok s : string) : bool :=
  String.prefix tok s ||
  match s with
  | EmptyString => false
  | String _ s' => str_in tok s'
  end.

(** [any(tok in s for tok in toks)]. *)
Definition any_in (toks : list string) (s : string) : bool :=
  existsb (fun tok => str_in tok s) toks.

(** The declarative reading of [tok in s]. *)
Definition contains (tok s : string) : Prop :=
  exists pre post, s = pre ++ tok ++ post.

(** ** Numbers

    A Python [int] is a [Z]; a Python [float] is an IEEE 754 binary64
    value, embedded as the Standard Library's [spec_float] with precision
    53 and maximal exponent 1024. *)

Definition prec : Z := 53.
Definition emax : Z := 1024.

(** [float(z)]: round to nearest, ties to even; an integer beyond the
    binary64 range raises [OverflowError]. *)
Definition float_of_int (z : Z) : outcome spec_float :=
  match binary_normalize prec emax z 0 false with
  | S754_infinity _ => Raises OverflowError
  | f => Returns f
  end.

(** Rounding of the non-negative rational [num / den] to the nearest
    integer, ties to the even one. *)
Definition round_half_even (num den : Z) : Z :=
  let q := num / den in
  let r := num mod den in
  match (2 * r) ?= den with
  | Lt => q
  | Eq => if Z.even q then q else q + 1
  | Gt => q + 1
  end.

(** [m * 2^e * 10^p] rounded to an integer. *)
Definition scaled (p : nat) (m e : Z) : Z :=
  if 0 <=? e then m * 2 ^ e * 10 ^ Z.of_nat p
  else round_half_even (m * 10 ^ Z.of_nat p) (2 ^ (- e)).

(** Thousands separators: a comma before every group of three digits, counted
    from the right. *)
Fixpoint group_thousands (digits : string) : string :=
  match digits with
  | EmptyString => EmptyString
  | String c rest =>
      let n := String.length rest in
      if (Nat.ltb 0 n && Nat.eqb (n mod 3) 0)%bool
      then String c (String ","%char (group_thousands rest))
      else String c (group_thousands rest)
  end.

Fixpoint zeros (n : nat) : string :=
  match n with
  | O => EmptyString
  | S n' => String "0"%char (zeros n')
  end.

(** [digits] padded on the left with zeros to [width] characters. *)
Definition zero_pad (width : nat) (digits : string) : string :=
  zeros (width - String.length digits) ++ digits.

Definition sign_str (neg : bool) : string := if neg then "-" else "".

(** The value [(-1)^neg * m * 2^e] in fixed-point notation with grouped
    thousands and exactly [p] decimals: what the format specification
    [",.pf"] prints for a finite number. *)
Definition fixed_grouped (p : nat) (neg : bool) (m e : Z) : string :=
  let n := scaled p m e in
  let ip := n / 10 ^ Z.of_nat p in
  let fp := n mod 10 ^ Z.of_nat p in
  sign_str neg ++ group_thousands (pretty ip) ++
  match p with
  | O => ""
  | _ => "." ++ zero_pad p (pretty fp)
  end.

(** [format(f, ",.pf")] for a float. *)
Definition format_float_fixed (p : nat) (f : spec_float) : string :=
  match f with
  | S754_nan => "nan"
  | S754_infinity neg => sign_str neg ++ "inf"
  | S754_zero neg => fixed_grouped p neg 0 0
  | S754_finite neg m e => fixed_grouped p neg (Zpos m) e
  end.

(** [format(z, ",.pf")] for an int: the int is converted to float first. *)
Definition format_int_fixed (p : nat) (z : Z) : outcome string :=
  obind (float_of_int z) (fun f => Returns (format_float_fixed p f)).

(** [format(z, ",")] and [str(z)] for an int. *)
Definition format_int_grouped (z : Z) : string :=
  sign_str (z <? 0) ++ group_thousands (pretty (Z.abs z)).

Definition str_int (z : Z) : string := pretty z.

(** ** Shortest round-trip digits of a float ([repr])

    The digits of [repr(x)] for a finite positive [x = m * 2^e]: the
    shortest decimal [d * 10^q] that reads back as [x], the nearest to [x]
    among the shortest, the even one on a tie. *)

(** Compares the decimal [d * 10^q] with the binary [l * 2^g]. *)
Definition cmp_dec_bin (d q l g : Z) : comparison :=
  (d * 10 ^ Z.max q 0 * 2 ^ Z.max (- g) 0) ?=
  (l * 2 ^ Z.max g 0 * 10 ^ Z.max (- q) 0).

(** [floor (m * 2^e / 10^q)]. *)
Definition floor_scaled (m e q : Z) : Z :=
  (m * 2 ^ Z.max e 0 * 10 ^ Z.max (- q) 0) /
  (2 ^ Z.max (- e) 0 * 10 ^ Z.max q 0).

(** The decimal exponent [k] of [m * 2^e]: [10^(k-1) <= m * 2^e < 10^k]. *)
Fixpoint decimal_exponent_from (fuel : nat) (m e k : Z) : Z :=
  match fuel with
  | O => k
  | S fuel' =>
      match cmp_dec_bin 1 (k - 1) m e with
      | Gt => decimal_exponent_from fuel' m e (k - 1)
      | _ =>
          match cmp_dec_bin 1 k m e with
          | Gt => k
          | _ => decimal_exponent_from fuel' m e (k + 1)
          end
      end
  end.

Definition decimal_exponent (m e : Z) : Z :=
  decimal_exponent_from (Z.to_nat (Z.abs (Z.log2 m + e)) + 2) m e 0.

(** Whether [d * 10^q] rounds to the binary64 value [m * 2^e]: it lies
    between the midpoints to the neighbouring floats, the midpoints
    themselves counting when [m] is even. *)
Definition rounds_to (m e d q : Z) : bool :=
  let lo := if (m =? 2 ^ (prec - 1)) && (3 - emax - prec <? e)
            then 4 * m - 1 else 4 * m - 2 in
  let hi := 4 * m + 2 in
  match cmp_dec_bin d q lo (e - 2), cmp_dec_bin d q hi (e - 2) with
  | Gt, Lt => true
  | Eq, _ | _, Eq => Z.even m
  | _, _ => false
  end.

(** The digits at [n] significant places, if one of the two neighbours
    at that precision rounds to the float. *)
Definition digits_at (m e k : Z) (n : Z) : option (Z * Z) :=
  let q := k - n in
  let d := floor_scaled m e q in
  match rounds_to m e d q, rounds_to m e (d + 1) q with
  | true, true =>
      match cmp_dec_bin (2 * d + 1) q (2 * m) e with
      | Gt => Some (d, q)
      | Lt => Some (d + 1, q)
      | Eq => Some (if Z.even d then d else d + 1, q)
      end
  | true, false => Some (d, q)
  | false, true => Some (d + 1, q)
  | false, false => None
  end.

Fixpoint shortest_from (fuel : nat) (m e k n : Z) : Z * Z :=
  match fuel with
  | O => (floor_scaled m e (k - n), k - n)
  | S fuel' =>
      match digits_at m e k n with
      | Some dq => dq
      | None => shortest_from fuel' m e k (n + 1)
      end
  end.

(** Drops the trailing zeros of [d], moving them into the exponent. *)
Fixpoint strip_zeros (fuel : nat) (d q : Z) : Z * Z :=
  match fuel with
  | O => (d, q)
  | S fuel' =>
      if (0 <? d) && (d mod 10 =? 0) then strip_zeros fuel' (d / 10) (q + 1)
      else (d, q)
  end.

(** The digit string of [repr] and the position of the decimal point
    counted from its left end. *)
Definition shortest_digits (m e : Z) : string * Z :=
  let k := decimal_exponent m e in
  let '(d, q) := shortest_from 17 m e k 1 in
  let '(d, q) := strip_zeros 18 d q in
  let ds := pretty d in
  (ds, Z.of_nat (String.length ds) + q).

(** The slices [s[:n]] and [s[n:]]. *)
Fixpoint str_take (n : nat) (s : string) : string :=
  match n, s with
  | S n', String c s' => String c (str_take n' s')
  | _, _ => EmptyString
  end.

Fixpoint str_drop (n : nat) (s : string) : string :=
  match n, s with
  | S n', String _ s' => str_drop n' s'
  | _, _ => s
  end.

(** Lays the digits out as [repr] does: exponent notation when the decimal
    point falls more than 16 places right or 4 or more places left of the
    first digit, otherwise fixed notation with at least one decimal.
    [group] tells how the integer digits are written. *)
Definition layout_repr (group : string -> string) (ds : string) (decpt : Z)
  : string :=
  let nd := String.length ds in
  if (decpt <=? -4) || (16 <? decpt) then
    let ex := decpt - 1 in
    group (str_take 1 ds) ++
    (if Nat.ltb 1 nd then "." ++ str_drop 1 ds else "") ++
    "e" ++ (if ex <? 0 then "-" else "+") ++ zero_pad 2 (pretty (Z.abs ex))
  else if decpt <=? 0 then
    group "0" ++ "." ++ zeros (Z.to_nat (- decpt)) ++ ds
  else if decpt <? Z.of_nat nd then
    group (str_take (Z.to_nat decpt) ds) ++ "." ++ str_drop (Z.to_nat decpt) ds
  else
    group (ds ++ zeros (Z.to_nat decpt - nd)) ++ ".0".

Definition repr_float_with (group : string -> string) (f : spec_float)
  : string :=
  match f with
  | S754_nan => "nan"
  | S754_infinity neg => sign_str neg ++ "inf"
  | S754_zero neg => sign_str neg ++ group "0" ++ ".0"
  | S754_finite neg m e =>
      let '(ds, decpt) := shortest_digits (Zpos m) e in
      sign_str neg ++ layout_repr group ds decpt
  end.

(** [format(f, ",")] for a float. *)
Definition format_float_grouped (f : spec_float) : string :=
  repr_float_with group_thousands f.

(** [str(f)] for a float. *)
Definition str_float (f : spec_float) : string :=
  repr_float_with (fun digits => digits) f.

(** ** Paths ([pathlib])

    A path is the list of its components; [name] is the last one. *)
Definition path := list string.

Definition name (p : path) : string := List.last p "".
Definition parent (p : path) : path := List.removelast p.
Definition joinpath (p : path) (child : string) : path := (p ++ [child])%list.

(** [s.rfind(c)]: the index of the last occurrence of [c], scanning from
    index [i] with [best] the last one seen so far. *)
Fixpoint rfind_from (c : ascii) (s : string) (i : nat) (best : option nat)
  : option nat :=
  match s with
  | EmptyString => best
  | String a s' =>
      rfind_from c s' (S i) (if Ascii.eqb a c then Some i else best)
  end.

Definition rfind (c : ascii) (s : string) : option nat :=
  rfind_from c s 0 None.

(** Where [pathlib] splits a name into stem and suffix: at the last dot,
    unless it is the first or the last character. *)
Definition split_point (nm : string) : option nat :=
  match rfind "."%char nm with
  | Some i =>
      if (Nat.ltb 0 i && Nat.ltb i (String.length nm - 1))%bool
      then Some i else None
  | None => None
  end.

Definition suffix_of (nm : string) : string :=
  match split_point nm with
  | Some i => str_drop i nm
  | None => ""
  end.

Definition stem_of (nm : string) : string :=
  match split_point nm with
  | Some i => str_take i nm
  | None => nm
  end.

Definition stem (p : path) : string := stem_of (name p).

(** [p.with_suffix(suf).name]; [with_suffix] raises on an empty name. *)
Definition with_suffix_name (p : path) (suf : string) : outcome string :=
  if String.eqb (name p) "" then Raises ValueError
  else Returns (stem p ++ suf).

(** ** Computations over a state [S] that return or raise *)
Definition M (S A : Type) : Type := S -> outcome A * S.

Definition ret {S A} (a : A) : M S A := fun w => (Returns a, w).
Definition raise {S A} (e : exn) : M S A := fun w => (Raises e, w).

Definition bind {S A B} (m : M S A) (k : A -> M S B) : M S B :=
  fun w =>
    match m w with
    | (Returns a, w') => k a w'
    | (Raises e, w') => (Raises e, w')
    end.

(** [try: body except Exception: handler]. *)
Definition try_except {S A} (body : M S A) (handler : exn -> M S A)
  : M S A :=
  fun w =>
    match body w with
    | (Returns a, w') => (Returns a, w')
    | (Raises e, w') => handler e w'
    end.

(** [try: body finally: final]: [final] always runs; when it raises, its
    exception replaces the outcome of [body]. *)
Definition try_finally {S A} (body : M S A) (final : M S unit) : M S A :=
  fun w =>
    match body w with
    | (r, w') =>
        match final w' with
        | (Returns _, w'') => (r, w'')
        | (Raises e, w'') => (Raises e, w'')
        end
    end.

End Py.

(* ===================================================================== *)
(** * excel2pdf.py: width estimator and column auto-fit                   *)
(* ===================================================================== *)

Module Excel2pdf.
Import Py.

(** A cell value as the workbook library hands it over. *)
Inductive pyvalue :=
  | PyNone
  | PyBool (b : bool)
  | PyInt (z : Z)
  | PyFloat (f : spec_float)
  | PyStr (s : string).

(** A worksheet cell: its 1-based column index, its value and its declared
    number format ([None] when the descriptor is missing). *)
Record cell := {
  column : positive;
  value : pyvalue;
  number_format : option string
}.

(** The values for which [isinstance(v, (int, float))] holds; [bool] is a
    subclass of [int]. *)
Inductive number :=
  | NInt (z : Z)
  | NFloat (f : spec_float).

Definition as_number (v : pyvalue) : option number :=
  match v with
  | PyBool b => Some (NInt (Z.b2z b))
  | PyInt z => Some (NInt z)
  | PyFloat f => Some (NFloat f)
  | PyNone | PyStr _ => None
  end.

(** [f"{v:,.pf}"]. *)
Definition format_fixed (p : nat) (n : number) : outcome string :=
  match n with
  | NInt z => format_int_fixed p z
  | NFloat f => Returns (format_float_fixed p f)
  end.

(** [f"{v:,}"]. *)
Definition format_grouped (n : number) : outcome string :=
  match n with
  | NInt z => Returns (format_int_grouped z)
  | NFloat f => Returns (format_float_grouped f)
  end.

(** [str(v)]. *)
Definition str (v : pyvalue) : string :=
  match v with
  | PyNone => "None"
  | PyBool b => if b then "True" else "False"
  | PyInt z => str_int z
  | PyFloat f => str_float f
  | PyStr s => s
  end.

Definition two_decimal_tokens : list string := ["0.00"; "#,##0.00"; "0.0"].
Definition three_decimal_tokens : list string := ["0.000"; "0.0000"].

(** The body of the [try] block of [_approx_display_len]. *)
Definition _approx_display_len_try (c : cell) : outcome Z :=
  let v := value c in
  match as_number v with
  | Some n =>
      let nf := lower (default "" (number_format c)) in
      obind
        (if any_in two_decimal_tokens nf then format_fixed 2 n
         else if any_in three_decimal_tokens nf then format_fixed 3 n
         else format_grouped n)
        (fun s => Returns (len s))
  | None => Returns (len (str v))
  end.

(** [_approx_display_len(cell)]: 0 for an absent value, otherwise the [try]
    block, with [len(str(v))] when it raises. *)
Definition _approx_display_len (c : cell) : outcome Z :=
  match value c with
  | PyNone => Returns 0
  | v =>
      match _approx_display_len_try c with
      | Returns n => Returns n
      | Raises _ => Returns (len (str v))
      end
  end.

(** ** The [lengths] dictionary

    A Python [dict] keeps its keys in insertion order; assigning to a key
    that is present replaces its value in place. *)
Definition dict := list (positive * Z).

Fixpoint dict_get (k : positive) (d : dict) : option Z :=
  match d with
  | [] => None
  | (k', v) :: d' => if Pos.eqb k k' then Some v else dict_get k d'
  end.

Fixpoint dict_set (k : positive) (v : Z) (d : dict) : dict :=
  match d with
  | [] => [(k, v)]
  | (k', v') :: d' =>
      if Pos.eqb k k' then (k', v) :: d' else (k', v') :: dict_set k v d'
  end.

(** ** Worksheets *)

Inductive orientation_t := portrait | landscape_o.

(** A worksheet: the cells of its used range row by row, the widths that
    [column_dimensions] holds, the print options and the page setup.  The
    widths are keyed by column index: on the indexes a workbook can hold,
    [get_column_letter] is a one-to-one renaming of them. *)
Record worksheet := {
  rows : list (list cell);
  column_dimensions : gmap positive Z;
  gridLines : bool;
  headings : bool;
  fitToWidth : Z;
  fitToHeight : Z;
  orientation : orientation_t
}.

Definition with_column_dimensions (ws : worksheet) (dims : gmap positive Z)
  : worksheet :=
  {| rows := rows ws; column_dimensions := dims;
     gridLines := gridLines ws; headings := headings ws;
     fitToWidth := fitToWidth ws; fitToHeight := fitToHeight ws;
     orientation := orientation ws |}.

(** One iteration of the inner loop of [autofit_columns_openpyxl]. *)
Definition visit_cell (lengths : dict) (c : cell) : outcome dict :=
  match value c with
  | PyNone => Returns lengths
  | _ =>
      obind (_approx_display_len c) (fun L =>
        Returns
          (if 0 <? L then
             match dict_get (column c) lengths with
             | None => dict_set (column c) L lengths
             | Some old =>
                 if old <? L then dict_set (column c) L lengths else lengths
             end
           else lengths))
  end.

Fixpoint scan_row (row : list cell) (lengths : dict) : outcome dict :=
  match row with
  | [] => Returns lengths
  | c :: row' => obind (visit_cell lengths c) (scan_row row')
  end.

Fixpoint scan_rows (rs : list (list cell)) (lengths : dict) : outcome dict :=
  match rs with
  | [] => Returns lengths
  | row :: rs' => obind (scan_row row lengths) (scan_rows rs')
  end.

(** [max(min_width, min(max_width, L + padding))]. *)
Definition target_width (min_width padding max_width L : Z) : Z :=
  Z.max min_width (Z.min max_width (L + padding)).

(** The second loop: one width per entry of [lengths]. *)
Fixpoint set_widths (min_width padding max_width : Z) (items : dict)
  (dims : gmap positive Z) : gmap positive Z :=
  match items with
  | [] => dims
  | (col_idx, L) :: items' =>
      set_widths min_width padding max_width items'
        (<[col_idx := target_width min_width padding max_width L]> dims)
  end.

Definition autofit_columns_openpyxl (ws : worksheet)
  (min_width padding max_width : Z) : outcome worksheet :=
  obind (scan_rows (rows ws) []) (fun lengths =>
    Returns (with_column_dimensions ws
      (set_widths min_width padding max_width lengths
         (column_dimensions ws)))).

(** The call with the default arguments [min_width=8, padding=2,
    max_width=120]. *)
Definition autofit_default (ws : worksheet) : outcome worksheet :=
  autofit_columns_openpyxl ws 8 2 120.

(** ** The world: files and the log of external calls *)

Definition workbook := list worksheet.

Inductive file :=
  | Xlsx (wb : workbook)
  | Pdf (wb : workbook)
  | Opaque.

Inductive renderer := RendererA | RendererB.

Inductive event :=
  | EvLoadWorkbook (p : path)
  | EvSaveWorkbook (p : path)
  | EvImportXlwings
  | EvExcelApp
  | EvExcelBook (p : path)
  | EvExcelAutofit (sheet : nat)
  | EvExcelPageSetup (sheet : nat) (pages_wide : Z) (landscape : bool)
  | EvExcelToPdf (p : path)
  | EvExcelClose
  | EvExcelKill
  | EvSoffice (outdir : path) (input : path)
  | EvReplace (src dst : path)
  | EvReturned (r : renderer) (ok : bool).

Record world := {
  files : gmap path file;
  log : list event
}.

(** What the environment decides: the temporary directory, which paths
    can be written, and which calls into the engines fail. *)
Record env := {
  tmpdir : path;
  writable : path -> bool;
  xw_importable : bool;
  xw_app_ok : bool;
  xw_book_ok : bool;
  xw_autofit_ok : nat -> bool;
  xw_page_setup_ok : nat -> bool;
  xw_to_pdf_ok : bool;
  xw_close_ok : bool;
  xw_kill_ok : bool;
  soffice_ok : bool;
  soffice_writes : bool;
  replace_ok : bool
}.

(** Computations of this module run over [world]. *)
Definition M (A : Type) : Type := Py.M world A.

Definition emit (ev : event) : M unit :=
  fun w => (Returns tt, {| files := files w; log := (log w ++ [ev])%list |}).

(** An external call that the environment lets succeed or fail. *)
Definition call (ev : event) (ok : bool) (e : exn) : M unit :=
  bind (emit ev) (fun _ => if ok then ret tt else raise e).

Definition write_file (p : path) (f : file) : M unit :=
  fun w => (Returns tt, {| files := <[p := f]> (files w); log := log w |}).

Definition exists_file (p : path) : M bool :=
  fun w => (Returns (bool_decide (is_Some (files w !! p))), w).

(** ** [ensure_print_settings] *)

Definition load_workbook (p : path) : M workbook :=
  bind (emit (EvLoadWorkbook p)) (fun _ w =>
    match files w !! p with
    | Some (Xlsx wb) => (Returns wb, w)
    | Some _ => (Raises InvalidFileException, w)
    | None => (Raises FileNotFoundError, w)
    end).

Definition save_workbook (e : env) (wb : workbook) (p : path) : M unit :=
  if writable e p
  then bind (emit (EvSaveWorkbook p)) (fun _ => write_file p (Xlsx wb))
  else raise OSError.

(** The body of the loop over [wb.worksheets]. *)
Definition prepare_sheet (landscape : bool) (fitwide : Z) (ws : worksheet)
  : worksheet :=
  let ws' := match autofit_default ws with
             | Returns ws' => ws'
             | Raises _ => ws
             end in
  {| rows := rows ws'; column_dimensions := column_dimensions ws';
     gridLines := true; headings := true;
     fitToWidth := Z.max 1 fitwide; fitToHeight := 0;
     orientation := if landscape then landscape_o else portrait |}.

Definition print_ready_suffix : string := "_print_ready.xlsx".

Definition ensure_print_settings (e : env) (xlsx_path : path)
  (landscape : bool) (fitwide : Z) : M path :=
  bind (load_workbook xlsx_path) (fun wb =>
    let wb' := List.map (prepare_sheet landscape fitwide) wb in
    let tmp := joinpath (tmpdir e) (stem xlsx_path ++ print_ready_suffix) in
    bind (save_workbook e wb' tmp) (fun _ => ret tmp)).

(** ** Renderer A: Excel through xlwings *)

Definition open_book (e : env) (p : path) : M workbook :=
  bind (emit (EvExcelBook p)) (fun _ w =>
    match xw_book_ok e, files w !! p with
    | true, Some (Xlsx wb) => (Returns wb, w)
    | _, _ => (Raises EngineError, w)
    end).

(** The body of the loop over [wb.sheets], for the sheet at index [i]. *)
Definition excel_sheet (e : env) (landscape : bool) (fitwide : Z) (i : nat)
  : M unit :=
  bind (try_except (call (EvExcelAutofit i) (xw_autofit_ok e i) EngineError)
          (fun _ => ret tt))
       (fun _ =>
          call (EvExcelPageSetup i (Z.max 1 fitwide) landscape)
            (xw_page_setup_ok e i) EngineError).

Fixpoint excel_sheets (e : env) (landscape : bool) (fitwide : Z)
  (i n : nat) : M unit :=
  match n with
  | O => ret tt
  | S n' =>
      bind (excel_sheet e landscape fitwide i)
           (fun _ => excel_sheets e landscape fitwide (S i) n')
  end.

Definition excel_export (e : env) (xlsx_path pdf_path : path)
  (landscape : bool) (fitwide : Z) : M bool :=
  bind (emit EvImportXlwings) (fun _ =>
    if negb (xw_importable e) then ret false
    else
      try_except
        (bind (call EvExcelApp (xw_app_ok e) EngineError) (fun _ =>
           try_finally
             (bind (open_book e xlsx_path) (fun wb =>
              bind (excel_sheets e landscape fitwide 0 (List.length wb))
                (fun _ =>
              bind (call (EvExcelToPdf pdf_path) (xw_to_pdf_ok e) EngineError)
                (fun _ =>
              bind (write_file pdf_path (Pdf wb)) (fun _ =>
              bind (call EvExcelClose (xw_close_ok e) EngineError) (fun _ =>
              ret true))))))
             (call EvExcelKill (xw_kill_ok e) EngineError)))
        (fun _ => ret false)).

(** The function with its return value recorded in the log. *)
Definition try_export_with_excel_via_xlwings (e : env)
  (xlsx_path pdf_path : path) (landscape : bool) (fitwide : Z) : M bool :=
  bind (excel_export e xlsx_path pdf_path landscape fitwide) (fun ok =>
    bind (emit (EvReturned RendererA ok)) (fun _ => ret ok)).

(** ** Renderer B: LibreOffice headless *)

(** [subprocess.run(cmd, check=True)]: on success the converter may leave
    [<outdir>/<stem>.pdf]. *)
Definition run_soffice (e : env) (outdir xlsx_path : path) : M unit :=
  bind (call (EvSoffice outdir xlsx_path) (soffice_ok e) OSError) (fun _ w =>
    match soffice_writes e, files w !! xlsx_path with
    | true, Some (Xlsx wb) =>
        write_file (joinpath outdir (stem xlsx_path ++ ".pdf")) (Pdf wb) w
    | _, _ => (Returns tt, w)
    end).

(** [src.replace(dst)]. *)
Definition replace_file (e : env) (src dst : path) : M unit :=
  bind (call (EvReplace src dst) (replace_ok e) OSError) (fun _ w =>
    match files w !! src with
    | Some f =>
        (Returns tt,
         {| files := <[dst := f]> (delete src (files w)); log := log w |})
    | None => (Raises FileNotFoundError, w)
    end).

Definition libreoffice_export (e : env) (xlsx_path pdf_path : path)
  : M bool :=
  try_except
    (bind (run_soffice e (parent pdf_path) xlsx_path) (fun _ w =>
       match with_suffix_name xlsx_path ".pdf" with
       | Raises ex => (Raises ex, w)
       | Returns produced =>
           let src := joinpath (parent pdf_path) produced in
           bind (bind (exists_file src) (fun src_exists =>
                   if (negb (bool_decide (src = pdf_path)) && src_exists)%bool
                   then replace_file e src pdf_path else ret tt))
                (fun _ => exists_file pdf_path) w
       end))
    (fun _ => ret false).

Definition try_export_with_libreoffice (e : env) (xlsx_path pdf_path : path)
  : M bool :=
  bind (libreoffice_export e xlsx_path pdf_path) (fun ok =>
    bind (emit (EvReturned RendererB ok)) (fun _ => ret ok)).

(** ** The driver *)

Definition convert_one (e : env) (xlsx out_pdf : path) (landscape : bool)
  (fitwide : Z) : M unit :=
  bind (ensure_print_settings e xlsx landscape fitwide) (fun prepared =>
  bind (try_export_with_excel_via_xlwings e prepared out_pdf landscape fitwide)
    (fun used_excel =>
  if negb used_excel then
    bind (try_export_with_libreoffice e prepared out_pdf) (fun used_libre =>
      if negb used_libre
      then raise (RuntimeError
                    "Could not export to PDF via Excel or LibreOffice.")
      else ret tt)
  else ret tt)).

End Excel2pdf.

(* ===================================================================== *)
(** * excel_to_pdf/converter.py: name sanitising and per-sheet export     *)
(* ===================================================================== *)

Module Converter.
Import Py.

(** The nine characters of the class [ILLEGAL]: less-than, greater-than,
    colon, double quote, slash, backslash, bar, question mark, star. *)
Definition dquote : ascii := "034"%char.
Definition backslash : ascii := "092"%char.

Definition ILLEGAL : list ascii :=
  ["<"; ">"; ":"; dquote; "/"; backslash; "|"; "?"; "*"]%char.

Definition is_illegal (c : ascii) : bool :=
  existsb (Ascii.eqb c) ILLEGAL.

(** [ILLEGAL_RE.sub(replacement, name)]: every match of the one-character
    class is replaced, left to right. *)
Fixpoint safe_name (name replacement : string) : string :=
  match name with
  | EmptyString => EmptyString
  | String c rest =>
      (if is_illegal c then replacement else String c EmptyString)
      ++ safe_name rest replacement
  end.

(** ** The automation engine as seen by the per-sheet export *)

Inductive event :=
  | EvMkdir (p : path)
  | EvAppStart
  | EvBookOpen (p : path)
  | EvReadVisible (sheet : nat)
  | EvPageSetup (sheet : nat) (fit_to_page : bool) (landscape : option bool)
  | EvReadName (sheet : nat)
  | EvToPdf (p : path) (include : string)
  | EvWarning (sheet_name : string)
  | EvBookClose
  | EvAppQuit.

(** What the engine answers for one sheet. *)
Record sheet := {
  sht_visible : outcome bool;
  sht_name : outcome string;
  sht_page_setup_ok : bool;
  sht_to_pdf_ok : bool
}.

Record env := {
  is_mac : bool;
  path_exists : bool;
  mkdir_ok : bool;
  app_ok : bool;
  open_ok : bool;
  sheets : list sheet;
  close_ok : bool;
  quit_ok : bool
}.

(** Computations of this module run over the log of engine calls. *)
Definition M (A : Type) : Type := Py.M (list event) A.

Definition emit (ev : event) : M unit :=
  fun l => (Returns tt, (l ++ [ev])%list).

Definition call (ev : event) (ok : bool) (e : exn) : M unit :=
  bind (emit ev) (fun _ => if ok then ret tt else raise e).

Definition of_outcome {A} (o : outcome A) : M A := fun l => (o, l).

Definition _apply_page_setup_cross_platform (e : env) (i : nat) (sht : sheet)
  (fit_to_page : bool) (landscape : option bool) : M unit :=
  let setup :=
    try_except
      (call (EvPageSetup i fit_to_page landscape) (sht_page_setup_ok sht)
         EngineError)
      (fun _ => ret tt) in
  if is_mac e then
    if (fit_to_page || bool_decide (is_Some landscape))%bool
    then setup else ret tt
  else setup.

(** The body of the loop over [book.sheets], for the sheet at index [i]. *)
Definition export_sheet (e : env) (workbook_stem : string) (out_dir : path)
  (include_hidden fit_to_page : bool) (landscape : option bool)
  (created : list path) (i : nat) (sht : sheet) : M (list path) :=
  bind (emit (EvReadVisible i)) (fun _ =>
    let visible := match sht_visible sht with
                   | Returns b => b
                   | Raises _ => true
                   end in
    if (negb include_hidden && negb visible)%bool then ret created
    else
      bind (_apply_page_setup_cross_platform e i sht fit_to_page landscape)
        (fun _ =>
      bind (bind (emit (EvReadName i)) (fun _ => of_outcome (sht_name sht)))
        (fun nm =>
      let pdf_name :=
        safe_name workbook_stem "_" ++ " - " ++ safe_name nm "_" ++ ".pdf" in
      let pdf_path := joinpath out_dir pdf_name in
      try_except
        (bind (call (EvToPdf pdf_path nm) (sht_to_pdf_ok sht) EngineError)
           (fun _ => ret (created ++ [pdf_path])%list))
        (fun _ => bind (emit (EvWarning nm)) (fun _ => ret created))))).

Fixpoint export_sheets (e : env) (workbook_stem : string) (out_dir : path)
  (include_hidden fit_to_page : bool) (landscape : option bool)
  (created : list path) (i : nat) (shts : list sheet) : M (list path) :=
  match shts with
  | [] => ret created
  | sht :: shts' =>
      bind (export_sheet e workbook_stem out_dir include_hidden fit_to_page
              landscape created i sht)
        (fun created' =>
           export_sheets e workbook_stem out_dir include_hidden fit_to_page
             landscape created' (S i) shts')
  end.

Definition export_workbook_sheets_to_pdf (e : env) (xls_path : path)
  (out_dir : option path) (include_hidden fit_to_page : bool)
  (landscape : option bool) : M (list path) :=
  if negb (path_exists e) then raise FileNotFoundError
  else
    let out_dir' :=
      default (joinpath (parent xls_path) (stem xls_path ++ "_PDFs")) out_dir in
    bind (call (EvMkdir out_dir') (mkdir_ok e) OSError) (fun _ =>
    bind (call EvAppStart (app_ok e) EngineError) (fun _ =>
    try_finally
      (bind (call (EvBookOpen xls_path) (open_ok e) EngineError) (fun _ =>
       bind (export_sheets e (stem xls_path) out_dir' include_hidden
               fit_to_page landscape [] 0 (sheets e)) (fun created =>
       bind (call EvBookClose (close_ok e) EngineError) (fun _ =>
       ret created))))
      (call EvAppQuit (quit_ok e) EngineError))).

End Converter.

(* ===================================================================== *)
(** * The vocabulary of the specification                                 *)
(* ===================================================================== *)

Module Spec.
Import Py Excel2pdf.

(** The number a numeric value denotes, as sign, magnitude and binary
    exponent, [(-1)^s * m * 2^e]; nan and the infinities denote none. *)
Definition exact_value (n : number) : option (bool * Z * Z) :=
  match n with
  | NInt z => Some (z <? 0, Z.abs z, 0)
  | NFloat (S754_zero s) => Some (s, 0, 0)
  | NFloat (S754_finite s m e) => Some (s, Zpos m, e)
  | NFloat _ => None
  end.

(** "[v] formatted with thousands separators and exactly [p] decimal
    digits". *)
Definition grouped_decimals (p : nat) (n : number) : option string :=
  match exact_value n with
  | Some (s, m, e) => Some (fixed_grouped p s m e)
  | None => None
  end.

(** The numbers that binary64 holds exactly without further inspection:
    every float, and the integers of magnitude below [2^53]. *)
Definition converts_exactly (n : number) : Prop :=
  match n with
  | NInt z => Z.abs z < 2 ^ 53
  | NFloat _ => True
  end.

(** The float [1234.5], which is [2469 * 2^-1], in canonical form. *)
Definition float_1234_5 : spec_float :=
  S754_finite false 5429388417957888 (-42).

(** The cells of a worksheet in the order the auto-fit pass visits them. *)
Definition cells (ws : worksheet) : list cell := List.concat (rows ws).

(** A populated cell is one whose value is not absent. *)
Definition populated (c : cell) : bool :=
  match value c with
  | PyNone => false
  | _ => true
  end.

(** The estimated display length of a cell. *)
Definition estimate (c : cell) : Z :=
  match _approx_display_len c with
  | Returns n => n
  | Raises _ => 0
  end.

(** A worksheet with the given cells and widths and blank print settings. *)
Definition sheet_of (rs : list (list cell)) (dims : gmap positive Z)
  : worksheet :=
  {| rows := rs; column_dimensions := dims;
     gridLines := false; headings := false;
     fitToWidth := 1; fitToHeight := 1; orientation := portrait |}.

Definition text_cell (col : positive) (s : string) : cell :=
  {| column := col; value := PyStr s; number_format := Some "General" |}.


(** The estimated lengths of the populated cells of column [col]. *)
Definition column_lengths (ws : worksheet) (col : positive) : list Z :=
  List.map estimate
    (List.filter (fun c => populated c && Pos.eqb (column c) col) (cells ws)).

(** How the entry of a column changes when a length [L] is seen. *)
Definition update (o : option Z) (L : Z) : option Z :=
  if 0 <? L then
    match o with
    | None => Some L
    | Some old => if old <? L then Some L else Some old
    end
  else o.

(** One iteration of the scan, written over the estimate of the cell. *)
Definition visit_pure (lengths : dict) (c : cell) : dict :=
  if populated c then
    if 0 <? estimate c then
      match dict_get (column c) lengths with
      | None => dict_set (column c) (estimate c) lengths
      | Some old =>
          if old <? estimate c
          then dict_set (column c) (estimate c) lengths else lengths
      end
    else lengths
  else lengths.


(** ** Vocabulary of the export orchestrator *)

(** What an event of the log belongs to: the preparation of the working
    copy, the calls of a renderer into its engine, or the return of a
    renderer. *)
Inductive phase :=
  | Preparation
  | Engine (r : renderer)
  | Return (r : renderer).

Definition phase_of (ev : event) : phase :=
  match ev with
  | EvLoadWorkbook _ | EvSaveWorkbook _ => Preparation
  | EvSoffice _ _ | EvReplace _ _ => Engine RendererB
  | EvReturned r _ => Return r
  | _ => Engine RendererA
  end.

(** The working copy was written. *)
Definition prepared (l : list event) : Prop :=
  exists p, In (EvSaveWorkbook p) l.

(** Renderer [r] was attempted: it made a call into its engine. *)
Definition attempted (r : renderer) (l : list event) : Prop :=
  exists ev, In ev l /\ phase_of ev = Engine r.

(** Renderer [r] reported failure or unavailability. *)
Definition failed (r : renderer) (l : list event) : Prop :=
  In (EvReturned r false) l.

Definition raises {A} (o : outcome A) : Prop := exists e, o = Raises e.

Definition engineA (ev : event) : Prop := phase_of ev = Engine RendererA.
Definition engineB (ev : event) : Prop := phase_of ev = Engine RendererB.

(** The events of renderer [r]: its engine calls and its return. *)
Definition belongs (r : renderer) (ev : event) : Prop :=
  phase_of ev = Engine r \/ phase_of ev = Return r.

(** ** Sample runs of the driver *)

(** An environment where every call succeeds, except that xlwings may be
    missing and the headless converter may fail. *)
Definition sample_env (importable soffice : bool) : env :=
  {| tmpdir := ["tmp"]; writable := fun _ => true;
     xw_importable := importable; xw_app_ok := true; xw_book_ok := true;
     xw_autofit_ok := fun _ => true; xw_page_setup_ok := fun _ => true;
     xw_to_pdf_ok := true; xw_close_ok := true; xw_kill_ok := true;
     soffice_ok := soffice; soffice_writes := soffice; replace_ok := true |}.

(** A world with one file and an empty log. *)
Definition world_with (p : path) (f : file) : world :=
  {| files := {[ p := f ]}; log := [] |}.

(** ** What a computation of the driver appends to the log *)

(** [m] appends only events that satisfy [P]. *)
Definition emits (P : event -> Prop) {A} (m : M A) : Prop :=
  forall w, exists evs,
    log (snd (m w)) = (log w ++ evs)%list /\ List.Forall P evs.

(** [m] appends [ev] first, whatever follows. *)
Definition starts (ev : event) {A} (m : M A) : Prop :=
  forall w, exists evs, log (snd (m w)) = (log w ++ ev :: evs)%list.

(** [m] never raises. *)
Definition returns {A} (m : M A) : Prop :=
  forall w, exists a, fst (m w) = Returns a.

End Spec.

(** Sample answers of the automation engine for the per-sheet export. *)
Module ExportSpec.
Import Py Converter.

(** A visible sheet named [nm] whose export succeeds or not. *)
Definition plain_sheet (nm : string) (exports : bool) : sheet :=
  {| sht_visible := Returns true; sht_name := Returns nm;
     sht_page_setup_ok := true; sht_to_pdf_ok := exports |}.

(** A sheet whose name cannot be read from the engine. *)
Definition unnamed_sheet : sheet :=
  {| sht_visible := Returns true; sht_name := Raises EngineError;
     sht_page_setup_ok := true; sht_to_pdf_ok := true |}.

(** An engine on Windows where everything but the given sheets works. *)
Definition sample_env (shts : list sheet) : env :=
  {| is_mac := false; path_exists := true; mkdir_ok := true; app_ok := true;
     open_ok := true; sheets := shts; close_ok := true; quit_ok := true |}.

End ExportSpec.

(** Further vocabulary for the per-sheet converter. *)
Module ConverterSpec.
Import Py Converter.

(** The characters of a string, in order. *)
Fixpoint chars (s : string) : list ascii :=
  match s with
  | EmptyString => []
  | String c rest => c :: chars rest
  end.

(** A string none of whose characters is in [ILLEGAL]. *)
Definition legal (s : string) : Prop :=
  forall c, In c (chars s) -> is_illegal c = false.


(** A sheet is exported when hidden sheets are included or the engine
    reports it visible, or cannot tell. *)
Definition qualifies (include_hidden : bool) (sht : sheet) : bool :=
  include_hidden ||
  match sht_visible sht with
  | Returns b => b
  | Raises _ => true
  end.

(** The PDF path of the sheet named [nm]. *)
Definition pdf_path_of (workbook_stem : string) (out_dir : path)
  (nm : string) : path :=
  joinpath out_dir
    (safe_name workbook_stem "_" ++ " - " ++ safe_name nm "_" ++ ".pdf").

(** The paths of the sheets that qualify and whose export succeeds, in
    sheet order. *)
Fixpoint exported (include_hidden : bool) (workbook_stem : string)
  (out_dir : path) (shts : list sheet) : list path :=
  match shts with
  | [] => []
  | sht :: rest =>
      (if (qualifies include_hidden sht && sht_to_pdf_ok sht)%bool then
         match sht_name sht with
         | Returns nm => [pdf_path_of workbook_stem out_dir nm]
         | Raises _ => []
         end
       else [])
      ++ exported include_hidden workbook_stem out_dir rest
  end%list.

(** The output directory the export uses. *)
Definition out_dir_of (xls_path : path) (out_dir : option path) : path :=
  default (joinpath (parent xls_path) (stem xls_path ++ "_PDFs")) out_dir.

End ConverterSpec.

(** Further vocabulary for the aggregate driver. *)
Module DriverSpec.
Import Py Excel2pdf.

(** [m] changes the files at paths in [S] only. *)
Definition writes_only (S : path -> Prop) {A} (m : M A) : Prop :=
  forall w p, ~ S p -> files (snd (m w)) !! p = files w !! p.

(** The name under which the headless converter leaves its output for the
    working copy [prepared], next to the requested PDF. *)
Definition soffice_output (prepared pdf_path : path) : path :=
  joinpath (parent pdf_path) (stem prepared ++ ".pdf").

End DriverSpec.

(* ===================================================================== *)
(** * excel2pdf.py: the batch driver                                      *)
(* ===================================================================== *)

Module Batch.
Import Py Excel2pdf.

(** [p.suffix]. *)
Definition suffix (p : path) : string := suffix_of (name p).

Definition excel_suffixes : list string := [".xlsx"; ".xlsm"; ".xls"].

(** [p.suffix.lower() in {".xlsx", ".xlsm", ".xls"}]. *)
Definition is_excel_file (p : path) : bool :=
  existsb (String.eqb (lower (suffix p))) excel_suffixes.

(** The parsed command line: the resolved target, [--out] if given,
    [--landscape] and [--fitwide]. *)
Record args := {
  target : path;
  out_dir : option path;
  landscape : bool;
  fitwide : Z
}.

(** What the operating system answers: which paths are directories, the
    sorted entries of a directory, whether a directory can be made, and
    how the engines behave while a given file is converted. *)
Record system := {
  is_dir : path -> bool;
  sorted_iterdir : path -> list path;
  mkdir_ok : path -> bool;
  engines : path -> env
}.

(** [p.is_file()]: the files are those of the world. *)
Definition is_file (w : world) (p : path) : bool :=
  bool_decide (is_Some (files w !! p)).

(** The lines the driver prints; printing is taken to succeed. *)
Inductive line :=
  | LineNotExcel
  | LineConverted (f pdf : path)
  | LineFailed (f : path) (e : exn).

(** What a run leaves: its printed lines and the exit status of the
    process. *)
Record report := {
  printed : list line;
  exit_code : Z
}.

(** The loop over [files], with the list of failures and the printed lines
    so far. *)
Fixpoint convert_files (s : system) (out : path) (landscape : bool)
  (fitwide : Z) (fs : list path) (failures : list (path * exn))
  (lines : list line) : M (list (path * exn) * list line) :=
  match fs with
  | [] => ret (failures, lines)
  | f :: rest =>
      let pdf_path := joinpath out (stem f ++ ".pdf") in
      bind
        (try_except
           (bind (convert_one (engines s f) f pdf_path landscape fitwide)
              (fun _ =>
                 ret (failures, (lines ++ [LineConverted f pdf_path])%list)))
           (fun e =>
              ret ((failures ++ [(f, e)])%list,
                   (lines ++ [LineFailed f e])%list)))
        (fun st => convert_files s out landscape fitwide rest (fst st) (snd st))
  end.

(** The output directory: [--out], else the target if it is a directory,
    else the directory of the target. *)
Definition output_dir (s : system) (a : args) : path :=
  match out_dir a with
  | Some d => d
  | None => if is_dir s (target a) then target a else parent (target a)
  end.

(** The files to convert; [None] when the single target is not an Excel
    file. *)
Definition select_files (s : system) (a : args) (w : world)
  : option (list path) :=
  if is_dir s (target a) then
    Some (List.filter (fun p => is_file w p && is_excel_file p)
            (sorted_iterdir s (target a)))
  else if negb (is_excel_file (target a)) then None
  else Some [target a].

Definition main (s : system) (a : args) : M report :=
  let out := output_dir s a in
  if negb (mkdir_ok s out) then raise OSError
  else fun w =>
    match select_files s a w with
    | None => (Returns {| printed := [LineNotExcel]; exit_code := 2 |}, w)
    | Some fs =>
        bind (convert_files s out (landscape a) (fitwide a) fs [] [])
          (fun st =>
             ret {| printed := snd st;
                    exit_code := match fst st with [] => 0 | _ => 3 end |})
          w
    end.

(** The file a printed line is about. *)
Definition line_file (l : line) : option path :=
  match l with
  | LineNotExcel => None
  | LineConverted f _ => Some f
  | LineFailed f _ => Some f
  end.

Definition is_failure (l : line) : bool :=
  match l with
  | LineFailed _ _ => true
  | _ => false
  end.

(** The failures a list of printed lines reports. *)
Definition failures_of (ls : list line) : list (path * exn) :=
  flat_map (fun l => match l with
                     | LineFailed f e => [(f, e)]
                     | _ => []
                     end) ls.

(** The inputs a list of events opens, in order. *)
Definition loads (evs : list event) : list path :=
  flat_map (fun ev => match ev with
                      | EvLoadWorkbook p => [p]
                      | _ => []
                      end) evs.

(** The PDF the driver asks for, for the input [f]. *)
Definition pdf_target (out f : path) : path := joinpath out (stem f ++ ".pdf").

(** A line is about the input [f] and names the PDF of [f] in [out]. *)
Definition line_for (out f : path) (l : line) : Prop :=
  l = LineConverted f (pdf_target out f) \/ exists e, l = LineFailed f e.

(** A folder with one workbook and one text file, where only the headless
    converter is installed. *)
Definition sample_system : system :=
  {| is_dir := fun p => bool_decide (p = ["data"]);
     sorted_iterdir := fun _ => [["data"; "book.xlsx"]; ["data"; "notes.txt"]];
     mkdir_ok := fun _ => true;
     engines := fun _ => Spec.sample_env false true |}.

Definition sample_world : world :=
  {| files := <[ ["data"; "book.xlsx"] := Xlsx [] ]>
                {[ ["data"; "notes.txt"] := Opaque ]};
     log := [] |}.

Definition sample_args (t : path) : args :=
  {| target := t; out_dir := None; landscape := false; fitwide := 1 |}.

End Batch.

(* ===================================================================== *)
(** * excel_to_pdf/cli.py: the two commands                               *)
(* ===================================================================== *)

Module Cli.
Import Py Converter.

(** The lines the commands print. *)
Inductive line :=
  | LineChoose
  | LineCreated (p : path)
  | LineDone (total : Z).

(** How a command ends when it does not raise: it returns, or it leaves
    through [typer.Exit] with a code. *)
Inductive status :=
  | Completed
  | Exit (code : Z).

(** The commands run over what was printed so far and the log of engine
    calls. *)
Record console := {
  out : list line;
  calls : list event
}.

Definition M (A : Type) : Type := Py.M console A.

Definition print (l : line) : M unit :=
  fun c => (Returns tt, {| out := (out c ++ [l])%list; calls := calls c |}).

(** A computation of the converter, run on the log of engine calls. *)
Definition lift {A} (m : Converter.M A) : M A :=
  fun c => let '(r, l) := m (calls c) in (r, {| out := out c; calls := l |}).

(** [True if landscape else False if portrait else None]. *)
Definition orientation (portrait landscape : bool) : option bool :=
  if landscape then Some true else if portrait then Some false else None.

(** [for p in pdfs: print(...)]. *)
Fixpoint print_created (pdfs : list path) : M unit :=
  match pdfs with
  | [] => ret tt
  | p :: ps => bind (print (LineCreated p)) (fun _ => print_created ps)
  end.

Definition convert (e : env) (input : path) (output : option path)
  (include_hidden portrait landscape no_fit : bool) : M status :=
  if (portrait && landscape)%bool then
    bind (print LineChoose) (fun _ => ret (Exit 2))
  else
    bind (lift (export_workbook_sheets_to_pdf e input output include_hidden
                  (negb no_fit) (orientation portrait landscape)))
      (fun pdfs => bind (print_created pdfs) (fun _ => ret Completed)).

(** What the file system answers to [convert_folder]: the entries the two
    traversals yield, which of them are files, and how the engine behaves
    on each workbook. *)
Record system := {
  rglob : path -> list path;
  iterdir : path -> list path;
  is_file : path -> bool;
  engine : path -> env
}.

Definition exts : list string := [".xls"; ".xlsx"; ".xlsm"; ".xlsb"].

(** [f.suffix.lower() in exts]. *)
Definition has_ext (f : path) : bool :=
  existsb (String.eqb (lower (suffix_of (name f)))) exts.

(** [p] without the leading parts [base], if it starts with them. *)
Fixpoint strip_prefix (base p : path) : option path :=
  match base, p with
  | [], _ => Some p
  | b :: base', x :: p' =>
      if String.eqb b x then strip_prefix base' p' else None
  | _ :: _, [] => None
  end.

(** [p.relative_to(base)]. *)
Definition relative_to (p base : path) : outcome path :=
  match strip_prefix base p with
  | Some rel => Returns rel
  | None => Raises ValueError
  end.

(** [(output_root / f.parent.relative_to(folder)) if output_root else
    None]. *)
Definition out_dir_for (output_root : option path) (folder f : path)
  : outcome (option path) :=
  match output_root with
  | Some root =>
      obind (relative_to (parent f) folder)
        (fun rel => Returns (Some (root ++ rel)%list))
  | None => Returns None
  end.

(** [for p in pdfs: print(...); total += 1]. *)
Fixpoint count_created (pdfs : list path) (total : Z) : M Z :=
  match pdfs with
  | [] => ret total
  | p :: ps =>
      bind (print (LineCreated p)) (fun _ => count_created ps (total + 1))
  end.

(** The loop over [files]. *)
Fixpoint convert_each (s : system) (folder : path)
  (output_root : option path) (include_hidden fit_to_page : bool)
  (landscape : option bool) (fs : list path) (total : Z) : M Z :=
  match fs with
  | [] => ret total
  | f :: rest =>
      if (negb (has_ext f) || negb (is_file s f))%bool then
        convert_each s folder output_root include_hidden fit_to_page
          landscape rest total
      else
        bind (lift (of_outcome (out_dir_for output_root folder f)))
          (fun out_dir =>
        bind (lift (export_workbook_sheets_to_pdf (engine s f) f out_dir
                      include_hidden fit_to_page landscape))
          (fun pdfs =>
        bind (count_created pdfs total) (fun total' =>
        convert_each s folder output_root include_hidden fit_to_page
          landscape rest total')))
  end.

Definition convert_folder (s : system) (folder : path)
  (output_root : option path)
  (recursive include_hidden portrait landscape no_fit : bool) : M status :=
  if (portrait && landscape)%bool then
    bind (print LineChoose) (fun _ => ret (Exit 2))
  else
    let files := if recursive then rglob s folder else iterdir s folder in
    bind (convert_each s folder output_root include_hidden (negb no_fit)
            (orientation portrait landscape) files 0)
      (fun total => bind (print (LineDone total)) (fun _ => ret Completed)).

End Cli.

(** Vocabulary for the two commands. *)
Module CliSpec.
Import Py Converter ConverterSpec Cli.

(** [m] appends to the log of engine calls only events that satisfy [P]. *)
Definition appends (P : event -> Prop) {A} (m : Converter.M A) : Prop :=
  forall l, exists evs, snd (m l) = (l ++ evs)%list /\ List.Forall P evs.

(** The entries the loop of [convert_folder] does not skip. *)
Definition convertible (s : system) (f : path) : bool :=
  has_ext f && is_file s f.

(** A page setup, if [ev] is one, is made with these two arguments. *)
Definition page_setup_with (fit_to_page : bool) (landscape : option bool)
  (ev : event) : Prop :=
  match ev with
  | EvPageSetup _ f o => f = fit_to_page /\ o = landscape
  | _ => True
  end.

Definition no_page_setup (ev : event) : Prop :=
  match ev with
  | EvPageSetup _ _ _ => False
  | _ => True
  end.

(** [ev] neither sets up a page nor opens a workbook. *)
Definition other (ev : event) : Prop :=
  match ev with
  | EvPageSetup _ _ _ | EvBookOpen _ => False
  | _ => True
  end.

(** The condition under which the page setup of a sheet is attempted. *)
Definition sets_up (e : env) (fit_to_page : bool) (landscape : option bool)
  : bool :=
  negb (is_mac e) || fit_to_page || bool_decide (is_Some landscape).

(** The PDFs of one workbook of the folder, as the per-sheet export returns
    them. *)
Definition pdfs_of (s : system) (folder : path) (output_root : option path)
  (include_hidden : bool) (f : path) : list path :=
  match out_dir_for output_root folder f with
  | Returns d =>
      exported include_hidden (stem f) (out_dir_of f d) (sheets (engine s f))
  | Raises _ => []
  end.

(** The PDFs of all the workbooks of a listing, in order. *)
Definition folder_pdfs (s : system) (folder : path)
  (output_root : option path) (include_hidden : bool) (fs : list path)
  : list path :=
  flat_map (pdfs_of s folder output_root include_hidden)
    (List.filter (convertible s) fs).

(** The workbooks a list of engine calls opens, in order. *)
Definition opened (evs : list event) : list path :=
  flat_map (fun ev => match ev with
                      | EvBookOpen p => [p]
                      | _ => []
                      end) evs.

(** A folder with a workbook, a text file and a workbook in a subfolder;
    every workbook has the sheets [shts]. *)
Definition sample_system (shts : list sheet) : system :=
  {| rglob := fun _ => [["in"; "a.xlsx"]; ["in"; "readme.md"];
                        ["in"; "sub"; "b.xls"]];
     iterdir := fun _ => [["in"; "a.xlsx"]; ["in"; "readme.md"]];
     is_file := fun _ => true;
     engine := fun _ => ExportSpec.sample_env shts |}.

Definition empty_console : console := {| out := []; calls := [] |}.

End CliSpec.

(* ===================================================================== *)
(** * Facts about the Python runtime                                      *)
(* ===================================================================== *)

Module PyFacts.
Import Py.

Lemma prefix_app (a post : string) : String.prefix a (a ++ post) = true.
Proof.
  induction a as [|c a IH]; simpl.
  - now destruct post.
  - destruct (ascii_dec c c) as [_|Hne]; [exact IH | now destruct Hne].
Qed.

Lemma prefix_trans (a b s : string) :
  String.prefix a b = true -> String.prefix b s = true ->
  String.prefix a s = true.
Proof.
  revert b s. induction a as [|c a IH]; intros b s Hab Hbs.
  - now destruct s.
  - destruct b as [|cb b]; [discriminate|]. simpl in Hab.
    destruct s as [|cs s]; [discriminate|]. simpl in Hbs. simpl.
    destruct (ascii_dec c cb) as [->|]; [|discriminate].
    destruct (ascii_dec cb cs) as [->|]; [|discriminate].
    eauto.
Qed.

Lemma prefix_lower (a s : string) :
  String.prefix a s = true -> String.prefix (lower a) (lower s) = true.
Proof.
  revert s. induction a as [|c a IH]; intros s H.
  - now destruct s.
  - destruct s as [|cs s]; [discriminate|]. simpl in *.
    destruct (ascii_dec c cs) as [->|]; [|discriminate].
    destruct (ascii_dec (lower_char cs) (lower_char cs)); [auto|congruence].
Qed.

(** A token occurs wherever a longer token that starts with it occurs. *)
Lemma str_in_prefix_mono (a b s : string) :
  String.prefix a b = true -> str_in b s = true -> str_in a s = true.
Proof.
  intros Hab. induction s as [|c s IH]; cbn [str_in]; intros H;
    apply orb_true_iff in H as [H|H]; try discriminate; apply orb_true_iff.
  - left. eapply prefix_trans; eauto.
  - left. eapply prefix_trans; eauto.
  - right. auto.
Qed.

Lemma str_in_lower (a s : string) :
  str_in a s = true -> str_in (lower a) (lower s) = true.
Proof.
  induction s as [|c s IH]; cbn [str_in lower]; intros H;
    apply orb_true_iff in H as [H|H]; try discriminate; apply orb_true_iff.
  - left. now apply (prefix_lower a "").
  - left. now apply (prefix_lower a (String c s)).
  - right. auto.
Qed.

Lemma contains_str_in (tok s : string) : contains tok s -> str_in tok s = true.
Proof.
  intros (pre & post & ->). induction pre as [|c pre IH].
  - change ("" ++ tok ++ post) with (tok ++ post).
    destruct (tok ++ post) eqn:E; cbn [str_in]; apply orb_true_iff; left;
      rewrite <- E; apply prefix_app.
  - change (String c pre ++ tok ++ post) with (String c (pre ++ tok ++ post)).
    cbn [str_in]. apply orb_true_iff. right. exact IH.
Qed.



Lemma length_append (a b : string) :
  String.length (a ++ b) = (String.length a + String.length b)%nat.
Proof. induction a as [|c a IH]; simpl; [reflexivity | now rewrite IH]. Qed.

Lemma append_cons (c : ascii) (a b : string) :
  String c a ++ b = String c (a ++ b).
Proof. reflexivity. Qed.

Lemma append_assoc_s (a b c : string) : (a ++ b) ++ c = a ++ (b ++ c).
Proof.
  induction a as [|x a IH]; [reflexivity|].
  now rewrite !append_cons, IH.
Qed.

Lemma take_drop (n : nat) (s : string) : str_take n s ++ str_drop n s = s.
Proof.
  revert s. induction n as [|n IH]; intros [|c s]; simpl; try reflexivity.
  now rewrite append_cons, IH.
Qed.

Lemma append_inv_head (a b c : string) : a ++ b = a ++ c -> b = c.
Proof.
  induction a as [|x a IH]; intros H; [exact H|].
  rewrite !append_cons in H. injection H. auto.
Qed.

(** ** The formatting functions on values whose printed form is known *)

Example format_fixed_ties_to_even :
  format_float_fixed 2 (S754_finite false 4503599627370496 (-55)) = "0.12" /\
  format_float_fixed 2 (S754_finite false 6023564501608038 (-51)) = "2.67" /\
  format_float_fixed 2 (S754_finite false 8796049041742889 (-43))
    = "1,000.00" /\
  format_float_fixed 2 (S754_finite true 4611686018427388 (-62)) = "-0.00" /\
  format_float_fixed 2 S754_nan = "nan" /\
  format_float_fixed 2 (S754_infinity true) = "-inf".
Proof. vm_compute. repeat split; reflexivity. Qed.

Example format_int_fixed_rounds_to_float :
  format_int_fixed 2 (10 ^ 17 - 1)
    = Returns "100,000,000,000,000,000.00" /\
  format_int_fixed 3 (2 ^ 53 + 1) = Returns "9,007,199,254,740,992.000" /\
  format_int_fixed 2 (2 ^ 1024) = Raises OverflowError /\
  format_int_grouped (-1234567) = "-1,234,567".
Proof. vm_compute. repeat split; reflexivity. Qed.

Example format_float_grouped_shortest :
  format_float_grouped (S754_finite false 7205759403792794 (-56)) = "0.1" /\
  format_float_grouped (S754_finite false 8285044862877696 (-26))
    = "123,456,789.0" /\
  format_float_grouped (S754_finite false 5000000000000000 1) = "1e+16" /\
  format_float_grouped (S754_finite false 5960464477539062 24) = "1e+23" /\
  format_float_grouped (S754_finite false 5902958103587057 (-69))
    = "1e-05" /\
  format_float_grouped (S754_finite false 1 (-1074)) = "5e-324" /\
  format_float_grouped (S754_finite false 4503599627370497 (-2))
    = "1,125,899,906,842,624.2" /\
  str_float (S754_zero true) = "-0.0".
Proof. vm_compute. repeat split; reflexivity. Qed.

End PyFacts.


(* ===================================================================== *)
(** * The width estimator                                                 *)
(* ===================================================================== *)

Module EstimatorFacts.
Import Py PyFacts Excel2pdf Spec.

(** ** Conversion of small integers to float is exact *)

Lemma digits2_pos_lower (m : positive) :
  2 ^ (Zpos (digits2_pos m) - 1) <= Zpos m.
Proof.
  induction m as [m IH|m IH|]; cbn [digits2_pos].
  - rewrite Pos2Z.inj_succ.
    replace (Z.succ (Z.pos (digits2_pos m)) - 1)
      with (Z.succ (Z.pos (digits2_pos m) - 1)) by lia.
    rewrite Z.pow_succ_r by lia. lia.
  - rewrite Pos2Z.inj_succ.
    replace (Z.succ (Z.pos (digits2_pos m)) - 1)
      with (Z.succ (Z.pos (digits2_pos m) - 1)) by lia.
    rewrite Z.pow_succ_r by lia. lia.
  - simpl. lia.
Qed.

Lemma digits2_pos_le_prec (m : positive) :
  Zpos m < 2 ^ prec -> Zpos (digits2_pos m) <= prec.
Proof.
  intros H. pose proof (digits2_pos_lower m) as L.
  destruct (Z_le_gt_dec (Zpos (digits2_pos m)) prec) as [|G]; [assumption|].
  exfalso. assert (2 ^ prec <= 2 ^ (Zpos (digits2_pos m) - 1)).
  { apply Z.pow_le_mono_r; unfold prec in *; lia. }
  lia.
Qed.

Lemma digits2_pos_shift (m k : positive) :
  digits2_pos (Pos.iter xO m k) = (digits2_pos m + k)%positive.
Proof.
  revert m. induction k as [|k IH] using Pos.peano_ind; intros m.
  - simpl. lia.
  - rewrite Pos.iter_succ. cbn [digits2_pos]. rewrite IH. lia.
Qed.

(** A mantissa of full width within the exponent range is kept as it is. *)
Lemma round_aux_canonical (sx : bool) (mz : positive) (ez : Z) :
  Zpos (digits2_pos mz) = prec -> 3 - emax - prec <= ez <= emax - prec ->
  binary_round_aux prec emax sx (Zpos mz) ez loc_Exact = S754_finite sx mz ez.
Proof.
  intros Hd He. unfold binary_round_aux, shr_fexp, fexp, SpecFloat.emin.
  cbn [Zdigits2 shr_record_of_loc]. rewrite Hd.
  replace (Z.max (prec + ez - prec) (3 - emax - prec) - ez) with 0 by lia.
  cbn [shr shr_m loc_of_shr_record round_nearest_even Zdigits2].
  rewrite Hd.
  replace (Z.max (prec + ez - prec) (3 - emax - prec) - ez) with 0 by lia.
  cbn [shr shr_m shr_record_of_loc].
  destruct (Z.leb_spec ez (emax - prec)); [reflexivity | lia].
Qed.

Lemma float_of_pos_exact (sx : bool) (m : positive) :
  Zpos m < 2 ^ prec ->
  exists m' e, binary_round prec emax sx m 0 = S754_finite sx m' e /\
     e <= 0 /\ Zpos m' = Zpos m * 2 ^ (- e).
Proof.
  intros H. pose proof (digits2_pos_le_prec m H) as Hd.
  unfold binary_round, shl_align, fexp, SpecFloat.emin.
  rewrite Z.add_0_r.
  assert (Hmax : Z.max (Z.pos (digits2_pos m) - prec) (3 - emax - prec)
                 = Z.pos (digits2_pos m) - prec)
    by (unfold prec, emax in *; lia).
  rewrite Hmax.
  destruct (Z.pos (digits2_pos m) - prec - 0) as [|k|k] eqn:Ek; try lia.
  - exists m, 0. split; [|split; [lia | simpl; lia]].
    apply round_aux_canonical; unfold prec, emax in *; lia.
  - exists (Pos.iter xO m k), (Z.pos (digits2_pos m) - prec).
    split; [|split].
    + apply round_aux_canonical.
      * rewrite digits2_pos_shift. lia.
      * unfold prec, emax in *; lia.
    + lia.
    + replace (- (Z.pos (digits2_pos m) - prec)) with (Z.pos k) by lia.
      change (Pos.iter xO m k) with (shift_pos k m).
      rewrite shift_pos_correct. rewrite Z.mul_comm. reflexivity.
Qed.

(** Scaling a mantissa that is a multiple of its denominator is exact. *)
Lemma scaled_exact (p : nat) (a m e : Z) :
  e <= 0 -> m = a * 2 ^ (- e) -> scaled p m e = scaled p a 0.
Proof.
  intros He ->. unfold scaled. change (0 <=? 0) with true. cbv iota.
  rewrite Z.pow_0_r, Z.mul_1_r.
  destruct (Z.leb_spec 0 e) as [H0|H0].
  - assert (e = 0) as -> by lia. change (2 ^ (- 0)) with 1. ring.
  - unfold round_half_even.
    assert (Hpos : 0 < 2 ^ (- e)) by (apply Z.pow_pos_nonneg; lia).
    replace (a * 2 ^ (- e) * 10 ^ Z.of_nat p)
      with (a * 10 ^ Z.of_nat p * 2 ^ (- e)) by ring.
    rewrite Z.div_mul, Z.mod_mul by lia.
    destruct (Z.compare_spec (2 * 0) (2 ^ (- e))); [lia | reflexivity | lia].
Qed.

Lemma format_int_fixed_exact (p : nat) (z : Z) :
  Z.abs z < 2 ^ 53 ->
  format_int_fixed p z = Returns (fixed_grouped p (z <? 0) (Z.abs z) 0).
Proof.
  intros H. unfold format_int_fixed, float_of_int, binary_normalize.
  destruct z as [|m|m].
  - reflexivity.
  - destruct (float_of_pos_exact false m H) as (m' & e & -> & He & Hm).
    cbn [obind format_float_fixed]. unfold fixed_grouped.
    now rewrite (scaled_exact p (Zpos m) (Zpos m') e He Hm).
  - destruct (float_of_pos_exact true m H) as (m' & e & -> & He & Hm).
    cbn [obind format_float_fixed]. unfold fixed_grouped.
    now rewrite (scaled_exact p (Zpos m) (Zpos m') e He Hm).
Qed.

(** The canonical form of 1234.5 denotes [2469 / 2]. *)
Example float_1234_5_value :
  exact_value (NFloat float_1234_5) = Some (false, 5429388417957888, -42) /\
  2 * 5429388417957888 = 2469 * 2 ^ 42.
Proof. split; reflexivity. Qed.

(** ** The branch taken for a format descriptor *)

Lemma two_decimal_token_found (tok nf : string) :
  In tok two_decimal_tokens -> contains tok nf ->
  any_in two_decimal_tokens (lower nf) = true.
Proof.
  intros Hin Hc. apply contains_str_in, str_in_lower in Hc.
  unfold any_in. apply existsb_exists. exists tok. split; [exact Hin|].
  destruct Hin as [<-|[<-|[<-|[]]]]; exact Hc.
Qed.

(** Every descriptor that holds a three- or four-decimal token holds the
    two-decimal token ["0.0"] as well, so the [elif] is never reached. *)
Lemma three_decimal_branch_shadowed (nf : string) :
  any_in three_decimal_tokens nf = true -> any_in two_decimal_tokens nf = true.
Proof.
  unfold any_in. cbn [existsb three_decimal_tokens two_decimal_tokens].
  rewrite !orb_false_r. intros H.
  assert (str_in "0.0" nf = true) as ->.
  { apply orb_true_iff in H as [H|H];
      (eapply str_in_prefix_mono; [|exact H]); reflexivity. }
  now rewrite !orb_true_r.
Qed.

Lemma approx_display_len_numeric (c : cell) (n : number) :
  as_number (value c) = Some n ->
  _approx_display_len c =
    match _approx_display_len_try c with
    | Returns k => Returns k
    | Raises _ => Returns (len (str (value c)))
    end.
Proof.
  unfold _approx_display_len. destruct (value c); intros H;
    try reflexivity; discriminate.
Qed.

(** C1 (as amended): for a numeric value that binary64 holds exactly (a
    finite float, or an integer of magnitude below 2^53) and a format
    descriptor containing one of the tokens "0.00", "#,##0.00", "0.0", the
    estimator returns the length of the value formatted with thousands
    separators and exactly two decimal digits. *)
Theorem approx_display_len_two_decimals
  (c : cell) (n : number) (tok nf s : string) :
  as_number (value c) = Some n ->
  number_format c = Some nf ->
  In tok two_decimal_tokens ->
  contains tok nf ->
  converts_exactly n ->
  grouped_decimals 2 n = Some s ->
  _approx_display_len c = Returns (len s).
Proof.
  intros Hn Hnf Hin Hc Hex Hs.
  rewrite (approx_display_len_numeric c n Hn).
  unfold _approx_display_len_try. rewrite Hn, Hnf.
  change (default "" (Some nf)) with nf.
  rewrite (two_decimal_token_found tok nf Hin Hc).
  unfold grouped_decimals in Hs.
  destruct n as [z|f]; cbn [format_fixed].
  - cbn [exact_value] in Hs. injection Hs as <-.
    rewrite (format_int_fixed_exact 2 z Hex). reflexivity.
  - destruct f as [sg|sg| |sg m e]; cbn [exact_value] in Hs;
      try discriminate; injection Hs as <-; reflexivity.
Qed.

(** The example of the specification: 1234.5 under "0.00" has length 8. *)
Lemma approx_display_len_two_decimals_witness :
  _approx_display_len
    {| column := 1; value := PyFloat float_1234_5;
       number_format := Some "0.00" |} = Returns 8.
Proof.
  apply (approx_display_len_two_decimals _ (NFloat float_1234_5)
           "0.00" "0.00" "1,234.50").
  - reflexivity.
  - reflexivity.
  - simpl. auto.
  - exists "", "". reflexivity.
  - exact I.
  - vm_compute. reflexivity.
Defined.

(** C1 as stated fails for an integer too large for a float: formatting
    raises [OverflowError], the handler returns the 401 characters of
    [str(v)], while the value with separators and two decimals has 537. *)
Lemma approx_display_len_two_decimals_overflow :
  let c := {| column := 1; value := PyInt (10 ^ 400);
              number_format := Some "0.00" |} in
  as_number (value c) = Some (NInt (10 ^ 400)) /\
  contains "0.00" "0.00" /\
  _approx_display_len c = Returns 401 /\
  exists s, grouped_decimals 2 (NInt (10 ^ 400)) = Some s /\ len s = 537 /\
            _approx_display_len c <> Returns (len s).
Proof.
  split; [reflexivity|]. split; [now exists "", ""|].
  split; [vm_compute; reflexivity|].
  eexists. split; [reflexivity|]. split; vm_compute; [reflexivity|discriminate].
Qed.

(** C2: a format descriptor with a three- or four-decimal token never
    reaches the three-decimal branch, because it also contains "0.0" and
    the two-decimal test comes first.  With "0.000" the estimator returns
    8 for 1234.5, the length of "1,234.50", not 9, the length of the
    three-decimal "1,234.500". *)
Theorem approx_display_len_three_decimal_format :
  let c := {| column := 1; value := PyFloat float_1234_5;
              number_format := Some "0.000" |} in
  _approx_display_len c = Returns 8 /\
  format_fixed 2 (NFloat float_1234_5) = Returns "1,234.50" /\
  grouped_decimals 3 (NFloat float_1234_5) = Some "1,234.500" /\
  len "1,234.500" = 9 /\
  (forall nf, any_in three_decimal_tokens (lower nf) = true ->
              any_in two_decimal_tokens (lower nf) = true).
Proof.
  split; [vm_compute; reflexivity|]. split; [vm_compute; reflexivity|].
  split; [vm_compute; reflexivity|]. split; [reflexivity|].
  intros nf. apply three_decimal_branch_shadowed.
Qed.




(** The fall-back of C5 is taken by an integer beyond the float range. *)
Example approx_display_len_fallback :
  let c := {| column := 1; value := PyInt (10 ^ 400);
              number_format := Some "0.00" |} in
  _approx_display_len_try c = Raises OverflowError /\
  _approx_display_len c = Returns (len (str (value c))).
Proof. vm_compute. split; reflexivity. Qed.

End EstimatorFacts.

(* ===================================================================== *)
(** * The column auto-fit pass                                            *)
(* ===================================================================== *)

Module AutofitFacts.
Import Py PyFacts Excel2pdf Spec.

(** The estimator always returns, and [estimate] is what it returns. *)
Lemma approx_display_len_estimate (c : cell) :
  _approx_display_len c = Returns (estimate c).
Proof.
  unfold estimate, _approx_display_len.
  destruct (value c); try reflexivity;
    destruct (_approx_display_len_try c); reflexivity.
Qed.

(** ** The dictionary *)

Lemma dict_get_set_eq (k : positive) (v : Z) (d : dict) :
  dict_get k (dict_set k v d) = Some v.
Proof.
  induction d as [|[k' v'] d IH]; simpl.
  - now rewrite Pos.eqb_refl.
  - destruct (Pos.eqb k k') eqn:E; simpl; rewrite E; auto.
Qed.

Lemma dict_get_set_ne (k k' : positive) (v : Z) (d : dict) :
  k' <> k -> dict_get k' (dict_set k v d) = dict_get k' d.
Proof.
  intros Hne. induction d as [|[k0 v0] d IH]; simpl.
  - destruct (Pos.eqb_spec k' k); [contradiction | reflexivity].
  - destruct (Pos.eqb_spec k k0) as [->|]; simpl.
    + destruct (Pos.eqb_spec k' k0); [contradiction | reflexivity].
    + destruct (Pos.eqb k' k0); auto.
Qed.

Lemma dict_set_keys (k : positive) (v : Z) (d : dict) :
  (In k (List.map fst d) /\ List.map fst (dict_set k v d) = List.map fst d) \/
  (~ In k (List.map fst d) /\
   List.map fst (dict_set k v d) = (List.map fst d ++ [k])%list).
Proof.
  induction d as [|[k0 v0] d IH]; simpl.
  - right. tauto.
  - destruct (Pos.eqb_spec k k0) as [->|Hne]; simpl.
    + left. auto.
    + destruct IH as [[Hin ->]|[Hnin ->]].
      * left. auto.
      * right. split; [|reflexivity]. intros [?|?]; [congruence | contradiction].
Qed.

Lemma dict_set_NoDup (k : positive) (v : Z) (d : dict) :
  List.NoDup (List.map fst d) -> List.NoDup (List.map fst (dict_set k v d)).
Proof.
  intros H. destruct (dict_set_keys k v d) as [[_ ->]|[Hnin ->]]; [exact H|].
  apply List.NoDup_rev in H. rewrite <- (List.rev_involutive (_ ++ _)%list).
  apply List.NoDup_rev. rewrite List.rev_app_distr. simpl.
  constructor; [|exact H]. now rewrite <- List.in_rev.
Qed.

(** ** One step of the scan, as a function of the cell's estimate *)

Lemma visit_cell_pure (lengths : dict) (c : cell) :
  visit_cell lengths c = Returns (visit_pure lengths c).
Proof.
  unfold visit_cell, visit_pure, populated.
  destruct (value c) eqn:Hv; try reflexivity;
    rewrite approx_display_len_estimate; reflexivity.
Qed.

Lemma scan_row_pure (row : list cell) (lengths : dict) :
  scan_row row lengths = Returns (List.fold_left visit_pure row lengths).
Proof.
  revert lengths. induction row as [|c row IH]; intros lengths; simpl.
  - reflexivity.
  - rewrite visit_cell_pure. simpl. apply IH.
Qed.

Lemma scan_rows_pure (rs : list (list cell)) (lengths : dict) :
  scan_rows rs lengths =
    Returns (List.fold_left visit_pure (List.concat rs) lengths).
Proof.
  revert lengths. induction rs as [|row rs IH]; intros lengths; simpl.
  - reflexivity.
  - rewrite scan_row_pure. simpl. rewrite IH.
    now rewrite List.fold_left_app.
Qed.

Lemma visit_pure_NoDup (lengths : dict) (c : cell) :
  List.NoDup (List.map fst lengths) ->
  List.NoDup (List.map fst (visit_pure lengths c)).
Proof.
  intros H. unfold visit_pure.
  destruct (populated c); [|exact H].
  destruct (0 <? estimate c); [|exact H].
  destruct (dict_get (column c) lengths) as [old|].
  - destruct (old <? estimate c); [now apply dict_set_NoDup | exact H].
  - now apply dict_set_NoDup.
Qed.

Lemma visit_pure_get (lengths : dict) (c : cell) (col : positive) :
  dict_get col (visit_pure lengths c) =
    if (populated c && Pos.eqb (column c) col)%bool
    then update (dict_get col lengths) (estimate c)
    else dict_get col lengths.
Proof.
  unfold visit_pure, update.
  destruct (populated c); [|reflexivity]. cbn [andb].
  destruct (Pos.eqb_spec (column c) col) as [->|Hne].
  - destruct (0 <? estimate c); [|reflexivity].
    destruct (dict_get col lengths) as [old|] eqn:E.
    + destruct (old <? estimate c); [apply dict_get_set_eq | exact E].
    + apply dict_get_set_eq.
  - destruct (0 <? estimate c); [|reflexivity].
    destruct (dict_get (column c) lengths) as [old|].
    + destruct (old <? estimate c); [|reflexivity].
      apply dict_get_set_ne. congruence.
    + apply dict_get_set_ne. congruence.
Qed.

Lemma fold_visit_NoDup (cs : list cell) (lengths : dict) :
  List.NoDup (List.map fst lengths) ->
  List.NoDup (List.map fst (List.fold_left visit_pure cs lengths)).
Proof.
  revert lengths. induction cs as [|c cs IH]; intros lengths H; simpl.
  - exact H.
  - apply IH. now apply visit_pure_NoDup.
Qed.

Lemma fold_visit_get (cs : list cell) (lengths : dict) (col : positive) :
  dict_get col (List.fold_left visit_pure cs lengths) =
    List.fold_left update
      (List.map estimate
         (List.filter (fun c => populated c && Pos.eqb (column c) col) cs))
      (dict_get col lengths).
Proof.
  revert lengths. induction cs as [|c cs IH]; intros lengths; simpl.
  - reflexivity.
  - rewrite IH, visit_pure_get.
    destruct (populated c && Pos.eqb (column c) col)%bool; reflexivity.
Qed.

(** ** The maximum that the scan keeps for a column *)

Lemma fold_update_Some (l : list Z) (a : Z) :
  0 < a ->
  exists r, List.fold_left update l (Some a) = Some r /\ 0 < r /\ a <= r /\
            (forall y, In y l -> y <= r) /\ (r = a \/ In r l).
Proof.
  revert a. induction l as [|x l IH]; intros a Ha; simpl.
  - exists a. split; [reflexivity|]. split; [exact Ha|]. split; [lia|].
    split; [intros y [] | now left].
  - assert (Hstep : exists b, update (Some a) x = Some b /\ 0 < b /\ a <= b /\
                      x <= b /\ (b = a \/ b = x)).
    { unfold update. destruct (Z.ltb_spec 0 x) as [Hx|Hx].
      - destruct (Z.ltb_spec a x) as [Hax|Hax].
        + exists x. repeat split; lia.
        + exists a. repeat split; lia.
      - exists a. repeat split; lia. }
    destruct Hstep as (b & -> & Hb & Hab & Hxb & Hbeq).
    destruct (IH b Hb) as (r & -> & Hr & Hbr & Hall & Hin).
    exists r. split; [reflexivity|]. split; [exact Hr|]. split; [lia|]. split.
    + intros y [<-|Hy]; [lia | auto].
    + destruct Hin as [->|Hin]; [|now right; right].
      destruct Hbeq as [->| ->]; [now left | now right; left].
Qed.

Lemma fold_update_None (l : list Z) :
  (List.fold_left update l None = None /\ forall y, In y l -> y <= 0) \/
  (exists r, List.fold_left update l None = Some r /\ 0 < r /\
             (forall y, In y l -> y <= r) /\ In r l).
Proof.
  induction l as [|x l IH]; simpl.
  - left. split; [reflexivity | intros y []].
  - destruct (Z.ltb_spec 0 x) as [Hx|Hx].
    + replace (update None x) with (Some x)
        by (unfold update; destruct (Z.ltb_spec 0 x); [reflexivity | lia]).
      right.
      destruct (fold_update_Some l x Hx) as (r & -> & Hr & Hxr & Hall & Hin).
      exists r. split; [reflexivity|]. split; [exact Hr|]. split.
      * intros y [<-|Hy]; auto.
      * destruct Hin as [->|Hin]; [now left | now right].
    + replace (update None x) with (@None Z)
        by (unfold update; destruct (Z.ltb_spec 0 x); [lia | reflexivity]).
      destruct IH as [[-> Hall]|(r & -> & Hr & Hall & Hin)].
      * left. split; [reflexivity|]. intros y [<-|Hy]; auto.
      * right. exists r. split; [reflexivity|]. split; [exact Hr|]. split.
        -- intros y [<-|Hy]; [lia | auto].
        -- now right.
Qed.



(** ** The widths written by the second loop *)

Lemma set_widths_other (mn pd mx : Z) (items : dict) (dims : gmap positive Z)
  (col : positive) :
  ~ In col (List.map fst items) ->
  set_widths mn pd mx items dims !! col = dims !! col.
Proof.
  revert dims. induction items as [|[k L] items IH]; intros dims Hnin; simpl.
  - reflexivity.
  - simpl in Hnin. rewrite IH by tauto.
    apply lookup_insert_ne. intros ->. tauto.
Qed.

Lemma set_widths_lookup (mn pd mx : Z) (items : dict) (dims : gmap positive Z)
  (col : positive) :
  List.NoDup (List.map fst items) ->
  set_widths mn pd mx items dims !! col =
    match dict_get col items with
    | Some L => Some (target_width mn pd mx L)
    | None => dims !! col
    end.
Proof.
  revert dims. induction items as [|[k L] items IH]; intros dims Hnd; simpl.
  - reflexivity.
  - simpl in Hnd. apply List.NoDup_cons_iff in Hnd as [Hnin Hnd].
    destruct (Pos.eqb_spec col k) as [->|Hne].
    + rewrite set_widths_other by exact Hnin. apply lookup_insert_eq.
    + rewrite IH by exact Hnd. destruct (dict_get col items); [reflexivity|].
      apply lookup_insert_ne. congruence.
Qed.

(** ** The pass as a whole *)

Lemma autofit_returns (ws : worksheet) (mn pd mx : Z) :
  autofit_columns_openpyxl ws mn pd mx =
    Returns (with_column_dimensions ws
      (set_widths mn pd mx (List.fold_left visit_pure (cells ws) [])
         (column_dimensions ws))).
Proof.
  unfold autofit_columns_openpyxl. rewrite scan_rows_pure. reflexivity.
Qed.

Lemma autofit_lookup (ws ws' : worksheet) (mn pd mx : Z) (col : positive) :
  autofit_columns_openpyxl ws mn pd mx = Returns ws' ->
  column_dimensions ws' !! col =
    match List.fold_left update (column_lengths ws col) None with
    | Some L => Some (target_width mn pd mx L)
    | None => column_dimensions ws !! col
    end.
Proof.
  rewrite autofit_returns. intros [= <-]. cbn [with_column_dimensions column_dimensions].
  rewrite set_widths_lookup by (apply fold_visit_NoDup; constructor).
  rewrite fold_visit_get. reflexivity.
Qed.







(** A cell holding the empty string is populated and has estimated
    length 0, whatever its column and format descriptor. *)
Lemma empty_string_estimate (col : positive) (nf : option string) :
  let c := {| column := col; value := PyStr ""; number_format := nf |} in
  populated c = true /\ _approx_display_len c = Returns 0.
Proof. split; reflexivity. Qed.






End AutofitFacts.

(* ===================================================================== *)
(** * File-name sanitising                                                *)
(* ===================================================================== *)

Module SafeNameFacts.
Import Py PyFacts Converter.

Lemma is_illegal_spec (c : ascii) : is_illegal c = true <-> In c ILLEGAL.
Proof.
  unfold is_illegal. rewrite existsb_exists. split.
  - intros (x & Hin & Heq). apply Ascii.eqb_eq in Heq. now subst.
  - intros Hin. exists c. split; [exact Hin | apply Ascii.eqb_refl].
Qed.

Lemma safe_name_cons (c : ascii) (rest : string) :
  safe_name (String c rest) "_" =
    String (if is_illegal c then "_"%char else c) (safe_name rest "_").
Proof. cbn [safe_name]. destruct (is_illegal c); reflexivity. Qed.

(** C9: [safe_name] replaces each of the characters of [ILLEGAL] by an
    underscore and leaves every other character as it is; the result has
    the length of the input, and "a/b:c" becomes "a_b_c". *)
Theorem safe_name_replaces_illegal (name : string) :
  String.length (safe_name name "_") = String.length name /\
  (forall i, String.get i (safe_name name "_") =
     option_map (fun c => if is_illegal c then "_"%char else c)
       (String.get i name)) /\
  (forall c, is_illegal c = true <->
     In c ["<"; ">"; ":"; "034"; "/"; "092"; "|"; "?"; "*"]%char) /\
  safe_name "a/b:c" "_" = "a_b_c".
Proof.
  split; [|split; [|split]].
  - induction name as [|c rest IH]; [reflexivity|].
    rewrite safe_name_cons. simpl. now rewrite IH.
  - induction name as [|c rest IH]; intros i; [reflexivity|].
    rewrite safe_name_cons. destruct i as [|i]; simpl; [reflexivity | apply IH].
  - exact is_illegal_spec.
  - reflexivity.
Qed.

End SafeNameFacts.

(* ===================================================================== *)
(** * The print-settings preparer                                         *)
(* ===================================================================== *)

Module PrepareFacts.
Import Py PyFacts Excel2pdf.

(** ** Stem and suffix of a file name *)

Lemma rfind_from_get (c : ascii) (s : string) (i : nat) (best : option nat)
  (j : nat) :
  rfind_from c s i best = Some j ->
  best = Some j \/ (i <= j)%nat /\ String.get (j - i) s = Some c.
Proof.
  revert i best. induction s as [|a s IH]; intros i best H; simpl in H.
  - now left.
  - apply IH in H as [H|[Hle Hget]].
    + destruct (Ascii.eqb_spec a c) as [->|Hne]; [|now left].
      injection H as <-. right. split; [lia|].
      now rewrite Nat.sub_diag.
    + right. split; [lia|].
      replace (j - i)%nat with (S (j - S i)) by lia. exact Hget.
Qed.

Lemma get_drop (i : nat) (s : string) (c : ascii) :
  String.get i s = Some c -> exists rest, str_drop i s = String c rest.
Proof.
  revert s. induction i as [|i IH]; intros [|a s] H; simpl in H;
    try discriminate.
  - injection H as ->. now exists s.
  - simpl. now apply IH.
Qed.

(** The suffix of a name is empty or starts with a dot. *)
Lemma suffix_of_shape (nm : string) :
  suffix_of nm = "" \/ exists rest, suffix_of nm = String "."%char rest.
Proof.
  unfold suffix_of, split_point.
  destruct (rfind "."%char nm) as [i|] eqn:E; [|now left].
  destruct (Nat.ltb 0 i && Nat.ltb i (String.length nm - 1))%bool;
    [|now left].
  right. apply rfind_from_get in E as [E|[_ E]]; [discriminate|].
  rewrite Nat.sub_0_r in E. now apply get_drop.
Qed.

Lemma stem_suffix (nm : string) : stem_of nm ++ suffix_of nm = nm.
Proof.
  unfold stem_of, suffix_of. destruct (split_point nm) as [i|].
  - apply take_drop.
  - induction nm as [|c nm IH]; [reflexivity|].
    now rewrite append_cons, IH.
Qed.

(** No name is its own stem followed by the print-ready suffix. *)
Lemma stem_print_ready_fresh (nm : string) :
  stem_of nm ++ print_ready_suffix <> nm.
Proof.
  intros H. rewrite <- (stem_suffix nm) in H at 2.
  apply append_inv_head in H.
  destruct (suffix_of_shape nm) as [E|[rest E]]; rewrite E in H; discriminate.
Qed.

Lemma print_ready_path_fresh (tmp xlsx_path : path) :
  joinpath tmp (stem xlsx_path ++ print_ready_suffix) <> xlsx_path.
Proof.
  intros H. apply (stem_print_ready_fresh (name xlsx_path)).
  unfold stem in H.
  set (n := stem_of (name xlsx_path) ++ print_ready_suffix) in *.
  symmetry. rewrite <- H. unfold name, joinpath. apply List.last_last.
Qed.

(** C7: [ensure_print_settings] writes to the path
    [<tmpdir>/<stem>_print_ready.xlsx] and to no other; that path is never
    the input path, so the input file is as it was; the function returns
    that path, and it does return it whenever the input is a readable
    workbook and the temporary path can be written. *)
Theorem ensure_print_settings_keeps_input (e : env) (xlsx_path : path)
  (landscape : bool) (fitwide : Z) (w : world) :
  let tmp := joinpath (tmpdir e) (stem xlsx_path ++ "_print_ready.xlsx") in
  let '(r, w') := ensure_print_settings e xlsx_path landscape fitwide w in
  tmp <> xlsx_path /\
  files w' !! xlsx_path = files w !! xlsx_path /\
  (forall p, p <> tmp -> files w' !! p = files w !! p) /\
  (forall p, r = Returns p ->
     p = tmp /\ exists wb, files w' !! tmp = Some (Xlsx wb)) /\
  (forall ex, r = Raises ex -> files w' = files w) /\
  (forall wb, files w !! xlsx_path = Some (Xlsx wb) ->
     writable e tmp = true -> r = Returns tmp).
Proof.
  intros tmp.
  assert (Hfresh : tmp <> xlsx_path) by apply print_ready_path_fresh.
  unfold ensure_print_settings, load_workbook, save_workbook.
  fold print_ready_suffix. change print_ready_suffix with "_print_ready.xlsx".
  fold tmp. unfold bind, emit, write_file, ret, raise. cbn [files log].
  destruct (files w !! xlsx_path) as [[wb| |]|] eqn:Hf.
  - destruct (writable e tmp) eqn:Hw; cbn [files log].
    + split; [exact Hfresh|]. split; [now rewrite lookup_insert_ne|].
      split; [intros p Hp; now rewrite lookup_insert_ne|].
      split; [intros p [= <-]; split; [reflexivity|];
              eexists; apply lookup_insert_eq|].
      split; [discriminate | reflexivity].
    + split; [exact Hfresh|]. split; [exact Hf|].
      split; [reflexivity|]. split; [discriminate|].
      split; [reflexivity | discriminate].
  - split; [exact Hfresh|]. split; [exact Hf|]. split; [reflexivity|].
    split; [discriminate|]. split; [reflexivity | discriminate].
  - split; [exact Hfresh|]. split; [exact Hf|]. split; [reflexivity|].
    split; [discriminate|]. split; [reflexivity | discriminate].
  - split; [exact Hfresh|]. split; [exact Hf|]. split; [reflexivity|].
    split; [discriminate|]. split; [reflexivity | discriminate].
Qed.

End PrepareFacts.

(* ===================================================================== *)
(** * The export orchestrator                                             *)
(* ===================================================================== *)

Module DriverFacts.
Import Py PyFacts Excel2pdf Spec.

(** ** What a computation appends to the log *)

Section Emits.
Context (P : event -> Prop) {A B : Type}.

Lemma emits_ret (a : A) : emits P (ret a : M A).
Proof. intros w. exists []. split; [now rewrite List.app_nil_r | constructor]. Qed.

Lemma emits_raise (e : exn) : emits P (raise e : M A).
Proof. intros w. exists []. split; [now rewrite List.app_nil_r | constructor]. Qed.

Lemma emits_bind (m : M A) (k : A -> M B) :
  emits P m -> (forall a, emits P (k a)) -> emits P (bind m k).
Proof.
  intros Hm Hk w. unfold bind. destruct (Hm w) as (evs1 & E1 & F1).
  destruct (m w) as [[a|e] w1]; cbn [snd] in *.
  - destruct (Hk a w1) as (evs2 & E2 & F2).
    exists (evs1 ++ evs2)%list. split.
    + now rewrite E2, E1, List.app_assoc.
    + now apply List.Forall_app.
  - now exists evs1.
Qed.

Lemma emits_try_except (body : M A) (h : exn -> M A) :
  emits P body -> (forall e, emits P (h e)) -> emits P (try_except body h).
Proof.
  intros Hm Hh w. unfold try_except. destruct (Hm w) as (evs1 & E1 & F1).
  destruct (body w) as [[a|e] w1]; cbn [snd] in *.
  - now exists evs1.
  - destruct (Hh e w1) as (evs2 & E2 & F2).
    exists (evs1 ++ evs2)%list. split.
    + now rewrite E2, E1, List.app_assoc.
    + now apply List.Forall_app.
Qed.

Lemma emits_try_finally (body : M A) (final : M unit) :
  emits P body -> emits P final -> emits P (try_finally body final).
Proof.
  intros Hm Hf w. unfold try_finally. destruct (Hm w) as (evs1 & E1 & F1).
  destruct (body w) as [r w1]; cbn [snd] in *.
  destruct (Hf w1) as (evs2 & E2 & F2).
  exists (evs1 ++ evs2)%list. split.
  - destruct (final w1) as [[u|e] w2]; cbn [snd] in *;
      now rewrite E2, E1, List.app_assoc.
  - now apply List.Forall_app.
Qed.
End Emits.

Lemma emits_emit (P : event -> Prop) (ev : event) : P ev -> emits P (emit ev).
Proof. intros H w. exists [ev]. split; [reflexivity | now constructor]. Qed.

Lemma emits_call (P : event -> Prop) (ev : event) (ok : bool) (e : exn) :
  P ev -> emits P (call ev ok e).
Proof.
  intros H. apply emits_bind; [now apply emits_emit|].
  intros _. destruct ok; [apply emits_ret | apply emits_raise].
Qed.

Lemma emits_write_file (P : event -> Prop) (p : path) (f : file) :
  emits P (write_file p f).
Proof. intros w. exists []. split; [now rewrite List.app_nil_r | constructor]. Qed.

Lemma emits_weaken (P Q : event -> Prop) {A} (m : M A) :
  (forall ev, P ev -> Q ev) -> emits P m -> emits Q m.
Proof.
  intros HPQ Hm w. destruct (Hm w) as (evs & E & F).
  exists evs. split; [exact E|]. eapply List.Forall_impl; eauto.
Qed.

Section Starts.
Context (ev : event) {A B : Type}.

Lemma starts_emit : starts ev (emit ev).
Proof. intros w. now exists []. Qed.

Lemma starts_bind (m : M A) (k : A -> M B) :
  starts ev m -> (forall a, emits (fun _ => True) (k a)) ->
  starts ev (bind m k).
Proof.
  intros Hm Hk w. unfold bind. destruct (Hm w) as (evs1 & E1).
  destruct (m w) as [[a|e] w1]; cbn [snd] in *.
  - destruct (Hk a w1) as (evs2 & E2 & _).
    exists (evs1 ++ evs2)%list.
    now rewrite E2, E1, <- List.app_assoc.
  - now exists evs1.
Qed.

Lemma starts_try_except (body : M A) (h : exn -> M A) :
  starts ev body -> (forall e, emits (fun _ => True) (h e)) ->
  starts ev (try_except body h).
Proof.
  intros Hm Hh w. unfold try_except. destruct (Hm w) as (evs1 & E1).
  destruct (body w) as [[a|e] w1]; cbn [snd] in *.
  - now exists evs1.
  - destruct (Hh e w1) as (evs2 & E2 & _).
    exists (evs1 ++ evs2)%list.
    now rewrite E2, E1, <- List.app_assoc.
Qed.
End Starts.

Lemma starts_call (ev : event) (ok : bool) (e : exn) : starts ev (call ev ok e).
Proof.
  apply starts_bind; [apply starts_emit|].
  intros _. destruct ok; [apply emits_ret | apply emits_raise].
Qed.

Lemma returns_try_except {A} (body : M A) (h : exn -> M A) :
  (forall e, returns (h e)) -> returns (try_except body h).
Proof.
  intros Hh w. unfold try_except. destruct (body w) as [[a|e] w1].
  - now exists a.
  - apply Hh.
Qed.

Lemma returns_ret {A} (a : A) : returns (ret a : M A).
Proof. intros w. now exists a. Qed.

Lemma returns_bind {A B} (m : M A) (k : A -> M B) :
  returns m -> (forall a, returns (k a)) -> returns (bind m k).
Proof.
  intros Hm Hk w. unfold bind. destruct (Hm w) as [a Ha].
  destruct (m w) as [r w1]. cbn [fst] in Ha. subst r. apply Hk.
Qed.

Lemma returns_emit (ev : event) : returns (emit ev).
Proof. intros w. now exists tt. Qed.

(** ** Renderer A *)

Lemma emits_open_book (e : env) (p : path) : emits engineA (open_book e p).
Proof.
  apply emits_bind; [now apply emits_emit|]. intros _ w. exists [].
  split; [|constructor]. rewrite List.app_nil_r.
  destruct (xw_book_ok e); [|reflexivity].
  destruct (files w !! p) as [[wb| |]|]; reflexivity.
Qed.

Lemma emits_excel_sheets (e : env) (landscape : bool) (fitwide : Z)
  (i n : nat) : emits engineA (excel_sheets e landscape fitwide i n).
Proof.
  revert i. induction n as [|n IH]; intros i; cbn [excel_sheets].
  - apply emits_ret.
  - apply emits_bind; [|intros _; apply IH].
    apply emits_bind.
    + apply emits_try_except; [now apply emits_call|].
      intros _. apply emits_ret.
    + intros _. now apply emits_call.
Qed.

(** The part of [excel_export] that follows the import emits engine
    events only. *)
Ltac excel_body_emits :=
  destruct (negb (xw_importable _)); [apply emits_ret|];
  apply emits_try_except; [|intros _; apply emits_ret];
  apply emits_bind; [now apply emits_call|]; intros _;
  apply emits_try_finally; [|now apply emits_call];
  apply emits_bind; [apply emits_open_book|]; intros wb;
  apply emits_bind; [apply emits_excel_sheets|]; intros _;
  apply emits_bind; [now apply emits_call|]; intros _;
  apply emits_bind; [apply emits_write_file|]; intros _;
  apply emits_bind; [now apply emits_call|]; intros _; apply emits_ret.

Lemma emits_excel_export (e : env) (xlsx_path pdf_path : path)
  (landscape : bool) (fitwide : Z) :
  emits engineA (excel_export e xlsx_path pdf_path landscape fitwide).
Proof.
  apply emits_bind; [now apply emits_emit|]. intros _. excel_body_emits.
Qed.

Lemma starts_excel_export (e : env) (xlsx_path pdf_path : path)
  (landscape : bool) (fitwide : Z) :
  starts EvImportXlwings
    (excel_export e xlsx_path pdf_path landscape fitwide).
Proof.
  apply starts_bind; [apply starts_emit|]. intros _.
  apply (emits_weaken engineA); [auto|]. excel_body_emits.
Qed.

Lemma returns_excel_export (e : env) (xlsx_path pdf_path : path)
  (landscape : bool) (fitwide : Z) :
  returns (excel_export e xlsx_path pdf_path landscape fitwide).
Proof.
  apply returns_bind; [apply returns_emit|]. intros _.
  destruct (negb (xw_importable e)); [apply returns_ret|].
  apply returns_try_except. intros _. apply returns_ret.
Qed.

(** Renderer A never raises; it logs its import attempt, then engine
    calls, then its return value. *)
Lemma excel_run (e : env) (xlsx_path pdf_path : path) (landscape : bool)
  (fitwide : Z) (w : world) :
  exists ok w' evs,
    try_export_with_excel_via_xlwings e xlsx_path pdf_path landscape fitwide w
      = (Returns ok, w') /\
    log w' = (log w ++ (EvImportXlwings :: evs)
                ++ [EvReturned RendererA ok])%list /\
    List.Forall engineA evs.
Proof.
  destruct (returns_excel_export e xlsx_path pdf_path landscape fitwide w)
    as [ok Hok].
  destruct (emits_excel_export e xlsx_path pdf_path landscape fitwide w)
    as (evs0 & E0 & F0).
  destruct (starts_excel_export e xlsx_path pdf_path landscape fitwide w)
    as (evs & E).
  unfold try_export_with_excel_via_xlwings, bind.
  destruct (excel_export e xlsx_path pdf_path landscape fitwide w) as [r w0].
  cbn [fst snd] in *. subst r. unfold emit, ret. cbn [log files].
  rewrite E0 in E. apply List.app_inv_head in E. subst evs0.
  exists ok. eexists. exists evs. split; [reflexivity|]. cbn [log].
  split; [|now inversion F0].
  rewrite E0. now rewrite <- List.app_assoc.
Qed.

(** ** Renderer B *)

Lemma emits_run_soffice (e : env) (outdir xlsx_path : path) :
  emits engineB (run_soffice e outdir xlsx_path).
Proof.
  apply emits_bind; [now apply emits_call|]. intros _ w. exists [].
  split; [|constructor]. rewrite List.app_nil_r.
  destruct (soffice_writes e); [|reflexivity].
  destruct (files w !! xlsx_path) as [[wb| |]|]; reflexivity.
Qed.

Lemma emits_replace_file (e : env) (src dst : path) :
  emits engineB (replace_file e src dst).
Proof.
  apply emits_bind; [now apply emits_call|]. intros _ w. exists [].
  split; [|constructor]. rewrite List.app_nil_r.
  destruct (files w !! src); reflexivity.
Qed.

Lemma emits_exists_file (P : event -> Prop) (p : path) :
  emits P (exists_file p).
Proof. intros w. exists []. split; [now rewrite List.app_nil_r | constructor]. Qed.

Lemma emits_libreoffice_tail (e : env) (xlsx_path pdf_path : path) :
  emits engineB
    (fun w =>
       match with_suffix_name xlsx_path ".pdf" with
       | Raises ex => (Raises ex, w)
       | Returns produced =>
           let src := joinpath (parent pdf_path) produced in
           bind (bind (exists_file src) (fun src_exists =>
                   if (negb (bool_decide (src = pdf_path)) && src_exists)%bool
                   then replace_file e src pdf_path else ret tt))
                (fun _ => exists_file pdf_path) w
       end).
Proof.
  destruct (with_suffix_name xlsx_path ".pdf") as [produced|ex].
  - cbv zeta. apply emits_bind; [|intros _; apply emits_exists_file].
    apply emits_bind; [apply emits_exists_file|]. intros b.
    destruct (negb _ && b)%bool; [apply emits_replace_file | apply emits_ret].
  - apply (emits_raise engineB (A := bool)).
Qed.

Lemma emits_libreoffice_export (e : env) (xlsx_path pdf_path : path) :
  emits engineB (libreoffice_export e xlsx_path pdf_path).
Proof.
  apply emits_try_except; [|intros _; apply emits_ret].
  apply emits_bind; [apply emits_run_soffice|]. intros _.
  apply emits_libreoffice_tail.
Qed.

Lemma starts_libreoffice_export (e : env) (xlsx_path pdf_path : path) :
  starts (EvSoffice (parent pdf_path) xlsx_path)
    (libreoffice_export e xlsx_path pdf_path).
Proof.
  assert (Htrue : forall (P : event -> Prop) {A} (m : M A),
             emits P m -> emits (fun _ => True) m).
  { intros P A m. apply emits_weaken. auto. }
  apply starts_try_except; [|intros _; apply emits_ret].
  apply starts_bind.
  - apply starts_bind; [apply starts_call|]. intros _ w. exists [].
    split; [|constructor]. rewrite List.app_nil_r.
    destruct (soffice_writes e); [|reflexivity].
    destruct (files w !! xlsx_path) as [[wb| |]|]; reflexivity.
  - intros _. eapply Htrue, emits_libreoffice_tail.
Qed.

Lemma returns_libreoffice_export (e : env) (xlsx_path pdf_path : path) :
  returns (libreoffice_export e xlsx_path pdf_path).
Proof. apply returns_try_except. intros _. apply returns_ret. Qed.

Lemma libreoffice_run (e : env) (xlsx_path pdf_path : path) (w : world) :
  exists ok w' evs,
    try_export_with_libreoffice e xlsx_path pdf_path w = (Returns ok, w') /\
    log w' = (log w ++ (EvSoffice (parent pdf_path) xlsx_path :: evs)
                ++ [EvReturned RendererB ok])%list /\
    List.Forall engineB evs.
Proof.
  destruct (returns_libreoffice_export e xlsx_path pdf_path w) as [ok Hok].
  destruct (emits_libreoffice_export e xlsx_path pdf_path w)
    as (evs0 & E0 & F0).
  destruct (starts_libreoffice_export e xlsx_path pdf_path w) as (evs & E).
  unfold try_export_with_libreoffice, bind.
  destruct (libreoffice_export e xlsx_path pdf_path w) as [r w0].
  cbn [fst snd] in *. subst r. unfold emit, ret. cbn [log files].
  rewrite E0 in E. apply List.app_inv_head in E. subst evs0.
  exists ok. eexists. exists evs. split; [reflexivity|]. cbn [log].
  split; [|now inversion F0].
  rewrite E0. now rewrite <- List.app_assoc.
Qed.

(** ** The preparation *)

Lemma prepare_run (e : env) (xlsx_path : path) (landscape : bool)
  (fitwide : Z) (w : world) :
  (exists p w',
     ensure_print_settings e xlsx_path landscape fitwide w = (Returns p, w') /\
     log w' = (log w ++ [EvLoadWorkbook xlsx_path; EvSaveWorkbook p])%list) \/
  (exists ex w',
     ensure_print_settings e xlsx_path landscape fitwide w = (Raises ex, w') /\
     log w' = (log w ++ [EvLoadWorkbook xlsx_path])%list).
Proof.
  unfold ensure_print_settings, load_workbook, save_workbook.
  unfold bind, emit, write_file, ret, raise. cbn [files log].
  destruct (files w !! xlsx_path) as [[wb| |]|].
  - destruct (writable e _).
    + left. eexists. eexists. split; [reflexivity|]. cbn [log].
      now rewrite <- List.app_assoc.
    + right. eexists. eexists. split; reflexivity.
  - right. eexists. eexists. split; reflexivity.
  - right. eexists. eexists. split; reflexivity.
  - right. eexists. eexists. split; reflexivity.
Qed.

(** ** Reading the log *)

Lemma attempted_nil (r : renderer) : attempted r [] <-> False.
Proof. split; [intros (ev & [] & _) | tauto]. Qed.

Lemma attempted_cons (r : renderer) (ev : event) (l : list event) :
  attempted r (ev :: l) <-> phase_of ev = Engine r \/ attempted r l.
Proof.
  split.
  - intros (x & [<-|Hin] & Hx); [now left | right; now exists x].
  - intros [H|(x & Hin & Hx)]; [exists ev | exists x]; simpl; auto.
Qed.

Lemma attempted_app (r : renderer) (l1 l2 : list event) :
  attempted r (l1 ++ l2) <-> attempted r l1 \/ attempted r l2.
Proof.
  split.
  - intros (x & Hin & Hx). apply List.in_app_or in Hin as [Hin|Hin];
      [left | right]; now exists x.
  - intros [(x & Hin & Hx)|(x & Hin & Hx)]; exists x;
      (split; [apply List.in_or_app; auto | exact Hx]).
Qed.

Lemma failed_nil (r : renderer) : failed r [] <-> False.
Proof. split; [intros [] | tauto]. Qed.

Lemma failed_cons (r : renderer) (ev : event) (l : list event) :
  failed r (ev :: l) <-> ev = EvReturned r false \/ failed r l.
Proof. reflexivity. Qed.

Lemma failed_app (r : renderer) (l1 l2 : list event) :
  failed r (l1 ++ l2) <-> failed r l1 \/ failed r l2.
Proof. apply List.in_app_iff. Qed.

Lemma prepared_nil : prepared [] <-> False.
Proof. split; [intros (p & []) | tauto]. Qed.

Lemma prepared_cons (ev : event) (l : list event) :
  prepared (ev :: l) <-> (exists p, ev = EvSaveWorkbook p) \/ prepared l.
Proof.
  split.
  - intros (p & [->|Hin]); [left | right]; now exists p.
  - intros [(p & ->)|(p & Hin)]; exists p; simpl; auto.
Qed.

Lemma prepared_app (l1 l2 : list event) :
  prepared (l1 ++ l2) <-> prepared l1 \/ prepared l2.
Proof.
  split.
  - intros (p & Hin). apply List.in_app_or in Hin as [Hin|Hin];
      [left | right]; now exists p.
  - intros [(p & Hin)|(p & Hin)]; exists p; apply List.in_or_app; auto.
Qed.

(** Engine events of a renderer are neither preparation nor returns nor
    calls of the other renderer. *)
Lemma engine_events (r : renderer) (evs : list event) :
  List.Forall (fun ev => phase_of ev = Engine r) evs ->
  (prepared evs <-> False) /\
  (forall r', failed r' evs <-> False) /\
  (forall r', r' <> r -> attempted r' evs <-> False) /\
  List.Forall (belongs r) evs.
Proof.
  intros F. rewrite List.Forall_forall in F. repeat split; try tauto.
  - intros (p & Hin). specialize (F _ Hin). discriminate.
  - intros Hin. specialize (F _ Hin). discriminate.
  - intros (ev & Hin & Hev). specialize (F _ Hin). congruence.
  - apply List.Forall_forall. intros ev Hin. left. auto.
Qed.

(** C4 (as amended): [convert_one] prepares the working copy first; when
    the preparation raises, it raises with no renderer attempted;
    otherwise renderer A is attempted, renderer B is attempted if and only
    if renderer A reported failure or unavailability, and [convert_one]
    raises if and only if the preparation raised or both renderers
    failed. *)
Theorem convert_one_orchestration (e : env) (xlsx out_pdf : path)
  (landscape : bool) (fitwide : Z) (w : world) :
  log w = [] ->
  let '(r, w') := convert_one e xlsx out_pdf landscape fitwide w in
  (exists prep ra rb,
     log w' = (prep ++ ra ++ rb)%list /\
     List.hd_error prep = Some (EvLoadWorkbook xlsx) /\
     List.Forall (fun ev => phase_of ev = Preparation) prep /\
     List.Forall (belongs RendererA) ra /\
     List.Forall (belongs RendererB) rb) /\
  (attempted RendererA (log w') <-> prepared (log w')) /\
  (attempted RendererB (log w') <-> failed RendererA (log w')) /\
  (raises r <->
     ~ prepared (log w') \/
     (failed RendererA (log w') /\ failed RendererB (log w'))).
Proof.
  intros Hlog. unfold convert_one, bind.
  destruct (prepare_run e xlsx landscape fitwide w)
    as [(p & w1 & -> & L1) | (ex & w1 & -> & L1)]; rewrite Hlog in L1;
    cbn [List.app] in L1.
  - destruct (excel_run e p out_pdf landscape fitwide w1)
      as (a & w2 & evsA & -> & L2 & FA).
    rewrite L1 in L2.
    destruct (engine_events RendererA evsA FA) as (PA & FlA & AtA & BA).
    destruct a; cbn [negb].
    + unfold ret.
      assert (Hprep : prepared (log w2)).
      { rewrite L2. exists p. simpl. auto. }
      assert (HatA : attempted RendererA (log w2)).
      { rewrite L2. exists EvImportXlwings. simpl. auto. }
      assert (HnB : ~ attempted RendererB (log w2)).
      { rewrite L2, !attempted_app, !attempted_cons, attempted_nil,
          (AtA RendererB) by discriminate.
        cbn [phase_of]. intuition discriminate. }
      assert (HnfA : ~ failed RendererA (log w2)).
      { rewrite L2, !failed_app, !failed_cons, failed_nil, (FlA RendererA).
        intuition discriminate. }
      split; [|split; [tauto|split; [tauto|]]].
      * exists [EvLoadWorkbook xlsx; EvSaveWorkbook p],
          ((EvImportXlwings :: evsA) ++ [EvReturned RendererA true])%list, [].
        rewrite List.app_nil_r. split; [exact L2|]. split; [reflexivity|].
        split; [repeat constructor|]. split; [|constructor].
        apply List.Forall_app. split; [constructor; [now left | exact BA]|].
        constructor; [now right | constructor].
      * split; [intros (ex & Hex); discriminate | tauto].
    + destruct (libreoffice_run e p out_pdf w2)
        as (b & w3 & evsB & -> & L3 & FB).
      rewrite L2 in L3.
      destruct (engine_events RendererB evsB FB) as (PB & FlB & AtB & BB).
      assert (Hshape : exists prep ra rb,
                log w3 = (prep ++ ra ++ rb)%list /\
                List.hd_error prep = Some (EvLoadWorkbook xlsx) /\
                List.Forall (fun ev => phase_of ev = Preparation) prep /\
                List.Forall (belongs RendererA) ra /\
                List.Forall (belongs RendererB) rb).
      { exists [EvLoadWorkbook xlsx; EvSaveWorkbook p],
          ((EvImportXlwings :: evsA) ++ [EvReturned RendererA false])%list,
          ((EvSoffice (parent out_pdf) p :: evsB)
             ++ [EvReturned RendererB b])%list.
        split; [rewrite L3; now rewrite <- !List.app_assoc|].
        split; [reflexivity|]. split; [repeat constructor|]. split.
        - apply List.Forall_app. split; [constructor; [now left | exact BA]|].
          constructor; [now right | constructor].
        - apply List.Forall_app. split; [constructor; [now left | exact BB]|].
          constructor; [now right | constructor]. }
      assert (HA : attempted RendererA (log w3) /\ prepared (log w3) /\
                   attempted RendererB (log w3) /\ failed RendererA (log w3)).
      { rewrite L3. repeat split.
        - exists EvImportXlwings. split; [|reflexivity].
          apply List.in_or_app. left. simpl. auto.
        - exists p. apply List.in_or_app. left. simpl. auto.
        - exists (EvSoffice (parent out_pdf) p). split; [|reflexivity].
          apply List.in_or_app. right. simpl. auto.
        - apply List.in_or_app. left. simpl. right. right. right.
          apply List.in_or_app. right. simpl. auto. }
      destruct HA as (HatA & Hprep & HatB & HfA).
      assert (HfB : failed RendererB (log w3) <-> b = false).
      { rewrite L3.
        rewrite !failed_app, !failed_cons, !failed_nil, (FlA RendererB),
          (FlB RendererB).
        split.
        - intros H. destruct b; [|reflexivity]. exfalso.
          intuition discriminate.
        - intros ->. right. right. left. reflexivity. }
      destruct b; cbn [negb]; unfold ret, raise;
        (split; [exact Hshape|]); (split; [tauto|]); (split; [tauto|]).
      * split; [intros (ex & Hex); discriminate|].
        intros [Hn|[_ H]]; [tauto|]. apply HfB in H. discriminate.
      * split; [|intros _; eexists; reflexivity].
        intros _. right. split; [exact HfA | now apply HfB].
  - rewrite L1. split; [|split; [|split]].
    + exists [EvLoadWorkbook xlsx], [], []. repeat split; repeat constructor.
    + rewrite attempted_cons, attempted_nil, prepared_cons, prepared_nil.
      cbn [phase_of]. split; [intros [H|[]]; discriminate|].
      intros [(p & H)|[]]. discriminate.
    + rewrite attempted_cons, attempted_nil, failed_cons, failed_nil.
      cbn [phase_of]. split; [intros [H|[]]; discriminate|].
      intros [H|[]]. discriminate.
    + split; [|intros _; eexists; reflexivity].
      intros _. left. rewrite prepared_cons, prepared_nil.
      intros [(p & H)|[]]. discriminate.
Qed.

(** The run on a workbook when xlwings is missing and the headless
    converter works: renderer B is used and the PDF is moved into place. *)
Example convert_one_fallback_run :
  let '(r, w') :=
    convert_one (sample_env false true) ["data"; "book.xlsx"]
      ["out"; "report.pdf"] false 1
      (world_with ["data"; "book.xlsx"] (Xlsx [])) in
  r = Returns tt /\
  log w' =
    [EvLoadWorkbook ["data"; "book.xlsx"];
     EvSaveWorkbook ["tmp"; "book_print_ready.xlsx"];
     EvImportXlwings; EvReturned RendererA false;
     EvSoffice ["out"] ["tmp"; "book_print_ready.xlsx"];
     EvReplace ["out"; "book_print_ready.pdf"] ["out"; "report.pdf"];
     EvReturned RendererB true] /\
  files w' !! ["out"; "report.pdf"] = Some (Pdf []).
Proof. vm_compute. repeat split; reflexivity. Qed.

Lemma convert_one_orchestration_witness :
  let '(r, w') :=
    convert_one (sample_env false true) ["data"; "book.xlsx"]
      ["out"; "report.pdf"] false 1
      (world_with ["data"; "book.xlsx"] (Xlsx [])) in
  (attempted RendererA (log w') <-> prepared (log w')) /\
  (attempted RendererB (log w') <-> failed RendererA (log w')) /\
  (raises r <->
     ~ prepared (log w') \/
     (failed RendererA (log w') /\ failed RendererB (log w'))).
Proof.
  pose proof (convert_one_orchestration (sample_env false true)
                ["data"; "book.xlsx"] ["out"; "report.pdf"] false 1
                (world_with ["data"; "book.xlsx"] (Xlsx [])) eq_refl) as H.
  destruct (convert_one _ _ _ _ _ _) as [r w']. tauto.
Defined.

(** C4 as stated fails when the working copy cannot be prepared: on a
    file that the workbook library rejects, [convert_one] raises although
    no renderer failed, none having been attempted. *)
Lemma convert_one_unreadable_input :
  let '(r, w') :=
    convert_one (sample_env true true) ["data"; "legacy.xls"]
      ["out"; "legacy.pdf"] false 1
      (world_with ["data"; "legacy.xls"] Opaque) in
  r = Raises InvalidFileException /\
  log w' = [EvLoadWorkbook ["data"; "legacy.xls"]] /\
  ~ (raises r <-> failed RendererA (log w') /\ failed RendererB (log w')).
Proof.
  vm_compute. split; [reflexivity|]. split; [reflexivity|].
  intros [H _]. destruct H as [[H|[]] _]; [|discriminate].
  eexists. reflexivity.
Qed.

End DriverFacts.

(* ===================================================================== *)
(** * The per-sheet export                                                *)
(* ===================================================================== *)

Module ExportFacts.
Import Py PyFacts Converter.

(** The page setup is best-effort: it never raises. *)
Lemma page_setup_returns (e : env) (i : nat) (sht : sheet)
  (fit_to_page : bool) (landscape : option bool) (l : list event) :
  exists l',
    _apply_page_setup_cross_platform e i sht fit_to_page landscape l
      = (Returns tt, l').
Proof.
  unfold _apply_page_setup_cross_platform, try_except, call, bind, emit,
    ret, raise.
  destruct (is_mac e);
    [destruct (fit_to_page || bool_decide (is_Some landscape))%bool|];
    try destruct (sht_page_setup_ok sht); eauto.
Qed.

(** One sheet whose name can be read never makes the loop raise, whether
    its export succeeds or not. *)
Lemma export_sheet_returns (e : env) (stem_name : string) (out_dir : path)
  (include_hidden fit_to_page : bool) (landscape : option bool)
  (created : list path) (i : nat) (sht : sheet) (nm : string)
  (l : list event) :
  sht_name sht = Returns nm ->
  exists created' l',
    export_sheet e stem_name out_dir include_hidden fit_to_page landscape
      created i sht l = (Returns created', l').
Proof.
  intros Hnm. unfold export_sheet. unfold bind at 1. unfold emit at 1.
  destruct (negb include_hidden && negb _)%bool; [unfold ret; eauto|].
  unfold bind at 1.
  destruct (page_setup_returns e i sht fit_to_page landscape (l ++ [EvReadVisible i])%list)
    as [l1 ->].
  rewrite Hnm. unfold bind, of_outcome, emit, try_except, call, ret, raise.
  destruct (sht_to_pdf_ok sht); eauto.
Qed.

Lemma export_sheets_returns (e : env) (stem_name : string) (out_dir : path)
  (include_hidden fit_to_page : bool) (landscape : option bool)
  (shts : list sheet) :
  (forall sht, In sht shts -> exists nm, sht_name sht = Returns nm) ->
  forall (created : list path) (i : nat) (l : list event),
  exists created' l',
    export_sheets e stem_name out_dir include_hidden fit_to_page landscape
      created i shts l = (Returns created', l').
Proof.
  induction shts as [|sht shts IH]; intros Hnames created i l;
    cbn [export_sheets].
  - unfold ret. eauto.
  - destruct (Hnames sht (or_introl eq_refl)) as [nm Hnm].
    destruct (export_sheet_returns e stem_name out_dir include_hidden
                fit_to_page landscape created i sht nm l Hnm)
      as (c1 & l1 & E1).
    unfold bind. rewrite E1. apply IH. intros s Hs. apply Hnames. now right.
Qed.

(** [finally: app.quit()] makes the quit the last call, whatever the body
    did; a returned value is the one of the body. *)
Lemma try_finally_quit {A} (body : M A) (ok : bool) (l : list event) :
  exists r0 l0,
    body l = (r0, l0) /\
    snd (try_finally body (call EvAppQuit ok EngineError) l)
      = (l0 ++ [EvAppQuit])%list /\
    forall a, fst (try_finally body (call EvAppQuit ok EngineError) l)
                = Returns a -> r0 = Returns a.
Proof.
  unfold try_finally, call, bind, emit, ret, raise.
  destruct (body l) as [r0 l0]. exists r0, l0.
  destruct ok; cbn [fst snd]; repeat split; auto; discriminate.
Qed.

(** A body that ends with the close call returns only after that call. *)
Lemma returns_after_close {A B} (m : M A) (k : A -> M B) (ok : bool)
  (l l' : list event) (b : B) :
  bind m (fun a => bind (k a) (fun created =>
    bind (call EvBookClose ok EngineError) (fun _ => ret created))) l
    = (Returns b, l') ->
  exists l0, l' = (l0 ++ [EvBookClose])%list.
Proof.
  unfold bind, call, emit, ret, raise.
  destruct (m l) as [[a|ex] l1]; [|discriminate].
  destruct (k a l1) as [[c|ex] l2]; [|discriminate].
  destruct ok; [|discriminate]. intros [= _ <-]. eauto.
Qed.

Import ExportSpec.

(** C8 (as amended): once the engine has been started,
    [export_workbook_sheets_to_pdf] ends with the call that quits it,
    whether it returns or raises; when it returns, the workbook was closed
    just before; and the workbook is closed whenever it was opened and
    every sheet name could be read, also when sheet exports failed. *)
Theorem export_releases_engine (e : env) (xls_path : path)
  (out_dir : option path) (include_hidden fit_to_page : bool)
  (landscape : option bool) :
  path_exists e = true -> mkdir_ok e = true -> app_ok e = true ->
  let '(r, lg) :=
    export_workbook_sheets_to_pdf e xls_path out_dir include_hidden
      fit_to_page landscape [] in
  (exists l, lg = (l ++ [EvAppQuit])%list) /\
  (forall created, r = Returns created ->
     exists l, lg = (l ++ [EvBookClose; EvAppQuit])%list) /\
  (open_ok e = true ->
   (forall sht, In sht (sheets e) -> exists nm, sht_name sht = Returns nm) ->
   In EvBookClose lg).
Proof.
  intros Hex Hmk Happ. unfold export_workbook_sheets_to_pdf.
  rewrite Hex, Hmk, Happ. cbn [negb].
  set (out_dir' := default _ out_dir).
  unfold bind at 1, call at 1, bind at 1, emit at 1, ret at 1.
  unfold bind at 1, call at 1, bind at 1, emit at 1, ret at 1.
  cbn [List.app].
  set (body := bind (call (EvBookOpen xls_path) (open_ok e) EngineError) _).
  destruct (try_finally_quit body (quit_ok e) [EvMkdir out_dir'; EvAppStart])
    as (r0 & l0 & Hbody & Hlog & Hret).
  destruct (try_finally body (call EvAppQuit (quit_ok e) EngineError)
              [EvMkdir out_dir'; EvAppStart]) as [r lg].
  cbn [fst snd] in *. subst lg. split; [eauto|]. split.
  - intros created ->. rewrite (Hret created eq_refl) in Hbody.
    subst body. apply returns_after_close in Hbody as [l1 ->].
    exists l1. now rewrite <- List.app_assoc.
  - intros Hopen Hnames. apply List.in_or_app. left.
    revert Hbody. subst body. rewrite Hopen.
    unfold bind at 1, call at 1, bind at 1, emit at 1, ret at 1.
    cbn [List.app].
    destruct (export_sheets_returns e (stem xls_path) out_dir' include_hidden
                fit_to_page landscape (sheets e) Hnames [] 0%nat
                [EvMkdir out_dir'; EvAppStart; EvBookOpen xls_path])
      as (c1 & l1 & E1).
    unfold bind at 1. rewrite E1.
    unfold bind, call, emit, ret, raise.
    destruct (close_ok e); intros [= _ <-]; apply List.in_or_app; right;
      simpl; auto.
Qed.

(** A workbook with two sheets of which the second fails to export: one
    PDF is created, the workbook is closed, the engine quits. *)
Lemma export_releases_engine_witness :
  let '(r, lg) :=
    export_workbook_sheets_to_pdf
      (sample_env [plain_sheet "Q1" true; plain_sheet "Q2" false])
      ["data"; "book.xlsx"] None false true None [] in
  (exists l, lg = (l ++ [EvAppQuit])%list) /\
  (forall created, r = Returns created ->
     exists l, lg = (l ++ [EvBookClose; EvAppQuit])%list) /\
  In EvBookClose lg.
Proof.
  pose proof (export_releases_engine
                (sample_env [plain_sheet "Q1" true; plain_sheet "Q2" false])
                ["data"; "book.xlsx"] None false true None
                eq_refl eq_refl eq_refl) as H.
  destruct (export_workbook_sheets_to_pdf _ _ _ _ _ _ _) as [r lg].
  destruct H as (H1 & H2 & H3). split; [exact H1|]. split; [exact H2|].
  apply H3; [reflexivity|].
  intros sht [<-|[<-|[]]]; eexists; reflexivity.
Defined.

Example export_partial_failure_run :
  export_workbook_sheets_to_pdf
    (sample_env [plain_sheet "Q1" true; plain_sheet "Q2" false])
    ["data"; "book.xlsx"] None false true None [] =
  (Returns [["data"; "book_PDFs"; "book - Q1.pdf"]],
   [EvMkdir ["data"; "book_PDFs"]; EvAppStart;
    EvBookOpen ["data"; "book.xlsx"];
    EvReadVisible 0; EvPageSetup 0 true None; EvReadName 0;
    EvToPdf ["data"; "book_PDFs"; "book - Q1.pdf"] "Q1";
    EvReadVisible 1; EvPageSetup 1 true None; EvReadName 1;
    EvToPdf ["data"; "book_PDFs"; "book - Q2.pdf"] "Q2"; EvWarning "Q2";
    EvBookClose; EvAppQuit]).
Proof. vm_compute. reflexivity. Qed.

(** C8 as stated fails when an exception leaves the loop: with a sheet
    whose name cannot be read, the workbook is opened and the engine is
    quit, but the workbook is never closed. *)
Lemma export_skips_close_on_exception :
  let '(r, lg) :=
    export_workbook_sheets_to_pdf (sample_env [unnamed_sheet])
      ["data"; "book.xlsx"] None false true None [] in
  r = Raises EngineError /\
  In (EvBookOpen ["data"; "book.xlsx"]) lg /\
  In EvAppQuit lg /\
  ~ In EvBookClose lg.
Proof.
  vm_compute. split; [reflexivity|]. split; [auto 10|]. split; [auto 10|].
  intros H. repeat (destruct H as [H|H]; [discriminate|]). exact H.
Qed.

End ExportFacts.

(* ===================================================================== *)
(** * More on file-name sanitising                                        *)
(* ===================================================================== *)

Module SafeNameMore.
Import Py PyFacts Converter ConverterSpec.

Lemma chars_app (a b : string) : chars (a ++ b) = (chars a ++ chars b)%list.
Proof.
  induction a as [|c a IH]; [reflexivity|].
  rewrite append_cons. simpl. now rewrite IH.
Qed.

Lemma legal_app (a b : string) : legal a -> legal b -> legal (a ++ b).
Proof.
  intros Ha Hb c Hc. rewrite chars_app in Hc.
  apply List.in_app_or in Hc as [Hc|Hc]; auto.
Qed.

Lemma safe_name_step (c : ascii) (rest r : string) :
  safe_name (String c rest) r =
    (if is_illegal c then r else String c EmptyString) ++ safe_name rest r.
Proof. reflexivity. Qed.

(** With a legal replacement the result is legal. *)
Lemma safe_name_legal (name r : string) : legal r -> legal (safe_name name r).
Proof.
  intros Hr. induction name as [|c rest IH]; [intros c []|].
  rewrite safe_name_step. apply legal_app; [|exact IH].
  destruct (is_illegal c) eqn:E; [exact Hr|].
  intros x [<-|[]]. exact E.
Qed.

(** A legal name is left as it is. *)
Lemma safe_name_clean (name r : string) : legal name -> safe_name name r = name.
Proof.
  induction name as [|c rest IH]; intros Hl; [reflexivity|].
  rewrite safe_name_step, IH.
  - rewrite (Hl c) by (simpl; auto). reflexivity.
  - intros x Hx. apply Hl. simpl. auto.
Qed.

Lemma get_chars (s : string) (i : nat) (c : ascii) :
  String.get i s = Some c -> In c (chars s).
Proof.
  revert i. induction s as [|a s IH]; intros [|i] H; simpl in H;
    try discriminate.
  - injection H as ->. simpl. auto.
  - simpl. right. eauto.
Qed.

(** X1: when the replacement holds no illegal character, no character of
    the sanitised name is illegal, at any position. *)
Theorem safe_name_no_illegal (name r : string) (i : nat) (c : ascii) :
  legal r ->
  String.get i (safe_name name r) = Some c ->
  ~ In c ILLEGAL.
Proof.
  intros Hr Hget Hin.
  pose proof (safe_name_legal name r Hr c (get_chars _ _ _ Hget)) as Hc.
  unfold is_illegal in Hc.
  assert (existsb (Ascii.eqb c) ILLEGAL = true) as Ht.
  { apply existsb_exists. exists c. split; [exact Hin | apply Ascii.eqb_refl]. }
  congruence.
Qed.

Lemma safe_name_no_illegal_witness :
  String.get 1 (safe_name "a/b:c" "_") = Some "_"%char /\
  ~ In "_"%char ILLEGAL.
Proof.
  split; [reflexivity|].
  apply (safe_name_no_illegal "a/b:c" "_" 1).
  - intros c [<-|[]]. reflexivity.
  - reflexivity.
Defined.

(** X2: sanitising is idempotent for a legal replacement, and a name
    without illegal characters is returned unchanged. *)
Theorem safe_name_idempotent (name r : string) :
  legal r ->
  safe_name (safe_name name r) r = safe_name name r /\
  (legal name -> safe_name name r = name).
Proof.
  intros Hr. split.
  - apply safe_name_clean. now apply safe_name_legal.
  - apply safe_name_clean.
Qed.

Lemma safe_name_idempotent_witness :
  safe_name (safe_name "a/b:c" "_") "_" = safe_name "a/b:c" "_" /\
  (legal "a/b:c" -> safe_name "a/b:c" "_" = "a/b:c").
Proof.
  apply (safe_name_idempotent "a/b:c" "_").
  intros c [<-|[]]. reflexivity.
Defined.


End SafeNameMore.

(* ===================================================================== *)
(** * More on the per-sheet export                                        *)
(* ===================================================================== *)

Module ExportMore.
Import Py PyFacts Converter ConverterSpec ExportSpec.

(** What one iteration of the loop adds to [created] when it returns. *)
Lemma export_sheet_created (e : env) (stem_name : string) (out_dir : path)
  (include_hidden fit_to_page : bool) (landscape : option bool)
  (created created' : list path) (i : nat) (sht : sheet)
  (l l' : list event) :
  export_sheet e stem_name out_dir include_hidden fit_to_page landscape
    created i sht l = (Returns created', l') ->
  created' = (created ++ exported include_hidden stem_name out_dir [sht])%list.
Proof.
  unfold export_sheet, exported, qualifies. unfold bind at 1. unfold emit at 1.
  destruct (sht_visible sht) as [vis|ex];
    destruct include_hidden; cbn [negb andb orb];
    try destruct vis; cbn [negb andb orb];
    try (unfold ret; intros [= <- _]; now rewrite List.app_nil_r).
  all: unfold bind at 1;
    destruct (ExportFacts.page_setup_returns e i sht fit_to_page landscape
                (l ++ [EvReadVisible i])%list) as [l1 ->];
    unfold bind, of_outcome, emit, try_except, call, ret, raise;
    destruct (sht_name sht) as [nm|ex']; [|discriminate];
    destruct (sht_to_pdf_ok sht); intros [= <- _];
    rewrite ?List.app_nil_r; reflexivity.
Qed.

Lemma exported_cons (include_hidden : bool) (stem_name : string)
  (out_dir : path) (sht : sheet) (shts : list sheet) :
  exported include_hidden stem_name out_dir (sht :: shts) =
    (exported include_hidden stem_name out_dir [sht]
       ++ exported include_hidden stem_name out_dir shts)%list.
Proof. cbn [exported]. now rewrite List.app_nil_r. Qed.

Lemma export_sheets_created (e : env) (stem_name : string) (out_dir : path)
  (include_hidden fit_to_page : bool) (landscape : option bool)
  (shts : list sheet) :
  forall (created created' : list path) (i : nat) (l l' : list event),
  export_sheets e stem_name out_dir include_hidden fit_to_page landscape
    created i shts l = (Returns created', l') ->
  created' = (created ++ exported include_hidden stem_name out_dir shts)%list.
Proof.
  induction shts as [|sht shts IH]; intros created created' i l l';
    cbn [export_sheets].
  - unfold ret. intros [= <- _]. cbn [exported]. now rewrite List.app_nil_r.
  - unfold bind at 1.
    destruct (export_sheet e stem_name out_dir include_hidden fit_to_page
                landscape created i sht l) as [[c1|ex] l1] eqn:E1;
      [|discriminate].
    apply export_sheet_created in E1. intros H. apply IH in H.
    rewrite H, exported_cons, E1. now rewrite List.app_assoc.
Qed.

(** When the routine returns, the list is the one of [exported]. *)
Lemma export_returns_exported (e : env) (xls_path : path)
  (out_dir : option path) (include_hidden fit_to_page : bool)
  (landscape : option bool) (l l' : list event) (created : list path) :
  export_workbook_sheets_to_pdf e xls_path out_dir include_hidden fit_to_page
    landscape l = (Returns created, l') ->
  created = exported include_hidden (stem xls_path)
              (out_dir_of xls_path out_dir) (sheets e).
Proof.
  unfold export_workbook_sheets_to_pdf. fold (out_dir_of xls_path out_dir).
  destruct (negb (path_exists e)); [discriminate|].
  unfold bind at 1.
  destruct (call (EvMkdir _) (mkdir_ok e) OSError l) as [[u|ex] l1];
    [|discriminate].
  unfold bind at 1.
  destruct (call EvAppStart (app_ok e) EngineError l1) as [[u'|ex] l2];
    [|discriminate].
  unfold try_finally.
  match goal with |- context [bind ?m ?k l2] =>
    destruct (bind m k l2) as [r0 l3] eqn:Hbody end.
  destruct (call EvAppQuit (quit_ok e) EngineError l3) as [[u''|ex] l4];
    [|discriminate].
  intros [= -> _]. revert Hbody. unfold bind at 1.
  destruct (call (EvBookOpen xls_path) (open_ok e) EngineError l2)
    as [[u3|ex] l5]; [|discriminate].
  unfold bind at 1.
  destruct (export_sheets e (stem xls_path) (out_dir_of xls_path out_dir)
              include_hidden fit_to_page landscape [] 0 (sheets e) l5)
    as [[c1|ex] l6] eqn:Hs; [|discriminate].
  apply export_sheets_created in Hs. cbn [List.app] in Hs. subst c1.
  unfold bind, call, emit, ret, raise.
  destruct (close_ok e); [|discriminate]. now intros [= <- _].
Qed.

(** X4: when the per-sheet export returns, the list it returns holds, in
    sheet order, the PDF path of exactly those sheets that are visible (or
    all of them with [include_hidden]) and whose export succeeded; a sheet
    whose export failed or that was skipped leaves no entry and does not
    affect the others. *)
Theorem export_created_list (e : env) (xls_path : path)
  (out_dir : option path) (include_hidden fit_to_page : bool)
  (landscape : option bool) (lg : list event) (created : list path) :
  export_workbook_sheets_to_pdf e xls_path out_dir include_hidden fit_to_page
    landscape [] = (Returns created, lg) ->
  created = exported include_hidden (stem xls_path)
              (out_dir_of xls_path out_dir) (sheets e) /\
  (List.length created <= List.length (sheets e))%nat.
Proof.
  intros H. apply export_returns_exported in H. split; [exact H|].
  subst created. generalize (out_dir_of xls_path out_dir) as d.
  intros d. induction (sheets e) as [|sht shts IH]; [simpl; lia|].
  rewrite exported_cons, List.length_app. cbn [exported List.length].
  rewrite List.app_nil_r.
  destruct (qualifies include_hidden sht && sht_to_pdf_ok sht)%bool;
    [destruct (sht_name sht)|]; cbn [List.length]; lia.
Qed.

Lemma export_created_list_witness :
  exported false "book" ["data"; "book_PDFs"]
    [plain_sheet "Q1" true; plain_sheet "Q2" false]
    = [["data"; "book_PDFs"; "book - Q1.pdf"]].
Proof.
  pose proof (export_created_list
                (sample_env [plain_sheet "Q1" true; plain_sheet "Q2" false])
                ["data"; "book.xlsx"] None false true None _ _ eq_refl)
    as [H _].
  symmetry. exact H.
Defined.

Lemma exported_in (include_hidden : bool) (stem_name : string)
  (out_dir : path) (shts : list sheet) (p : path) :
  In p (exported include_hidden stem_name out_dir shts) ->
  exists sht nm, In sht shts /\ sht_name sht = Returns nm /\
    qualifies include_hidden sht = true /\ sht_to_pdf_ok sht = true /\
    p = pdf_path_of stem_name out_dir nm.
Proof.
  induction shts as [|sht shts IH]; [intros []|].
  rewrite exported_cons. intros H. apply List.in_app_or in H as [H|H].
  - cbn [exported] in H. rewrite List.app_nil_r in H.
    destruct (qualifies include_hidden sht) eqn:Q; [|destruct H].
    destruct (sht_to_pdf_ok sht) eqn:T; [|destruct H]. cbn [andb] in H.
    destruct (sht_name sht) as [nm|ex] eqn:N; [|destruct H].
    destruct H as [<-|[]]. exists sht, nm. simpl. auto.
  - destruct (IH H) as (s & nm & Hin & Hrest). exists s, nm. simpl. auto.
Qed.

(** X5: every path the per-sheet export returns lies directly in the
    output directory, and its file name is the sanitised workbook stem, a
    dash, the sanitised sheet name and ".pdf": no character of it is one
    of the illegal ones. *)
Theorem export_created_names (e : env) (xls_path : path)
  (out_dir : option path) (include_hidden fit_to_page : bool)
  (landscape : option bool) (lg : list event) (created : list path)
  (p : path) :
  export_workbook_sheets_to_pdf e xls_path out_dir include_hidden fit_to_page
    landscape [] = (Returns created, lg) ->
  In p created ->
  parent p = out_dir_of xls_path out_dir /\
  legal (name p) /\
  exists sht nm, In sht (sheets e) /\ sht_name sht = Returns nm /\
    name p = safe_name (stem xls_path) "_" ++ " - " ++ safe_name nm "_"
               ++ ".pdf".
Proof.
  intros H Hin. apply export_returns_exported in H. subst created.
  apply exported_in in Hin as (sht & nm & Hs & Hn & _ & _ & ->).
  unfold pdf_path_of, joinpath, parent, name.
  rewrite List.removelast_last, List.last_last.
  split; [reflexivity|]. split; [|now exists sht, nm].
  assert (Hu : legal "_") by (intros c [<-|[]]; reflexivity).
  repeat apply SafeNameMore.legal_app;
    try (apply SafeNameMore.safe_name_legal; exact Hu).
  - intros c Hc. simpl in Hc.
    destruct Hc as [<-|[<-|[<-|[]]]]; reflexivity.
  - intros c Hc. simpl in Hc.
    destruct Hc as [<-|[<-|[<-|[<-|[]]]]]; reflexivity.
Qed.

Lemma export_created_names_witness :
  legal "re_port - Q1_a.pdf".
Proof.
  pose proof (export_created_names
                (sample_env [plain_sheet "Q1/a" true])
                ["data"; "re:port.xlsx"] None false true None _ _
                ["data"; "re:port_PDFs"; "re_port - Q1_a.pdf"] eq_refl
                (or_introl eq_refl)) as (_ & H & _).
  exact H.
Defined.

(** X6: the engine is started only when the input exists and the output
    directory could be made: a missing input raises [FileNotFoundError]
    before any call, a failing [mkdir] raises before the engine starts; and
    the engine is quit only if it was started. *)
Theorem export_engine_guard (e : env) (xls_path : path)
  (out_dir : option path) (include_hidden fit_to_page : bool)
  (landscape : option bool) :
  let '(r, lg) :=
    export_workbook_sheets_to_pdf e xls_path out_dir include_hidden
      fit_to_page landscape [] in
  (path_exists e = false -> r = Raises FileNotFoundError /\ lg = []) /\
  (path_exists e = true -> mkdir_ok e = false ->
     r = Raises OSError /\ lg = [EvMkdir (out_dir_of xls_path out_dir)]) /\
  (In EvAppStart lg -> path_exists e = true /\ mkdir_ok e = true) /\
  (In EvAppQuit lg -> app_ok e = true).
Proof.
  unfold export_workbook_sheets_to_pdf. fold (out_dir_of xls_path out_dir).
  destruct (path_exists e); cbn [negb].
  - unfold bind at 1, call at 1, bind at 1, emit at 1, ret at 1, raise at 1.
    cbn [List.app].
    destruct (mkdir_ok e).
    + unfold bind at 1, call at 1, bind at 1, emit at 1, ret at 1, raise at 1.
      cbn [List.app].
      destruct (app_ok e).
      * destruct (try_finally _ _ _) as [r lg].
        split; [discriminate|]. split; [discriminate|]. split; auto.
      * split; [discriminate|]. split; [discriminate|]. split; [auto|].
        intros [H1|[H1|[]]]; discriminate.
    + split; [discriminate|]. split; [auto|].
      split; intros [H1|[]]; discriminate.
  - unfold raise. split; [auto|]. split; [discriminate|].
    split; intros [].
Qed.

End ExportMore.

(* ===================================================================== *)
(** * More on the column auto-fit pass                                    *)
(* ===================================================================== *)

Module AutofitMore.
Import Py PyFacts Excel2pdf Spec AutofitFacts.


(** X8: the pass changes nothing but the column widths, and a second pass
    changes nothing at all. *)
Theorem autofit_idempotent (ws ws1 : worksheet) (mn pd mx : Z) :
  autofit_columns_openpyxl ws mn pd mx = Returns ws1 ->
  rows ws1 = rows ws /\ gridLines ws1 = gridLines ws /\
  headings ws1 = headings ws /\ fitToWidth ws1 = fitToWidth ws /\
  fitToHeight ws1 = fitToHeight ws /\ orientation ws1 = orientation ws /\
  autofit_columns_openpyxl ws1 mn pd mx = Returns ws1.
Proof.
  rewrite autofit_returns. intros [= <-].
  repeat (split; [reflexivity|]).
  rewrite autofit_returns. f_equal.
  unfold with_column_dimensions. cbn [rows column_dimensions gridLines
    headings fitToWidth fitToHeight orientation].
  f_equal. unfold cells. cbn [rows].
  set (items := List.fold_left visit_pure (List.concat (rows ws)) []).
  assert (Hnd : List.NoDup (List.map fst items))
    by (apply fold_visit_NoDup; constructor).
  apply map_eq. intros col.
  rewrite !(set_widths_lookup mn pd mx items _ col Hnd).
  destruct (dict_get col items); reflexivity.
Qed.

Lemma autofit_idempotent_witness :
  exists ws1,
    autofit_columns_openpyxl (sheet_of [[text_cell 1 "abc"]] ∅) 8 2 120
      = Returns ws1 /\
    autofit_columns_openpyxl ws1 8 2 120 = Returns ws1.
Proof.
  eexists. split; [apply autofit_returns|].
  apply (autofit_idempotent (sheet_of [[text_cell 1 "abc"]] ∅)).
  apply autofit_returns.
Defined.

(** The maximum kept for a column does not depend on the order of the
    lengths. *)
Lemma fold_update_permutation (l l' : list Z) :
  Permutation l l' ->
  List.fold_left update l None = List.fold_left update l' None.
Proof.
  intros Hp.
  assert (Hin : forall y, In y l <-> In y l').
  { intros y. split; apply Permutation_in; [exact Hp | now symmetry]. }
  destruct (fold_update_None l) as [[-> Hall]|(r & -> & Hr & Hall & Hrin)];
    destruct (fold_update_None l')
      as [[-> Hall']|(r' & -> & Hr' & Hall' & Hrin')].
  - reflexivity.
  - apply Hin in Hrin'. specialize (Hall _ Hrin'). lia.
  - apply Hin in Hrin. specialize (Hall' _ Hrin). lia.
  - f_equal. apply Hin in Hrin. apply Hin in Hrin'.
    specialize (Hall _ Hrin'). specialize (Hall' _ Hrin). lia.
Qed.

Lemma filter_permutation {A} (f : A -> bool) (l l' : list A) :
  Permutation l l' -> Permutation (List.filter f l) (List.filter f l').
Proof.
  induction 1 as [|x l l' _ IH|x y l|l l' l'' _ IH1 _ IH2]; simpl.
  - constructor.
  - destruct (f x); [now constructor | exact IH].
  - destruct (f x), (f y); try reflexivity. constructor.
  - now transitivity (List.filter f l').
Qed.

(** X9: the widths do not depend on the order in which the cells are
    visited: two worksheets with the same cells in any arrangement and the
    same widths before the pass have the same widths after it. *)
Theorem autofit_order_independent (ws1 ws2 ws1' ws2' : worksheet)
  (mn pd mx : Z) :
  Permutation (cells ws1) (cells ws2) ->
  column_dimensions ws1 = column_dimensions ws2 ->
  autofit_columns_openpyxl ws1 mn pd mx = Returns ws1' ->
  autofit_columns_openpyxl ws2 mn pd mx = Returns ws2' ->
  column_dimensions ws1' = column_dimensions ws2'.
Proof.
  intros Hp Hd H1 H2. apply map_eq. intros col.
  rewrite (autofit_lookup ws1 ws1' mn pd mx col H1).
  rewrite (autofit_lookup ws2 ws2' mn pd mx col H2).
  rewrite Hd. unfold column_lengths.
  rewrite (fold_update_permutation _ _
             (Permutation_map estimate
                (filter_permutation
                   (fun c => populated c && Pos.eqb (column c) col)%bool
                   _ _ Hp))).
  reflexivity.
Qed.

Lemma autofit_order_independent_witness :
  exists ws1' ws2',
    autofit_columns_openpyxl
      (sheet_of [[text_cell 1 "abc"; text_cell 1 "abcdefg"]] ∅) 8 2 120
      = Returns ws1' /\
    autofit_columns_openpyxl
      (sheet_of [[text_cell 1 "abcdefg"]; [text_cell 1 "abc"]] ∅) 8 2 120
      = Returns ws2' /\
    column_dimensions ws1' = column_dimensions ws2'.
Proof.
  eexists. eexists. split; [apply autofit_returns|].
  split; [apply autofit_returns|].
  apply (autofit_order_independent
           (sheet_of [[text_cell 1 "abc"; text_cell 1 "abcdefg"]] ∅)
           (sheet_of [[text_cell 1 "abcdefg"]; [text_cell 1 "abc"]] ∅)
           _ _ 8 2 120).
  - apply perm_swap.
  - reflexivity.
  - apply autofit_returns.
  - apply autofit_returns.
Defined.

End AutofitMore.

(* ===================================================================== *)
(** * More on the width estimator                                         *)
(* ===================================================================== *)

Module EstimatorMore.
Import Py PyFacts Excel2pdf Spec.

(** ** The length of a grouped digit string *)


(** ** Tokens survive lower-casing in both directions *)








End EstimatorMore.

(* ===================================================================== *)
(** * More on the print-settings preparer                                 *)
(* ===================================================================== *)

Module PrepareMore.
Import Py PyFacts Excel2pdf Spec AutofitFacts.

(** What the loop body leaves in a sheet. *)
Lemma prepare_sheet_settings (landscape : bool) (fitwide : Z)
  (ws : worksheet) :
  let ws' := prepare_sheet landscape fitwide ws in
  rows ws' = rows ws /\
  autofit_default ws = Returns (with_column_dimensions ws
                                  (column_dimensions ws')) /\
  gridLines ws' = true /\ headings ws' = true /\
  fitToWidth ws' = Z.max 1 fitwide /\ fitToHeight ws' = 0 /\
  orientation ws' = (if landscape then landscape_o else portrait).
Proof.
  unfold prepare_sheet, autofit_default. rewrite autofit_returns.
  cbn. repeat split; reflexivity.
Qed.

(** X11: when the preparation returns, the working copy has as many
    sheets as the input, each with the cells of the input sheet, the
    widths of the auto-fit pass, gridlines and headings switched on,
    fit-to-width [max(1, fitwide)] (so at least 1), fit-to-height 0 and the
    requested orientation. *)
Theorem ensure_print_settings_applies (e : env) (xlsx_path : path)
  (landscape : bool) (fitwide : Z) (w w' : world) (p : path) :
  ensure_print_settings e xlsx_path landscape fitwide w = (Returns p, w') ->
  exists wb wb',
    files w !! xlsx_path = Some (Xlsx wb) /\
    files w' !! p = Some (Xlsx wb') /\
    List.length wb' = List.length wb /\
    forall i ws', List.nth_error wb' i = Some ws' ->
      exists ws ws_fit,
        List.nth_error wb i = Some ws /\ rows ws' = rows ws /\
        autofit_default ws = Returns ws_fit /\
        column_dimensions ws' = column_dimensions ws_fit /\
        gridLines ws' = true /\ headings ws' = true /\
        fitToWidth ws' = Z.max 1 fitwide /\ 1 <= fitToWidth ws' /\
        fitToHeight ws' = 0 /\
        orientation ws' = (if landscape then landscape_o else portrait).
Proof.
  unfold ensure_print_settings, load_workbook, save_workbook.
  unfold bind, emit, write_file, ret, raise. cbn [files log].
  destruct (files w !! xlsx_path) as [[wb| |]|] eqn:Hf; try discriminate.
  destruct (writable e _); [|discriminate].
  intros [= <- <-]. cbn [files].
  exists wb, (List.map (prepare_sheet landscape fitwide) wb).
  split; [reflexivity|]. split; [apply lookup_insert_eq|].
  split; [apply List.length_map|].
  intros i ws' Hi. rewrite List.nth_error_map in Hi.
  destruct (List.nth_error wb i) as [ws|] eqn:Hws; [|discriminate].
  cbn in Hi. injection Hi as <-.
  destruct (prepare_sheet_settings landscape fitwide ws)
    as (Hr & Ha & Hg & Hh & Hw & Ht & Ho).
  exists ws, (with_column_dimensions ws
                (column_dimensions (prepare_sheet landscape fitwide ws))).
  split; [reflexivity|]. split; [exact Hr|]. split; [exact Ha|].
  split; [reflexivity|]. split; [exact Hg|]. split; [exact Hh|].
  split; [exact Hw|]. split; [rewrite Hw; lia|]. split; [exact Ht|exact Ho].
Qed.

Lemma ensure_print_settings_applies_witness :
  exists wb',
    files (snd (ensure_print_settings (sample_env true true)
                  ["data"; "book.xlsx"] true 0
                  (world_with ["data"; "book.xlsx"]
                     (Xlsx [sheet_of [[text_cell 1 "abc"]] ∅]))))
      !! ["tmp"; "book_print_ready.xlsx"] = Some (Xlsx wb') /\
    List.length wb' = 1%nat.
Proof.
  destruct (ensure_print_settings_applies (sample_env true true)
              ["data"; "book.xlsx"] true 0
              (world_with ["data"; "book.xlsx"]
                 (Xlsx [sheet_of [[text_cell 1 "abc"]] ∅]))
              _ ["tmp"; "book_print_ready.xlsx"] eq_refl)
    as (wb & wb' & Hw & Hw' & Hlen & _).
  exists wb'. split; [exact Hw'|].
  rewrite Hlen. vm_compute in Hw. injection Hw as <-. reflexivity.
Defined.

End PrepareMore.

(* ===================================================================== *)
(** * More on the renderers and the driver                                *)
(* ===================================================================== *)

Module DriverMore.
Import Py PyFacts Excel2pdf Spec DriverSpec DriverFacts.

(** ** Which files a computation changes *)

Lemma writes_only_ret (S : path -> Prop) {A} (a : A) :
  writes_only S (ret a : M A).
Proof. intros w p _. reflexivity. Qed.

Lemma writes_only_raise (S : path -> Prop) {A} (e : exn) :
  writes_only S (raise e : M A).
Proof. intros w p _. reflexivity. Qed.

Lemma writes_only_bind (S : path -> Prop) {A B} (m : M A) (k : A -> M B) :
  writes_only S m -> (forall a, writes_only S (k a)) ->
  writes_only S (bind m k).
Proof.
  intros Hm Hk w p Hp. unfold bind. specialize (Hm w p Hp).
  destruct (m w) as [[a|e] w1]; cbn [snd] in *; [|exact Hm].
  now rewrite (Hk a w1 p Hp).
Qed.

Lemma writes_only_try_except (S : path -> Prop) {A} (body : M A)
  (h : exn -> M A) :
  writes_only S body -> (forall e, writes_only S (h e)) ->
  writes_only S (try_except body h).
Proof.
  intros Hm Hh w p Hp. unfold try_except. specialize (Hm w p Hp).
  destruct (body w) as [[a|e] w1]; cbn [snd] in *; [exact Hm|].
  now rewrite (Hh e w1 p Hp).
Qed.

Lemma writes_only_try_finally (S : path -> Prop) {A} (body : M A)
  (final : M unit) :
  writes_only S body -> writes_only S final ->
  writes_only S (try_finally body final).
Proof.
  intros Hm Hf w p Hp. unfold try_finally. specialize (Hm w p Hp).
  destruct (body w) as [r w1]. specialize (Hf w1 p Hp).
  destruct (final w1) as [[u|e] w2]; cbn [snd] in *; congruence.
Qed.

Lemma writes_only_emit (S : path -> Prop) (ev : event) :
  writes_only S (emit ev).
Proof. intros w p _. reflexivity. Qed.

Lemma writes_only_call (S : path -> Prop) (ev : event) (ok : bool)
  (e : exn) : writes_only S (call ev ok e).
Proof.
  apply writes_only_bind; [apply writes_only_emit|].
  intros _. destruct ok; [apply writes_only_ret | apply writes_only_raise].
Qed.

Lemma writes_only_write_file (S : path -> Prop) (p : path) (f : file) :
  S p -> writes_only S (write_file p f).
Proof.
  intros Hp w q Hq. unfold write_file. cbn [snd files].
  apply lookup_insert_ne. intros ->. contradiction.
Qed.

Lemma writes_only_exists_file (S : path -> Prop) (p : path) :
  writes_only S (exists_file p).
Proof. intros w q _. reflexivity. Qed.

Lemma writes_only_weaken (S T : path -> Prop) {A} (m : M A) :
  (forall p, S p -> T p) -> writes_only S m -> writes_only T m.
Proof. intros HST Hm w p Hp. apply Hm. auto. Qed.

(** A computation that writes nowhere leaves the files as they are. *)
Lemma writes_nothing {A} (m : M A) (w : world) :
  writes_only (fun _ => False) m -> files (snd (m w)) = files w.
Proof. intros H. apply map_eq. intros p. apply H. tauto. Qed.

Lemma writes_only_open_book (S : path -> Prop) (e : env) (p : path) :
  writes_only S (open_book e p).
Proof.
  apply writes_only_bind; [apply writes_only_emit|]. intros _ w q _.
  destruct (xw_book_ok e); [|reflexivity].
  destruct (files w !! p) as [[wb| |]|]; reflexivity.
Qed.

Lemma writes_only_excel_sheets (S : path -> Prop) (e : env)
  (landscape : bool) (fitwide : Z) (i n : nat) :
  writes_only S (excel_sheets e landscape fitwide i n).
Proof.
  revert i. induction n as [|n IH]; intros i; cbn [excel_sheets].
  - apply writes_only_ret.
  - apply writes_only_bind; [|intros _; apply IH].
    apply writes_only_bind.
    + apply writes_only_try_except; [apply writes_only_call|].
      intros _. apply writes_only_ret.
    + intros _. apply writes_only_call.
Qed.

(** ** Reading a returned value back through the combinators *)

Lemma bind_inv {A B} (m : M A) (k : A -> M B) (w w' : world) (b : B) :
  bind m k w = (Returns b, w') ->
  exists a w1, m w = (Returns a, w1) /\ k a w1 = (Returns b, w').
Proof.
  unfold bind. destruct (m w) as [[a|e] w1]; [eauto | discriminate].
Qed.

Lemma try_except_true_inv (body : M bool) (w w' : world) :
  try_except body (fun _ => ret false) w = (Returns true, w') ->
  body w = (Returns true, w').
Proof.
  unfold try_except, ret. destruct (body w) as [[a|e] w1]; [auto|].
  discriminate.
Qed.

Lemma try_finally_inv {A} (body : M A) (final : M unit) (w w' : world)
  (a : A) :
  try_finally body final w = (Returns a, w') ->
  exists w1, body w = (Returns a, w1) /\ final w1 = (Returns tt, w').
Proof.
  unfold try_finally. destruct (body w) as [r w1].
  destruct (final w1) as [[[]|e] w2] eqn:Ef; [|discriminate].
  intros [= -> ->]. exists w1. split; [reflexivity | exact Ef].
Qed.

Lemma call_inv (ev : event) (ok : bool) (e : exn) (w w' : world) (u : unit) :
  call ev ok e w = (Returns u, w') ->
  ok = true /\ files w' = files w /\ log w' = (log w ++ [ev])%list.
Proof.
  unfold call, bind, emit, ret, raise. destruct ok; [|discriminate].
  intros [= _ <-]. auto.
Qed.

Lemma open_book_inv (e : env) (p : path) (w w' : world) (wb : workbook) :
  open_book e p w = (Returns wb, w') ->
  files w !! p = Some (Xlsx wb) /\ files w' = files w.
Proof.
  unfold open_book, bind, emit. cbn [files log].
  destruct (xw_book_ok e); [|discriminate].
  destruct (files w !! p) as [[wb0| |]|]; try discriminate.
  intros [= -> <-]. auto.
Qed.

(** When renderer A reports success, the PDF of the opened workbook is at
    the requested path and no other file changed. *)
Lemma excel_export_true (e : env) (xlsx_path pdf_path : path)
  (landscape : bool) (fitwide : Z) (w w' : world) :
  excel_export e xlsx_path pdf_path landscape fitwide w = (Returns true, w') ->
  exists wb, files w !! xlsx_path = Some (Xlsx wb) /\
             files w' = <[pdf_path := Pdf wb]> (files w).
Proof.
  unfold excel_export. intros H.
  apply bind_inv in H as ([] & w0 & H0 & H).
  assert (F0 : files w0 = files w) by (now injection H0 as <-).
  destruct (negb (xw_importable e)); [discriminate|].
  apply try_except_true_inv in H.
  apply bind_inv in H as ([] & w1 & H1 & H).
  apply call_inv in H1 as (_ & F1 & _).
  apply try_finally_inv in H as (w2 & H & Hk).
  apply call_inv in Hk as (_ & Fk & _).
  apply bind_inv in H as (wb & w3 & H3 & H).
  apply open_book_inv in H3 as (Hwb & F3).
  apply bind_inv in H as ([] & w4 & H4 & H).
  assert (F4 : files w4 = files w3).
  { pose proof (writes_nothing
                  (excel_sheets e landscape fitwide 0 (List.length wb)) w3
                  (writes_only_excel_sheets _ e landscape fitwide 0 _)) as F.
    now rewrite H4 in F. }
  apply bind_inv in H as ([] & w5 & H5 & H).
  apply call_inv in H5 as (_ & F5 & _).
  apply bind_inv in H as ([] & w6 & H6 & H).
  assert (F6 : files w6 = <[pdf_path := Pdf wb]> (files w5))
    by (now injection H6 as <-).
  apply bind_inv in H as ([] & w7 & H7 & H).
  apply call_inv in H7 as (_ & F7 & _).
  injection H as <-.
  exists wb. split; [congruence|]. congruence.
Qed.

(** Once Excel has been started, the last call of renderer A is the one
    that kills it. *)
Lemma excel_kill_last (e : env) (xlsx_path pdf_path : path)
  (landscape : bool) (fitwide : Z) (w : world) :
  xw_importable e = true -> xw_app_ok e = true ->
  exists l0,
    log (snd (excel_export e xlsx_path pdf_path landscape fitwide w))
      = (l0 ++ [EvExcelKill])%list.
Proof.
  intros Himp Happ. unfold excel_export. rewrite Himp, Happ. cbn [negb].
  set (body := bind (open_book e xlsx_path) _).
  set (kill := call EvExcelKill _ _).
  cbv [bind call emit try_except try_finally ret raise]. cbn [log files].
  match goal with
  | |- context [body ?x] => destruct (body x) as [r0 w0]
  end.
  subst kill.
  cbv [bind call emit ret raise]. cbn [log files].
  destruct (xw_kill_ok e), r0; cbn [snd log]; eauto.
Qed.

(** X12: renderer A never raises.  Without xlwings it reports failure
    after the import attempt alone, with no file changed; once Excel has
    been started, its last engine call is the kill, whatever happened in
    between; and when it reports success, the PDF of the workbook is at
    the requested path and no other file changed. *)
Theorem excel_renderer_discipline (e : env) (xlsx_path pdf_path : path)
  (landscape : bool) (fitwide : Z) (w : world) :
  exists ok w',
    try_export_with_excel_via_xlwings e xlsx_path pdf_path landscape fitwide w
      = (Returns ok, w') /\
    (xw_importable e = false ->
       ok = false /\ files w' = files w /\
       log w' = (log w ++ [EvImportXlwings; EvReturned RendererA false])%list)
    /\
    (xw_importable e = true -> xw_app_ok e = true ->
       exists evs,
         log w' = (log w ++ evs ++ [EvExcelKill; EvReturned RendererA ok])%list)
    /\
    (ok = true ->
       exists wb, files w !! xlsx_path = Some (Xlsx wb) /\
                  files w' = <[pdf_path := Pdf wb]> (files w)).
Proof.
  destruct (excel_run e xlsx_path pdf_path landscape fitwide w)
    as (ok & w' & evs & Hrun & Hlog & _).
  exists ok, w'. split; [exact Hrun|].
  unfold try_export_with_excel_via_xlwings in Hrun.
  apply bind_inv in Hrun as (ok0 & w0 & Hex & Hrest).
  unfold bind, emit, ret in Hrest. injection Hrest as -> <-.
  cbn [files log] in *. split; [|split].
  - intros Himp. revert Hex. unfold excel_export, bind, emit, ret.
    rewrite Himp. cbn [negb]. intros [= <- <-]. cbn [files log].
    split; [reflexivity|]. split; [reflexivity|].
    now rewrite <- List.app_assoc.
  - intros Himp Happ.
    destruct (excel_kill_last e xlsx_path pdf_path landscape fitwide w
                Himp Happ) as (l0 & Hk).
    rewrite Hex in Hk. cbn [snd] in Hk.
    destruct (starts_excel_export e xlsx_path pdf_path landscape fitwide w)
      as (evs1 & Hs).
    rewrite Hex in Hs. cbn [snd] in Hs.
    destruct (List.exists_last (l := EvImportXlwings :: evs1))
      as (evs2 & x & E); [discriminate|].
    rewrite E, List.app_assoc in Hs. rewrite Hs in Hk.
    apply List.app_inj_tail in Hk as [_ ->].
    exists evs2. rewrite Hs. now rewrite <- !List.app_assoc.
  - intros ->. now apply excel_export_true in Hex.
Qed.

(** ** Renderer B *)

Lemma libreoffice_export_true (e : env) (xlsx_path pdf_path : path)
  (w w' : world) :
  libreoffice_export e xlsx_path pdf_path w = (Returns true, w') ->
  is_Some (files w' !! pdf_path).
Proof.
  unfold libreoffice_export. intros H. apply try_except_true_inv in H.
  apply bind_inv in H as ([] & w1 & _ & H).
  destruct (with_suffix_name xlsx_path ".pdf") as [produced|ex];
    [|discriminate].
  cbv zeta in H. apply bind_inv in H as ([] & w2 & _ & H).
  unfold exists_file in H. injection H as Hb <-.
  now apply bool_decide_eq_true_1 in Hb.
Qed.

(** X13: when [convert_one] returns normally, a file is present at the
    requested PDF path. *)
Theorem convert_one_produces_pdf (e : env) (xlsx out_pdf : path)
  (landscape : bool) (fitwide : Z) (w w' : world) :
  convert_one e xlsx out_pdf landscape fitwide w = (Returns tt, w') ->
  is_Some (files w' !! out_pdf).
Proof.
  unfold convert_one. intros H.
  apply bind_inv in H as (prepared & w1 & _ & H).
  apply bind_inv in H as (used_excel & w2 & HA & H).
  unfold try_export_with_excel_via_xlwings in HA.
  apply bind_inv in HA as (ok & w2' & HA & HA').
  unfold bind, emit, ret in HA'. injection HA' as -> <-.
  destruct used_excel; cbn [negb] in H.
  - unfold ret in H. injection H as <-. cbn [files].
    apply excel_export_true in HA as (wb & _ & ->).
    rewrite lookup_insert_eq. eauto.
  - apply bind_inv in H as (used_libre & w3 & HB & H).
    destruct used_libre; cbn [negb] in H; [|discriminate].
    unfold ret in H. injection H as <-.
    unfold try_export_with_libreoffice in HB.
    apply bind_inv in HB as (ok & w3' & HB & HB').
    unfold bind, emit, ret in HB'. injection HB' as -> <-. cbn [files].
    now apply libreoffice_export_true in HB.
Qed.

Lemma convert_one_produces_pdf_witness :
  is_Some
    (files (snd (convert_one (sample_env false true) ["data"; "book.xlsx"]
                   ["out"; "report.pdf"] false 1
                   (world_with ["data"; "book.xlsx"] (Xlsx []))))
       !! ["out"; "report.pdf"]).
Proof.
  apply (convert_one_produces_pdf (sample_env false true)
           ["data"; "book.xlsx"] ["out"; "report.pdf"] false 1
           (world_with ["data"; "book.xlsx"] (Xlsx []))).
  vm_compute. reflexivity.
Defined.

(** ** The input file is never written *)

Lemma writes_only_bind_when (S : path -> Prop) {A B} (R : A -> Prop)
  (m : M A) (k : A -> M B) :
  (forall w a w1, m w = (Returns a, w1) -> R a) ->
  writes_only S m -> (forall a, R a -> writes_only S (k a)) ->
  writes_only S (bind m k).
Proof.
  intros HR Hm Hk w p Hp. unfold bind. specialize (Hm w p Hp).
  destruct (m w) as [[a|ex] w1] eqn:E; cbn [snd] in *; [|exact Hm].
  rewrite (Hk a (HR _ _ _ E) w1 p Hp). exact Hm.
Qed.

Lemma writes_only_ensure (e : env) (xlsx_path : path) (landscape : bool)
  (fitwide : Z) :
  writes_only
    (fun p => p = joinpath (tmpdir e) (stem xlsx_path ++ print_ready_suffix))
    (ensure_print_settings e xlsx_path landscape fitwide).
Proof.
  unfold ensure_print_settings.
  apply writes_only_bind.
  - unfold load_workbook. apply writes_only_bind; [apply writes_only_emit|].
    intros _ w q _. destruct (files w !! xlsx_path) as [[wb| |]|]; reflexivity.
  - intros wb. apply writes_only_bind; [|intros _; apply writes_only_ret].
    unfold save_workbook. destruct (writable e _); [|apply writes_only_raise].
    apply writes_only_bind; [apply writes_only_emit|].
    intros _. now apply writes_only_write_file.
Qed.

Lemma ensure_returns_tmp (e : env) (xlsx_path : path) (landscape : bool)
  (fitwide : Z) (w w1 : world) (p : path) :
  ensure_print_settings e xlsx_path landscape fitwide w = (Returns p, w1) ->
  p = joinpath (tmpdir e) (stem xlsx_path ++ print_ready_suffix).
Proof.
  intros H. unfold ensure_print_settings in H.
  apply bind_inv in H as (wb & w2 & _ & H).
  apply bind_inv in H as ([] & w3 & _ & H).
  unfold ret in H. now injection H as <-.
Qed.

Lemma writes_only_excel (e : env) (xlsx_path pdf_path : path)
  (landscape : bool) (fitwide : Z) :
  writes_only (fun p => p = pdf_path)
    (try_export_with_excel_via_xlwings e xlsx_path pdf_path landscape fitwide).
Proof.
  unfold try_export_with_excel_via_xlwings.
  apply writes_only_bind.
  - unfold excel_export.
    apply writes_only_bind; [apply writes_only_emit|]. intros _.
    destruct (negb (xw_importable e)); [apply writes_only_ret|].
    apply writes_only_try_except; [|intros _; apply writes_only_ret].
    apply writes_only_bind; [apply writes_only_call|]. intros _.
    apply writes_only_try_finally; [|apply writes_only_call].
    apply writes_only_bind; [apply writes_only_open_book|]. intros wb.
    apply writes_only_bind; [apply writes_only_excel_sheets|]. intros _.
    apply writes_only_bind; [apply writes_only_call|]. intros _.
    apply writes_only_bind; [now apply writes_only_write_file|]. intros _.
    apply writes_only_bind; [apply writes_only_call|]. intros _.
    apply writes_only_ret.
  - intros ok. apply writes_only_bind; [apply writes_only_emit|].
    intros _. apply writes_only_ret.
Qed.

Lemma writes_only_libreoffice (e : env) (xlsx_path pdf_path : path) :
  writes_only
    (fun p => p = pdf_path \/ p = soffice_output xlsx_path pdf_path)
    (try_export_with_libreoffice e xlsx_path pdf_path).
Proof.
  unfold try_export_with_libreoffice.
  apply writes_only_bind;
    [|intros ok; apply writes_only_bind; [apply writes_only_emit|];
      intros _; apply writes_only_ret].
  unfold libreoffice_export.
  apply writes_only_try_except; [|intros _; apply writes_only_ret].
  apply writes_only_bind.
  - unfold run_soffice. apply writes_only_bind; [apply writes_only_call|].
    intros _ w q Hq. destruct (soffice_writes e); [|reflexivity].
    destruct (files w !! xlsx_path) as [[wb| |]|]; try reflexivity.
    unfold write_file. cbn [snd files]. apply lookup_insert_ne.
    intros <-. apply Hq. right. reflexivity.
  - intros _. unfold with_suffix_name.
    destruct (String.eqb (name xlsx_path) "");
      [apply (writes_only_raise _ (A := bool))|].
    cbv zeta. apply writes_only_bind; [|intros _; apply writes_only_exists_file].
    apply writes_only_bind; [apply writes_only_exists_file|]. intros b.
    destruct (negb _ && b)%bool; [|apply writes_only_ret].
    unfold replace_file. apply writes_only_bind; [apply writes_only_call|].
    intros _ w q Hq.
    destruct (files w !! joinpath (parent pdf_path) (stem xlsx_path ++ ".pdf"));
      [|reflexivity].
    cbn [snd files].
    rewrite lookup_insert_ne by (intros E; apply Hq; left; now symmetry).
    apply lookup_delete_ne. intros E. apply Hq. right. now symmetry.
Qed.

(** The stem of the working copy's name. *)
Lemma rfind_from_xlsx (a : string) (i : nat) (best : option nat) :
  rfind_from "." (a ++ ".xlsx") i best = Some (i + String.length a)%nat.
Proof.
  revert i best. induction a as [|c a IH]; intros i best.
  - change ("" ++ ".xlsx") with ".xlsx". vm_compute rfind_from.
    cbn [String.length]. f_equal. lia.
  - rewrite append_cons. cbn [rfind_from String.length]. rewrite IH.
    f_equal. lia.
Qed.

Lemma take_length_app (a b : string) : str_take (String.length a) (a ++ b) = a.
Proof.
  induction a as [|c a IH]; [now destruct b|].
  rewrite append_cons. cbn [String.length str_take]. now rewrite IH.
Qed.

Lemma stem_of_xlsx (a : string) :
  a <> "" -> stem_of (a ++ ".xlsx") = a.
Proof.
  intros Ha. unfold stem_of, split_point, rfind.
  rewrite rfind_from_xlsx, length_append. cbn [String.length Nat.add].
  assert (0 < String.length a)%nat by (destruct a; [congruence | simpl; lia]).
  destruct (Nat.ltb_spec 0 (String.length a)); [|lia].
  destruct (Nat.ltb_spec (String.length a) (String.length a + 5 - 1));
    [|lia].
  cbn [andb]. apply take_length_app.
Qed.

Lemma soffice_output_fresh (tmp out_pdf xlsx : path) :
  soffice_output (joinpath tmp (stem xlsx ++ print_ready_suffix)) out_pdf
    <> xlsx.
Proof.
  intros H.
  assert (Hn : name xlsx = stem_of (name xlsx) ++ "_print_ready.pdf").
  { rewrite <- H at 1. unfold soffice_output, name, joinpath, stem.
    rewrite List.last_last. unfold name. rewrite List.last_last.
    unfold stem, name, print_ready_suffix.
    change "_print_ready.xlsx" with ("_print_ready" ++ ".xlsx").
    rewrite <- append_assoc_s, stem_of_xlsx.
    - now rewrite append_assoc_s.
    - destruct (stem_of (List.last xlsx "")); discriminate. }
  rewrite <- (PrepareFacts.stem_suffix (name xlsx)) in Hn at 1.
  apply append_inv_head in Hn.
  destruct (PrepareFacts.suffix_of_shape (name xlsx)) as [E|[rest E]];
    rewrite E in Hn; discriminate.
Qed.

(** X14: [convert_one] never writes, replaces or deletes its input file,
    as long as the requested PDF path is not the input path itself: the
    only paths it touches are the working copy, the PDF path and the
    converter's output next to it, and none of them can be the input. *)
Theorem convert_one_keeps_input (e : env) (xlsx out_pdf : path)
  (landscape : bool) (fitwide : Z) (w : world) :
  out_pdf <> xlsx ->
  files (snd (convert_one e xlsx out_pdf landscape fitwide w)) !! xlsx
    = files w !! xlsx.
Proof.
  intros Hout.
  set (tmp := joinpath (tmpdir e) (stem xlsx ++ print_ready_suffix)).
  set (S := fun p => p = tmp \/ p = out_pdf \/ p = soffice_output tmp out_pdf).
  assert (HS : writes_only S (convert_one e xlsx out_pdf landscape fitwide)).
  { unfold convert_one.
    apply (writes_only_bind_when S (fun a => a = tmp)).
    - intros w0 a w1 H. now apply ensure_returns_tmp in H.
    - eapply writes_only_weaken; [|apply writes_only_ensure].
      intros p ->. left. reflexivity.
    - intros a ->. apply writes_only_bind.
      + eapply writes_only_weaken; [|apply writes_only_excel].
        intros p ->. right. left. reflexivity.
      + intros used_excel. destruct (negb used_excel);
          [|apply writes_only_ret].
        apply writes_only_bind.
        * eapply writes_only_weaken; [|apply writes_only_libreoffice].
          intros p [->| ->]; right; [left | right]; reflexivity.
        * intros used_libre. destruct (negb used_libre);
            [apply writes_only_raise | apply writes_only_ret]. }
  apply HS. intros [H|[H|H]].
  - symmetry in H. now apply PrepareFacts.print_ready_path_fresh in H.
  - congruence.
  - symmetry in H. now apply soffice_output_fresh in H.
Qed.

Lemma convert_one_keeps_input_witness :
  files (snd (convert_one (sample_env false true) ["data"; "book.xlsx"]
                ["out"; "report.pdf"] false 1
                (world_with ["data"; "book.xlsx"] (Xlsx []))))
    !! ["data"; "book.xlsx"] = Some (Xlsx []).
Proof.
  etransitivity.
  - apply (convert_one_keeps_input (sample_env false true)
             ["data"; "book.xlsx"] ["out"; "report.pdf"] false 1
             (world_with ["data"; "book.xlsx"] (Xlsx []))).
    discriminate.
  - reflexivity.
Defined.

(** X15: renderer B never raises.  When the converter cannot be run it
    reports failure and changes no file; when it reports success a file is
    at the requested path; it changes no file but the requested PDF and
    the converter's output next to it; and when the converter runs but
    leaves no output, the answer is only whether a file was already at the
    requested path. *)
Theorem libreoffice_renderer_discipline (e : env) (xlsx_path pdf_path : path)
  (w : world) :
  exists ok w',
    try_export_with_libreoffice e xlsx_path pdf_path w = (Returns ok, w') /\
    (soffice_ok e = false -> ok = false /\ files w' = files w) /\
    (ok = true -> is_Some (files w' !! pdf_path)) /\
    (forall p, p <> pdf_path -> p <> soffice_output xlsx_path pdf_path ->
               files w' !! p = files w !! p) /\
    (soffice_ok e = true -> soffice_writes e = false ->
     name xlsx_path <> "" ->
     files w !! soffice_output xlsx_path pdf_path = None ->
     ok = bool_decide (is_Some (files w !! pdf_path)) /\
     files w' = files w).
Proof.
  destruct (libreoffice_run e xlsx_path pdf_path w)
    as (ok & w' & evs & Hrun & _ & _).
  exists ok, w'. split; [exact Hrun|].
  split; [|split; [|split]].
  - intros Hs. revert Hrun.
    unfold try_export_with_libreoffice, libreoffice_export, run_soffice,
      call, try_except, bind, emit, ret, raise.
    rewrite Hs. now intros [= <- <-].
  - intros ->. unfold try_export_with_libreoffice in Hrun.
    apply bind_inv in Hrun as (ok & w0 & H & H').
    unfold bind, emit, ret in H'. injection H' as -> <-. cbn [files].
    now apply libreoffice_export_true in H.
  - intros p H1 H2.
    pose proof (writes_only_libreoffice e xlsx_path pdf_path w p) as H.
    rewrite Hrun in H. apply H. intros [->| ->]; congruence.
  - intros Hs Hw Hn Hsrc. revert Hrun.
    unfold try_export_with_libreoffice, libreoffice_export, run_soffice,
      call, try_except, bind, emit, ret, raise, with_suffix_name,
      exists_file.
    rewrite Hs, Hw. cbn [files].
    destruct (String.eqb (name xlsx_path) "") eqn:En;
      [now apply String.eqb_eq in En|].
    fold (soffice_output xlsx_path pdf_path). cbn [files]. rewrite Hsrc.
    rewrite andb_false_r. now intros [= <- <-].
Qed.

End DriverMore.

(* ===================================================================== *)
(** * The batch driver: selection, continuation and exit status           *)
(* ===================================================================== *)

Module BatchFacts.
Import Py PyFacts Excel2pdf Spec Batch.

Lemma name_joinpath (d : path) (n : string) : name (joinpath d n) = n.
Proof. unfold name, joinpath. apply List.last_last. Qed.

(** X16: the PDF asked for an Excel input is never the input itself,
    whatever the output directory: a name that is its own stem followed by
    [.pdf] has the suffix [.pdf], which [is_excel_file] rejects. *)
Theorem excel_file_pdf_target_fresh (out f : path) :
  is_excel_file f = true -> pdf_target out f <> f.
Proof.
  intros Hx H. unfold pdf_target in H.
  assert (Hn : stem_of (name f) ++ ".pdf" = name f).
  { unfold stem in H. set (n := stem_of (name f) ++ ".pdf") in *.
    rewrite <- H. symmetry. apply name_joinpath. }
  assert (Hs : stem_of (name f) ++ ".pdf"
               = stem_of (name f) ++ suffix_of (name f))
    by (now rewrite PrepareFacts.stem_suffix).
  apply append_inv_head in Hs.
  unfold is_excel_file, suffix in Hx. rewrite <- Hs in Hx.
  vm_compute in Hx. discriminate.
Qed.

Lemma excel_file_pdf_target_fresh_witness :
  pdf_target ["out"] ["data"; "Book.XLSX"] <> ["data"; "Book.XLSX"].
Proof.
  apply (excel_file_pdf_target_fresh ["out"] ["data"; "Book.XLSX"]).
  vm_compute. reflexivity.
Defined.

Lemma loads_app (l1 l2 : list event) :
  loads (l1 ++ l2) = (loads l1 ++ loads l2)%list.
Proof. apply List.flat_map_app. Qed.

Lemma loads_engine (r : renderer) (evs : list event) :
  List.Forall (fun ev => phase_of ev = Engine r) evs -> loads evs = [].
Proof.
  induction 1 as [|ev evs H _ IH]; [reflexivity|].
  unfold loads in *. cbn [flat_map]. rewrite IH.
  destruct ev; try reflexivity; discriminate.
Qed.

Lemma failures_of_app (l1 l2 : list line) :
  failures_of (l1 ++ l2) = (failures_of l1 ++ failures_of l2)%list.
Proof. apply List.flat_map_app. Qed.

(** One conversion opens its input and no other workbook. *)
Lemma convert_one_loads (e : env) (xlsx out_pdf : path) (landscape : bool)
  (fitwide : Z) (w : world) :
  exists evs,
    log (snd (convert_one e xlsx out_pdf landscape fitwide w))
      = (log w ++ evs)%list /\
    loads evs = [xlsx].
Proof.
  unfold convert_one, bind.
  destruct (DriverFacts.prepare_run e xlsx landscape fitwide w)
    as [(p & w1 & E1 & L1)|(ex & w1 & E1 & L1)]; rewrite E1.
  2:{ exists [EvLoadWorkbook xlsx]. now split. }
  destruct (DriverFacts.excel_run e p out_pdf landscape fitwide w1)
    as (ok & w2 & evs & E2 & L2 & F2). rewrite E2.
  assert (La : loads ((EvImportXlwings :: evs)
                        ++ [EvReturned RendererA ok]) = []).
  { rewrite loads_app. change (loads (EvImportXlwings :: evs))
      with (loads evs). now rewrite (loads_engine RendererA). }
  destruct ok; cbn [negb].
  - unfold ret. cbn [snd]. rewrite L2, L1, <- List.app_assoc.
    eexists. split; [reflexivity|]. rewrite loads_app, La. reflexivity.
  - destruct (DriverFacts.libreoffice_run e p out_pdf w2)
      as (ok' & w3 & evs' & E3 & L3 & F3). rewrite E3.
    assert (Lb : loads ((EvSoffice (parent out_pdf) p :: evs')
                          ++ [EvReturned RendererB ok']) = []).
    { rewrite loads_app. change (loads (EvSoffice (parent out_pdf) p :: evs'))
        with (loads evs'). now rewrite (loads_engine RendererB). }
    assert (log w3 = (log w ++ [EvLoadWorkbook xlsx; EvSaveWorkbook p]
               ++ ((EvImportXlwings :: evs) ++ [EvReturned RendererA false])
               ++ ((EvSoffice (parent out_pdf) p :: evs')
                     ++ [EvReturned RendererB ok']))%list) as L.
    { rewrite L3, L2, L1, <- !List.app_assoc. reflexivity. }
    assert (loads ([EvLoadWorkbook xlsx; EvSaveWorkbook p]
               ++ ((EvImportXlwings :: evs) ++ [EvReturned RendererA false])
               ++ ((EvSoffice (parent out_pdf) p :: evs')
                     ++ [EvReturned RendererB ok'])) = [xlsx]) as Ll.
    { rewrite loads_app.
      rewrite (loads_app ((EvImportXlwings :: evs) ++ _)), La, Lb.
      reflexivity. }
    destruct ok'; cbn [negb]; unfold ret, raise; cbn [snd];
      eexists; (split; [exact L | exact Ll]).
Qed.

(** The loop of the driver never raises: it prints one line for each file,
    in order, keeps one failure for each failed line, and opens each file
    once, in order. *)
Lemma convert_files_run (s : system) (out : path) (landscape : bool)
  (fitwide : Z) (fs : list path) :
  forall (failures : list (path * exn)) (lines : list line) (w : world),
  exists new evs w',
    convert_files s out landscape fitwide fs failures lines w
      = (Returns ((failures ++ failures_of new)%list, (lines ++ new)%list),
         w') /\
    List.Forall2 (line_for out) fs new /\
    log w' = (log w ++ evs)%list /\
    loads evs = fs.
Proof.
  induction fs as [|f rest IH]; intros failures lines w.
  - exists [], [], w. cbn. rewrite !List.app_nil_r. repeat split. constructor.
  - cbn [convert_files]. unfold bind at 1, try_except, bind at 1.
    destruct (convert_one_loads (engines s f) f (joinpath out (stem f ++ ".pdf"))
                landscape fitwide w) as (evs1 & L1 & Ld1).
    destruct (convert_one (engines s f) f (joinpath out (stem f ++ ".pdf"))
                landscape fitwide w) as [[[]|ex] w1]; cbn [snd] in L1;
      unfold ret; cbn [fst snd].
    + destruct (IH failures (lines ++ [LineConverted f (pdf_target out f)])%list
                  w1) as (new & evs & w' & E & F & L & Ld).
      exists (LineConverted f (pdf_target out f) :: new), (evs1 ++ evs)%list, w'.
      unfold pdf_target in *. rewrite E. repeat split.
      * cbn [failures_of flat_map app]. now rewrite <- List.app_assoc.
      * constructor; [now left | exact F].
      * now rewrite L, L1, <- List.app_assoc.
      * now rewrite loads_app, Ld1, Ld.
    + destruct (IH (failures ++ [(f, ex)])%list
                  (lines ++ [LineFailed f ex])%list w1)
        as (new & evs & w' & E & F & L & Ld).
      exists (LineFailed f ex :: new), (evs1 ++ evs)%list, w'.
      rewrite E. repeat split.
      * cbn [failures_of flat_map app]. now rewrite <- !List.app_assoc.
      * constructor; [right; now exists ex | exact F].
      * now rewrite L, L1, <- List.app_assoc.
      * now rewrite loads_app, Ld1, Ld.
Qed.

Lemma failures_of_nil (ls : list line) :
  failures_of ls = [] <-> existsb is_failure ls = false.
Proof.
  induction ls as [|l ls IH]; [now split|].
  unfold failures_of in *. cbn [flat_map existsb].
  destruct l; cbn [is_failure app orb]; try exact IH.
  split; discriminate.
Qed.

(** X17: once the output directory is made, a run over the selected files
    finishes whatever the conversions do: it prints one line for each
    selected file, in order, about that file and its PDF in the output
    directory; it opens each selected file once, in order, and no other
    workbook; and its exit status is 3 if some line reports a failure and 0
    otherwise. *)
Theorem main_batch_report (s : system) (a : args) (w : world)
  (fs : list path) :
  mkdir_ok s (output_dir s a) = true ->
  select_files s a w = Some fs ->
  exists rep evs w',
    main s a w = (Returns rep, w') /\
    List.Forall2 (line_for (output_dir s a)) fs (printed rep) /\
    exit_code rep = (if existsb is_failure (printed rep) then 3 else 0) /\
    log w' = (log w ++ evs)%list /\
    loads evs = fs.
Proof.
  intros Hm Hs. unfold main. rewrite Hm. cbn [negb]. rewrite Hs.
  destruct (convert_files_run s (output_dir s a) (landscape a) (fitwide a)
              fs [] [] w) as (new & evs & w' & E & F & L & Ld).
  unfold bind. rewrite E. unfold ret. cbn [fst snd app].
  eexists. exists evs, w'. split; [reflexivity|]. cbn [printed exit_code].
  repeat split; try assumption.
  destruct (existsb is_failure new) eqn:Ex.
  - destruct (failures_of new) eqn:Ef; [|reflexivity].
    apply failures_of_nil in Ef. congruence.
  - apply failures_of_nil in Ex. now rewrite Ex.
Qed.

Lemma main_batch_report_witness :
  exists rep evs w',
    main sample_system (sample_args ["data"]) sample_world
      = (Returns rep, w') /\
    List.Forall2 (line_for ["data"]) [["data"; "book.xlsx"]] (printed rep) /\
    exit_code rep = (if existsb is_failure (printed rep) then 3 else 0) /\
    log w' = (log sample_world ++ evs)%list /\
    loads evs = [["data"; "book.xlsx"]].
Proof.
  apply (main_batch_report sample_system (sample_args ["data"]) sample_world
           [["data"; "book.xlsx"]]); vm_compute; reflexivity.
Defined.

(** X18: in folder mode the driver opens exactly the entries of the target
    directory that are files with an Excel suffix, each once, in the order
    of the sorted listing: subdirectories and other files are never
    opened. *)
Theorem main_folder_selection (s : system) (a : args) (w : world) :
  mkdir_ok s (output_dir s a) = true ->
  is_dir s (target a) = true ->
  exists rep evs w',
    main s a w = (Returns rep, w') /\
    log w' = (log w ++ evs)%list /\
    loads evs = List.filter (fun p => is_file w p && is_excel_file p)
                  (sorted_iterdir s (target a)) /\
    forall p, In p (loads evs) <->
      In p (sorted_iterdir s (target a)) /\
      is_Some (files w !! p) /\ is_excel_file p = true.
Proof.
  intros Hm Hd. unfold main, select_files. rewrite Hm, Hd. cbn [negb].
  set (fs := List.filter _ _).
  destruct (convert_files_run s (output_dir s a) (landscape a) (fitwide a)
              fs [] [] w) as (new & evs & w' & E & F & L & Ld).
  unfold bind. rewrite E. unfold ret.
  eexists. exists evs, w'. split; [reflexivity|].
  split; [exact L|]. split; [exact Ld|].
  intros p. rewrite Ld. unfold fs. rewrite List.filter_In.
  rewrite andb_true_iff. unfold is_file. rewrite bool_decide_eq_true.
  tauto.
Qed.

Lemma main_folder_selection_witness :
  exists rep evs w',
    main sample_system (sample_args ["data"]) sample_world
      = (Returns rep, w') /\
    log w' = (log sample_world ++ evs)%list /\
    loads evs = [["data"; "book.xlsx"]].
Proof.
  destruct (main_folder_selection sample_system (sample_args ["data"])
              sample_world) as (rep & evs & w' & E & L & Ld & _);
    [reflexivity | reflexivity |].
  exists rep, evs, w'. split; [exact E|]. split; [exact L|].
  rewrite Ld. vm_compute. reflexivity.
Defined.

(** X19: once the output directory is made, the run ends with exit status
    2 exactly when the target is neither a directory nor an Excel file;
    it then prints the one error line and leaves the files and the log
    as they were. *)
Theorem main_rejects_non_excel (s : system) (a : args) (w : world) :
  mkdir_ok s (output_dir s a) = true ->
  exists rep w',
    main s a w = (Returns rep, w') /\
    (exit_code rep = 2 <->
       is_dir s (target a) = false /\ is_excel_file (target a) = false) /\
    (exit_code rep = 2 -> w' = w /\ printed rep = [LineNotExcel]).
Proof.
  intros Hm. unfold main. rewrite Hm. cbn [negb].
  destruct (select_files s a w) as [fs|] eqn:Hs.
  - destruct (convert_files_run s (output_dir s a) (landscape a) (fitwide a)
                fs [] [] w) as (new & evs & w' & E & F & L & Ld).
    unfold bind. rewrite E. unfold ret. cbn [fst snd app].
    eexists. exists w'. split; [reflexivity|]. cbn [exit_code printed].
    assert (Hc : match failures_of new with [] => 0 | _ :: _ => 3 end <> 2)
      by (destruct (failures_of new); discriminate).
    split; [|tauto]. split; [tauto|]. intros [Hd Hx].
    unfold select_files in Hs. rewrite Hd, Hx in Hs. discriminate.
  - eexists. exists w. split; [reflexivity|]. cbn [exit_code printed].
    split; [|auto]. split; [|reflexivity]. intros _.
    unfold select_files in Hs.
    destruct (is_dir s (target a)); [discriminate|].
    destruct (is_excel_file (target a)); [discriminate|]. now split.
Qed.

Lemma main_rejects_non_excel_witness :
  exists rep w',
    main sample_system (sample_args ["data"; "notes.txt"]) sample_world
      = (Returns rep, w') /\
    exit_code rep = 2 /\ w' = sample_world.
Proof.
  destruct (main_rejects_non_excel sample_system
              (sample_args ["data"; "notes.txt"]) sample_world)
    as (rep & w' & E & Hc & Hw); [reflexivity|].
  exists rep, w'. split; [exact E|].
  assert (exit_code rep = 2) as H2
    by (apply Hc; split; vm_compute; reflexivity).
  split; [exact H2 | now apply Hw].
Defined.

End BatchFacts.

(* ===================================================================== *)
(** * The two commands of the command line                                *)
(* ===================================================================== *)

Module CliFacts.
Import Py Converter ConverterSpec ExportSpec Cli CliSpec.

Section Appends.
Context {A B : Type} (P : event -> Prop).

Lemma appends_ret (a : A) : appends P (ret a : Converter.M A).
Proof. intros l. exists []. split; [now rewrite List.app_nil_r | constructor]. Qed.

Lemma appends_raise (e : exn) : appends P (raise e : Converter.M A).
Proof. intros l. exists []. split; [now rewrite List.app_nil_r | constructor]. Qed.

Lemma appends_of_outcome (o : outcome A) : appends P (of_outcome o).
Proof. intros l. exists []. split; [now rewrite List.app_nil_r | constructor]. Qed.

Lemma appends_bind (m : Converter.M A) (k : A -> Converter.M B) :
  appends P m -> (forall a, appends P (k a)) -> appends P (bind m k).
Proof.
  intros Hm Hk l. unfold bind. destruct (Hm l) as (evs1 & E1 & F1).
  destruct (m l) as [[a|e] l1]; cbn [snd] in *.
  - destruct (Hk a l1) as (evs2 & E2 & F2).
    exists (evs1 ++ evs2)%list. split.
    + now rewrite E2, E1, List.app_assoc.
    + now apply List.Forall_app.
  - now exists evs1.
Qed.

Lemma appends_try_except (body : Converter.M A) (h : exn -> Converter.M A) :
  appends P body -> (forall e, appends P (h e)) ->
  appends P (try_except body h).
Proof.
  intros Hm Hh l. unfold try_except. destruct (Hm l) as (evs1 & E1 & F1).
  destruct (body l) as [[a|e] l1]; cbn [snd] in *.
  - now exists evs1.
  - destruct (Hh e l1) as (evs2 & E2 & F2).
    exists (evs1 ++ evs2)%list. split.
    + now rewrite E2, E1, List.app_assoc.
    + now apply List.Forall_app.
Qed.

Lemma appends_try_finally (body : Converter.M A) (final : Converter.M unit) :
  appends P body -> appends P final -> appends P (try_finally body final).
Proof.
  intros Hm Hf l. unfold try_finally. destruct (Hm l) as (evs1 & E1 & F1).
  destruct (body l) as [r l1]; cbn [snd] in *.
  destruct (Hf l1) as (evs2 & E2 & F2).
  exists (evs1 ++ evs2)%list. split.
  - destruct (final l1) as [[u|e] l2]; cbn [snd] in *;
      now rewrite E2, E1, List.app_assoc.
  - now apply List.Forall_app.
Qed.

End Appends.

Lemma appends_emit (P : event -> Prop) (ev : event) :
  P ev -> appends P (Converter.emit ev).
Proof. intros H l. exists [ev]. split; [reflexivity | now constructor]. Qed.

Lemma appends_call (P : event -> Prop) (ev : event) (ok : bool) (e : exn) :
  P ev -> appends P (Converter.call ev ok e).
Proof.
  intros H. apply appends_bind; [now apply appends_emit|].
  intros _. destruct ok; [apply appends_ret | apply appends_raise].
Qed.

Section ExportCalls.
Variables (P : event -> Prop) (e : env) (xls_path : path).
Variables (fit_to_page : bool) (landscape : option bool).
Hypothesis Hsetup :
  forall i, sets_up e fit_to_page landscape = true ->
            P (EvPageSetup i fit_to_page landscape).
Hypothesis Hopen : P (EvBookOpen xls_path).
Hypothesis Hother : forall ev, other ev -> P ev.

Lemma appends_page_setup (i : nat) (sht : sheet) :
  appends P (_apply_page_setup_cross_platform e i sht fit_to_page landscape).
Proof.
  unfold _apply_page_setup_cross_platform. unfold sets_up in Hsetup.
  destruct (is_mac e); cbn [negb orb] in Hsetup.
  - destruct (fit_to_page || bool_decide (is_Some landscape))%bool eqn:E;
      [|apply appends_ret].
    apply appends_try_except; [|intros _; apply appends_ret].
    apply appends_call. now apply Hsetup.
  - apply appends_try_except; [|intros _; apply appends_ret].
    apply appends_call. now apply Hsetup.
Qed.

Lemma appends_export_sheet (stem_name : string) (out_dir : path)
  (include_hidden : bool) (created : list path) (i : nat) (sht : sheet) :
  appends P (export_sheet e stem_name out_dir include_hidden fit_to_page
               landscape created i sht).
Proof.
  unfold export_sheet.
  apply appends_bind; [apply appends_emit; now apply Hother|]. intros _.
  destruct (negb include_hidden && negb _)%bool; [apply appends_ret|].
  apply appends_bind; [apply appends_page_setup|]. intros _.
  apply appends_bind.
  { apply appends_bind; [apply appends_emit; now apply Hother|].
    intros _. apply appends_of_outcome. }
  intros nm. apply appends_try_except.
  - apply appends_bind; [apply appends_call; now apply Hother|].
    intros _. apply appends_ret.
  - intros _. apply appends_bind; [apply appends_emit; now apply Hother|].
    intros _. apply appends_ret.
Qed.

Lemma appends_export_sheets (stem_name : string) (out_dir : path)
  (include_hidden : bool) (shts : list sheet) :
  forall (created : list path) (i : nat),
  appends P (export_sheets e stem_name out_dir include_hidden fit_to_page
               landscape created i shts).
Proof.
  induction shts as [|sht shts IH]; intros created i; cbn [export_sheets].
  - apply appends_ret.
  - apply appends_bind; [apply appends_export_sheet|]. intros c. apply IH.
Qed.

Lemma appends_export (out_dir : option path) (include_hidden : bool) :
  appends P (export_workbook_sheets_to_pdf e xls_path out_dir include_hidden
               fit_to_page landscape).
Proof.
  unfold export_workbook_sheets_to_pdf.
  destruct (negb (path_exists e)); [apply appends_raise|].
  apply appends_bind; [apply appends_call; now apply Hother|]. intros _.
  apply appends_bind; [apply appends_call; now apply Hother|]. intros _.
  apply appends_try_finally; [|apply appends_call; now apply Hother].
  apply appends_bind; [now apply appends_call|]. intros _.
  apply appends_bind; [apply appends_export_sheets|]. intros created.
  apply appends_bind; [apply appends_call; now apply Hother|]. intros _.
  apply appends_ret.
Qed.

End ExportCalls.

Lemma export_page_setup_run (e : env) (xls_path : path)
  (out_dir : option path) (include_hidden fit_to_page : bool)
  (landscape : option bool) :
  appends (fun ev => page_setup_with fit_to_page landscape ev /\
                     (sets_up e fit_to_page landscape = false ->
                      no_page_setup ev))
    (export_workbook_sheets_to_pdf e xls_path out_dir include_hidden
       fit_to_page landscape).
Proof.
  apply appends_export.
  - intros i Hs. split; [now split|]. congruence.
  - now split.
  - intros ev Hev. destruct ev; try (now split); destruct Hev.
Qed.

(** X20: every page setup the per-sheet export asks of the engine carries
    the two arguments the export was called with; and on macOS, when
    neither fitting nor an orientation is asked, no page setup is asked of
    the engine at all. *)
Theorem export_page_setup_as_asked (e : env) (xls_path : path)
  (out_dir : option path) (include_hidden fit_to_page : bool)
  (landscape : option bool) (l : list event) :
  exists evs,
    snd (export_workbook_sheets_to_pdf e xls_path out_dir include_hidden
           fit_to_page landscape l) = (l ++ evs)%list /\
    List.Forall (page_setup_with fit_to_page landscape) evs /\
    (is_mac e = true -> fit_to_page = false -> landscape = None ->
     List.Forall no_page_setup evs).
Proof.
  destruct (export_page_setup_run e xls_path out_dir include_hidden
              fit_to_page landscape l) as (evs & E & F).
  exists evs. split; [exact E|]. split.
  - eapply List.Forall_impl; [|exact F]. now intros ev [H _].
  - intros Hm -> ->. eapply List.Forall_impl; [|exact F].
    intros ev [_ H]. apply H. unfold sets_up. now rewrite Hm.
Qed.

Lemma lift_run {A} (m : Converter.M A) (c : console) :
  lift m c = (fst (m (calls c)),
              {| out := out c; calls := snd (m (calls c)) |}).
Proof. unfold lift. now destruct (m (calls c)). Qed.

Lemma print_created_run (pdfs : list path) :
  forall c, print_created pdfs c
            = (Returns tt, {| out := (out c ++ List.map LineCreated pdfs)%list;
                              calls := calls c |}).
Proof.
  induction pdfs as [|p ps IH]; intros c; cbn [print_created List.map].
  - unfold ret. rewrite List.app_nil_r. now destruct c.
  - unfold bind, print. rewrite IH. cbn [out calls].
    now rewrite <- List.app_assoc.
Qed.

(** X21: [convert] refuses the two orientation flags together with exit
    code 2 before any engine call; otherwise every page setup it asks of
    the engine is made with fitting unless [--no-fit] was given, and with
    landscape for [--landscape], portrait for [--portrait] and no
    orientation when neither flag is given. *)
Theorem convert_orientation (e : env) (input : path) (output : option path)
  (include_hidden portrait landscape no_fit : bool) (c : console) :
  let '(r, c') :=
    convert e input output include_hidden portrait landscape no_fit c in
  (portrait = true -> landscape = true ->
   r = Returns (Exit 2) /\ calls c' = calls c /\
   out c' = (out c ++ [LineChoose])%list) /\
  exists evs,
    calls c' = (calls c ++ evs)%list /\
    forall i f o, In (EvPageSetup i f o) evs ->
      f = negb no_fit /\
      (landscape = true -> o = Some true) /\
      (landscape = false -> portrait = true -> o = Some false) /\
      (landscape = false -> portrait = false -> o = None).
Proof.
  unfold convert.
  destruct (portrait && landscape)%bool eqn:Hb.
  - unfold bind, print, ret. split; [auto|].
    exists []. cbn [calls]. split; [now rewrite List.app_nil_r|].
    intros i f o [].
  - unfold bind at 1. rewrite lift_run.
    destruct (export_page_setup_run e input output include_hidden
                (negb no_fit) (orientation portrait landscape) (calls c))
      as (evs & E & F).
    set (m := export_workbook_sheets_to_pdf _ _ _ _ _ _) in *.
    assert (Hev : forall i f o, In (EvPageSetup i f o) evs ->
              f = negb no_fit /\
              (landscape = true -> o = Some true) /\
              (landscape = false -> portrait = true -> o = Some false) /\
              (landscape = false -> portrait = false -> o = None)).
    { intros i f o Hin. rewrite List.Forall_forall in F.
      destruct (F _ Hin) as [[-> ->] _]. split; [reflexivity|].
      unfold orientation. repeat split; intros; subst; reflexivity. }
    destruct (fst (m (calls c))) as [pdfs|ex].
    + unfold bind. rewrite print_created_run. unfold ret. cbn [out calls].
      split; [intros -> ->; discriminate|].
      exists evs. now split.
    + split; [intros -> ->; discriminate|].
      exists evs. now split.
Qed.

Lemma count_created_run (pdfs : list path) :
  forall total c,
    count_created pdfs total c
      = (Returns (total + Z.of_nat (List.length pdfs)),
         {| out := (out c ++ List.map LineCreated pdfs)%list;
            calls := calls c |}).
Proof.
  induction pdfs as [|p ps IH]; intros total c;
    cbn [count_created List.map List.length].
  - unfold ret. rewrite List.app_nil_r, Z.add_0_r. now destruct c.
  - unfold bind, print. rewrite IH. cbn [out calls].
    rewrite <- List.app_assoc.
    replace (total + 1 + Z.of_nat (List.length ps))
      with (total + Z.of_nat (S (List.length ps))) by lia.
    reflexivity.
Qed.

Lemma convert_each_app (s : system) (folder : path)
  (output_root : option path) (include_hidden fit_to_page : bool)
  (landscape : option bool) (fs1 fs2 : list path) :
  forall total c,
    convert_each s folder output_root include_hidden fit_to_page landscape
      (fs1 ++ fs2) total c
    = bind (convert_each s folder output_root include_hidden fit_to_page
              landscape fs1 total)
        (fun t => convert_each s folder output_root include_hidden
                    fit_to_page landscape fs2 t) c.
Proof.
  induction fs1 as [|f fs1 IH]; intros total c;
    cbn [convert_each app].
  - reflexivity.
  - destruct (negb (has_ext f) || negb (is_file s f))%bool; [apply IH|].
    cbv [bind] in IH |- *.
    destruct (lift (of_outcome (out_dir_for output_root folder f)) c)
      as [[d|ex] c1]; [|reflexivity].
    destruct (lift (export_workbook_sheets_to_pdf (engine s f) f d
                      include_hidden fit_to_page landscape) c1)
      as [[pdfs|ex] c2]; [|reflexivity].
    destruct (count_created pdfs total c2) as [[t|ex] c3]; [|reflexivity].
    apply IH.
Qed.

Lemma convertible_skip (s : system) (f : path) :
  (negb (has_ext f) || negb (is_file s f))%bool = negb (convertible s f).
Proof. unfold convertible. now destruct (has_ext f), (is_file s f). Qed.

(** When the loop returns, it has printed one line for each PDF of each
    workbook it did not skip, and counted them. *)
Lemma convert_each_returns (s : system) (folder : path)
  (output_root : option path) (include_hidden fit_to_page : bool)
  (landscape : option bool) (fs : list path) :
  forall total c t' c',
    convert_each s folder output_root include_hidden fit_to_page landscape
      fs total c = (Returns t', c') ->
    let ps := folder_pdfs s folder output_root include_hidden fs in
    t' = total + Z.of_nat (List.length ps) /\
    out c' = (out c ++ List.map LineCreated ps)%list.
Proof.
  induction fs as [|f fs IH]; intros total c t' c'; cbn [convert_each].
  - unfold ret. intros [= <- <-]. cbn. now rewrite Z.add_0_r, List.app_nil_r.
  - unfold folder_pdfs. cbn [List.filter]. rewrite convertible_skip.
    destruct (convertible s f); cbn [negb]; [|apply IH].
    cbn [flat_map]. unfold bind at 1. rewrite lift_run.
    unfold of_outcome at 1 2. cbn [fst snd]. unfold pdfs_of at 1 3.
    destruct (out_dir_for output_root folder f) as [d|ex]; [|discriminate].
    unfold bind at 1. rewrite lift_run. cbn [calls out].
    destruct (export_workbook_sheets_to_pdf (engine s f) f d include_hidden
                fit_to_page landscape (calls c)) as [[pdfs|ex] l1] eqn:E;
      cbn [fst snd]; [|discriminate].
    apply ExportMore.export_returns_exported in E. subst pdfs.
    unfold bind at 1. rewrite count_created_run. cbn [out calls].
    intros H. apply IH in H. cbn [out] in H. destruct H as [-> ->].
    fold (folder_pdfs s folder output_root include_hidden fs).
    rewrite List.length_app, List.map_app, Nat2Z.inj_add, <- List.app_assoc.
    split; [lia | reflexivity].
Qed.

Lemma opened_app (l1 l2 : list event) :
  opened (l1 ++ l2) = (opened l1 ++ opened l2)%list.
Proof. apply List.flat_map_app. Qed.

Lemma opened_only (f : path) (evs : list event) :
  List.Forall (fun ev => forall p, ev = EvBookOpen p -> p = f) evs ->
  forall p, In p (opened evs) -> p = f.
Proof.
  induction 1 as [|ev evs H _ IH]; [intros p []|].
  intros p. change (ev :: evs) with ([ev] ++ evs)%list.
  rewrite opened_app. intros Hin. apply List.in_app_or in Hin as [Hin|Hin];
    [|now apply IH].
  destruct ev; cbn in Hin; try (now destruct Hin).
  destruct Hin as [<-|[]]. now apply H.
Qed.

(** The loop opens only entries of the listing that it does not skip. *)
Lemma convert_each_opens (s : system) (folder : path)
  (output_root : option path) (include_hidden fit_to_page : bool)
  (landscape : option bool) (fs : list path) :
  forall total c,
  exists evs,
    calls (snd (convert_each s folder output_root include_hidden fit_to_page
                  landscape fs total c)) = (calls c ++ evs)%list /\
    forall p, In p (opened evs) -> In p fs /\ convertible s p = true.
Proof.
  induction fs as [|f fs IH]; intros total c; cbn [convert_each].
  - exists []. split; [now rewrite List.app_nil_r | intros p []].
  - rewrite convertible_skip. destruct (convertible s f) eqn:Hc; cbn [negb].
    2:{ destruct (IH total c) as (evs & E & H). exists evs.
        split; [exact E|].
        intros p Hp. destruct (H p Hp). split; [now right | assumption]. }
    unfold bind at 1. rewrite lift_run. unfold of_outcome at 1 2.
    cbn [fst snd].
    destruct (out_dir_for output_root folder f) as [d|ex].
    2:{ exists []. cbn [snd calls]. split; [now rewrite List.app_nil_r|].
        intros p []. }
    unfold bind at 1. rewrite lift_run. cbn [calls out].
    destruct (appends_export
                (fun ev => forall p, ev = EvBookOpen p -> p = f)
                (engine s f) f fit_to_page landscape) with
      (out_dir := d) (include_hidden := include_hidden) (l := calls c)
      as (evs1 & E1 & F1).
    { intros i _ p. discriminate. }
    { now intros p [= ->]. }
    { intros ev Hev p ->. destruct Hev. }
    destruct (export_workbook_sheets_to_pdf (engine s f) f d include_hidden
                fit_to_page landscape (calls c)) as [[pdfs|ex] l1];
      cbn [fst snd] in *.
    + unfold bind at 1. rewrite count_created_run. cbn [calls out].
      match goal with
      | |- context [convert_each _ _ _ _ _ _ fs ?t ?c0] =>
          destruct (IH t c0) as (evs2 & E2 & H2)
      end.
      cbn [calls] in E2. exists (evs1 ++ evs2)%list. split.
      * now rewrite E2, E1, List.app_assoc.
      * intros p. rewrite opened_app. intros Hin.
        apply List.in_app_or in Hin as [Hin|Hin].
        -- apply (opened_only f) in Hin; [|exact F1]. subst p.
           split; [now left | exact Hc].
        -- destruct (H2 p Hin). split; [now right | assumption].
    + exists evs1. cbn [calls]. split; [exact E1|].
      intros p Hin. apply (opened_only f) in Hin; [|exact F1]. subst p.
      split; [now left | exact Hc].
Qed.

(** X22: when [convert_folder] ends without raising, it either refused the
    two orientation flags together (exit code 2, one line, no engine call)
    or it printed one line for each PDF of each workbook of the listing
    that is a file with one of the four suffixes, in order, followed by
    the summary line, whose count is the number of those lines. *)
Theorem convert_folder_report (s : system) (folder : path)
  (output_root : option path)
  (recursive include_hidden portrait landscape no_fit : bool)
  (c c' : console) (st : status) :
  convert_folder s folder output_root recursive include_hidden portrait
    landscape no_fit c = (Returns st, c') ->
  let files := if recursive then rglob s folder else iterdir s folder in
  let ps := folder_pdfs s folder output_root include_hidden files in
  if (portrait && landscape)%bool then
    st = Exit 2 /\ out c' = (out c ++ [LineChoose])%list /\
    calls c' = calls c
  else
    st = Completed /\
    out c' = (out c ++ List.map LineCreated ps
                ++ [LineDone (Z.of_nat (List.length ps))])%list.
Proof.
  unfold convert_folder. destruct (portrait && landscape)%bool.
  - unfold bind, print, ret. now intros [= <- <-].
  - cbv zeta. unfold bind at 1.
    destruct (convert_each _ _ _ _ _ _ _ _ c) as [[t|ex] c1] eqn:E;
      [|discriminate].
    apply convert_each_returns in E. cbv zeta in E. destruct E as [-> E].
    unfold bind, print, ret. intros [= <- <-]. cbn [out].
    split; [reflexivity|]. rewrite E, <- List.app_assoc. reflexivity.
Qed.

Lemma convert_folder_report_witness :
  exists c',
    convert_folder (sample_system [plain_sheet "Q1" true; plain_sheet "Q2" false])
      ["in"] (Some ["out"]) true false false true false empty_console
      = (Returns Completed, c') /\
    out c' = [LineCreated ["out"; "a - Q1.pdf"];
              LineCreated ["out"; "sub"; "b - Q1.pdf"];
              LineDone 2].
Proof.
  eexists. split; [vm_compute; reflexivity|].
  apply (convert_folder_report
           (sample_system [plain_sheet "Q1" true; plain_sheet "Q2" false])
           ["in"] (Some ["out"]) true false false true false empty_console
           _ Completed).
  vm_compute. reflexivity.
Defined.

(** X23: whatever happens, [convert_folder] opens in the engine only
    entries of the listing that are files with one of the four suffixes. *)
Theorem convert_folder_opens_only (s : system) (folder : path)
  (output_root : option path)
  (recursive include_hidden portrait landscape no_fit : bool)
  (c : console) :
  let files := if recursive then rglob s folder else iterdir s folder in
  exists evs,
    calls (snd (convert_folder s folder output_root recursive include_hidden
                  portrait landscape no_fit c)) = (calls c ++ evs)%list /\
    forall p, In (EvBookOpen p) evs ->
      In p files /\ has_ext p = true /\ is_file s p = true.
Proof.
  cbv zeta. unfold convert_folder.
  destruct (portrait && landscape)%bool.
  - exists []. unfold bind, print, ret. cbn [snd calls].
    split; [now rewrite List.app_nil_r | intros p []].
  - cbv zeta. unfold bind at 1.
    match goal with
    | |- context [convert_each ?s ?d ?r ?h ?f ?o ?fs ?t c] =>
        destruct (convert_each_opens s d r h f o fs t c) as (evs & E & H);
        destruct (convert_each s d r h f o fs t c) as [[t'|ex] c1]
    end; cbn [snd] in *.
    + unfold bind, print, ret. cbn [snd calls]. exists evs.
      split; [exact E|]. intros p Hp.
      assert (Hin : In p (opened evs)).
      { clear - Hp. induction evs as [|ev evs IH]; [destruct Hp|].
        change (ev :: evs) with ([ev] ++ evs)%list. rewrite opened_app.
        apply List.in_or_app. destruct Hp as [->|Hp];
          [left; now left | right; auto]. }
      destruct (H p Hin) as [H1 H2]. unfold convertible in H2.
      apply andb_true_iff in H2. tauto.
    + exists evs. split; [exact E|]. intros p Hp.
      assert (Hin : In p (opened evs)).
      { clear - Hp. induction evs as [|ev evs IH]; [destruct Hp|].
        change (ev :: evs) with ([ev] ++ evs)%list. rewrite opened_app.
        apply List.in_or_app. destruct Hp as [->|Hp];
          [left; now left | right; auto]. }
      destruct (H p Hin) as [H1 H2]. unfold convertible in H2.
      apply andb_true_iff in H2. tauto.
Qed.

(** X24: [convert_folder] does not survive a failing workbook: if the
    export of an entry it does not skip raises, the command raises the
    same exception at once, so that no later entry is opened and no
    summary line is printed. *)
Theorem convert_folder_stops_at_failure (s : system) (folder : path)
  (output_root : option path)
  (recursive include_hidden portrait landscape no_fit : bool)
  (pre post : list path) (f : path) (d : option path) (t : Z)
  (c c1 : console) (ex : exn) (l2 : list event) :
  (portrait && landscape)%bool = false ->
  (if recursive then rglob s folder else iterdir s folder)
    = (pre ++ f :: post)%list ->
  convert_each s folder output_root include_hidden (negb no_fit)
    (orientation portrait landscape) pre 0 c = (Returns t, c1) ->
  convertible s f = true ->
  out_dir_for output_root folder f = Returns d ->
  export_workbook_sheets_to_pdf (engine s f) f d include_hidden (negb no_fit)
    (orientation portrait landscape) (calls c1) = (Raises ex, l2) ->
  convert_folder s folder output_root recursive include_hidden portrait
    landscape no_fit c = (Raises ex, {| out := out c1; calls := l2 |}).
Proof.
  intros Hb Hfiles Hpre Hc Hd Hex. unfold convert_folder.
  rewrite Hb, Hfiles. cbv zeta. unfold bind at 1.
  rewrite convert_each_app. unfold bind at 1. rewrite Hpre.
  cbn [convert_each]. rewrite convertible_skip, Hc. cbn [negb].
  unfold bind at 1. rewrite lift_run. unfold of_outcome at 1 2.
  cbn [fst snd]. rewrite Hd. unfold bind at 1. rewrite lift_run.
  cbn [calls out]. rewrite Hex. reflexivity.
Qed.

Lemma convert_folder_stops_at_failure_witness :
  convert_folder (sample_system [unnamed_sheet]) ["in"] None true false
    false false false empty_console
  = (Raises EngineError,
     {| out := [];
        calls := [EvMkdir ["in"; "a_PDFs"]; EvAppStart;
                  EvBookOpen ["in"; "a.xlsx"]; EvReadVisible 0;
                  EvPageSetup 0 true None; EvReadName 0; EvAppQuit] |}).
Proof.
  apply (convert_folder_stops_at_failure (sample_system [unnamed_sheet])
           ["in"] None true false false false false
           [] [["in"; "readme.md"]; ["in"; "sub"; "b.xls"]] ["in"; "a.xlsx"]
           None 0 empty_console empty_console EngineError);
    vm_compute; reflexivity.
Defined.

End CliFacts.
